(** * crypto_assistant: the scanning, trade-decision and risk core

    A shallow embedding of four modules of the repository,

      - modules/smart_stoploss.py   (class SmartStopLoss)
      - modules/smc_strategy.py     (SMCStrategy.calculate_smc_levels)
      - modules/smc_scanner.py      (class SMCScanner)
      - modules/trading_system.py   (class TradingSystem)

    and the properties of them that the specification states.

    Conventions of the embedding.

      - Python floats are exact rationals ([Q]); every comparison of the
        source is the comparison of [Q], and equalities between computed
        prices are stated with [==].  Rounding has no counterpart.
      - NaN is modelled where the code can produce it: a rolling mean
        over fewer rows than its window is NaN in pandas.  The ATR, and
        with it every stop and target, is a [Py.float], a rational or
        NaN, with the comparisons, [max], [min] and [or] of Python on
        NaN; the indicators of the analysis are [option Q] with [None]
        for NaN.
      - Everything the code obtains from the exchange, the database, the
        clock or the random generator is an explicit argument of the
        function that asks for it.
      - A [try ... except] block is written out as the value its handler
        returns on the path that can raise.
      - [self.position_stops] and the scan results are finite maps;
        [self.positions], whose length and iteration order the code uses,
        is an insertion-ordered association list. *)

From Stdlib Require Import QArith Qminmax Lqa Lia List Sorted Permutation.
From stdpp Require Import gmap strings pretty.
Import ListNotations.

Local Open Scope Q_scope.

(** ** Python builtins on numbers *)

Module Py.

(** [max(a, b)]: the first argument wins unless the second is strictly
    greater. *)
Definition max2 (a b : Q) : Q := if Qlt_le_dec a b then b else a.

(** [min(a, b)]: the first argument wins unless the second is strictly
    smaller. *)
Definition min2 (a b : Q) : Q := if Qlt_le_dec b a then b else a.

(** [abs(x)]. *)
Definition abs (x : Q) : Q := if Qlt_le_dec x 0 then - x else x.

(** *** Floats that may be NaN *)

Inductive float :=
| Num (q : Q)
| NaN.

(** An arithmetic operation: NaN when an operand is NaN. *)
Definition flift2 (f : Q -> Q -> Q) (a b : float) : float :=
  match a, b with
  | Num x, Num y => Num (f x y)
  | _, _ => NaN
  end.

Definition fadd : float -> float -> float := flift2 Qplus.

Definition fsub : float -> float -> float := flift2 Qminus.

Definition fmul : float -> float -> float := flift2 Qmult.

Definition fabs (a : float) : float :=
  match a with
  | Num x => Num (abs x)
  | NaN => NaN
  end.

(** [a < b], false when an operand is NaN. *)
Definition flt (a b : float) : bool :=
  match a, b with
  | Num x, Num y => if Qlt_le_dec x y then true else false
  | _, _ => false
  end.

(** [a <= b], false when an operand is NaN. *)
Definition fle (a b : float) : bool :=
  match a, b with
  | Num x, Num y => if Qlt_le_dec y x then false else true
  | _, _ => false
  end.

(** [a == 0], false for NaN. *)
Definition fis_zero (a : float) : bool :=
  match a with
  | Num x => if Qeq_dec x 0 then true else false
  | NaN => false
  end.

(** [max(a, b)]: [b] only when [b > a], so a NaN in the first place
    stays and a NaN in the second place is passed over. *)
Definition fmax2 (a b : float) : float := if flt a b then b else a.

(** [min(a, b)]: [b] only when [b < a]. *)
Definition fmin2 (a b : float) : float := if flt b a then b else a.

(** [max([x0, x1, ...])] on a non-empty list. *)
Definition fmax_list (x0 : float) (xs : list float) : float := fold_left fmax2 xs x0.

(** [min([x0, x1, ...])] on a non-empty list. *)
Definition fmin_list (x0 : float) (xs : list float) : float := fold_left fmin2 xs x0.

(** The same float: two equal numbers, or NaN twice. *)
Definition feq (a b : float) : Prop :=
  match a, b with
  | Num x, Num y => x == y
  | NaN, NaN => True
  | _, _ => False
  end.

(** [x or d] where [x] is a float or [None]: [None] and [0.0] are falsy,
    NaN is truthy. *)
Definition f_or_else (x : option float) (d : float) : float :=
  match x with
  | Some (Num v) => if Qeq_dec v 0 then d else Num v
  | Some NaN => NaN
  | None => d
  end.

End Py.

(** ** modules/smart_stoploss.py *)

Inductive PositionType := LONG | SHORT.

#[global] Instance PositionType_eq_dec : EqDecision PositionType.
Proof. solve_decision. Defined.

Module SmartStopLoss.

(** [self.settings].  [atr_period] only enters the ATR itself, which is
    an input here. *)
Record Settings := {
  atr_multiplier : Q;
  volatility_threshold : Q;
  trailing_enabled : bool;
  break_even_enabled : bool;
  max_risk_per_trade : Q
}.

(** The values [__init__] installs. *)
Definition default_settings : Settings := {|
  atr_multiplier := 2;
  volatility_threshold := 0.02;
  trailing_enabled := true;
  break_even_enabled := true;
  max_risk_per_trade := 0.02
|}.

(** What one non-empty frame of [get_recent_ohlcv] contributes:
    [calculate_atr] of it, which is NaN when the frame has fewer rows
    than [atr_period] and 0 when the function raised, and the standard
    deviation of its returns ([None] when it is NaN or when
    [calculate_volatility_factor] raised). *)
Record market_data := {
  md_atr : Py.float;
  md_volatility : option Q
}.

(** One value of [self.position_stops]. *)
Record StopInfo := {
  si_symbol : string;
  si_position_type : PositionType;
  si_entry_price : Q;
  current_stop : Py.float;
  dynamic_stop : Py.float;
  trailing_stop : option Py.float;
  break_even_stop : option Q;
  last_updated : Z
}.

Record t := {
  settings : Settings;
  position_stops : gmap string StopInfo
}.

Definition calculate_fixed_stop_loss
    (entry_price : Q) (pt : PositionType) (risk_percent : Q) : Q :=
  match pt with
  | LONG => entry_price * (1 - risk_percent)
  | SHORT => entry_price * (1 + risk_percent)
  end.

(** The default of the [risk_percent] keyword argument. *)
Definition fixed_risk : Q := 0.02.

Definition calculate_volatility_factor (s : Settings) (volatility : option Q) : Q :=
  match volatility with
  | None => 1
  | Some v =>
      if Qlt_le_dec v (volatility_threshold s) then 0.8
      else if Qlt_le_dec (volatility_threshold s * 2) v then 1.5
      else 1
  end.

(** [ohlcv = None]: the frame was empty, or the body raised.  A NaN ATR
    is not equal to 0: it goes on into the stop distance, and [max] and
    [min] keep a NaN in their first place. *)
Definition calculate_dynamic_stop_loss
    (s : Settings) (pt : PositionType) (entry_price : Q)
    (ohlcv : option market_data) : Py.float :=
  match ohlcv with
  | None => Py.Num (calculate_fixed_stop_loss entry_price pt fixed_risk)
  | Some d =>
      if Py.fis_zero (md_atr d) then
        Py.Num (calculate_fixed_stop_loss entry_price pt fixed_risk)
      else
        let volatility_factor := calculate_volatility_factor s (md_volatility d) in
        let base_stop_distance :=
          Py.fmul (Py.fmul (md_atr d) (Py.Num (atr_multiplier s)))
                  (Py.Num volatility_factor) in
        match pt with
        | LONG =>
            Py.fmax2 (Py.fsub (Py.Num entry_price) base_stop_distance)
                     (Py.Num (entry_price * (1 - max_risk_per_trade s)))
        | SHORT =>
            Py.fmin2 (Py.fadd (Py.Num entry_price) base_stop_distance)
                     (Py.Num (entry_price * (1 + max_risk_per_trade s)))
        end
  end.

(** [ohlcv = None]: the frame was empty, or the body raised; both
    return [previous_stop]. *)
Definition calculate_trailing_stop_loss
    (s : Settings) (pt : PositionType) (entry_price current_price : Q)
    (previous_stop : option Py.float) (ohlcv : option market_data)
    : option Py.float :=
  if negb (trailing_enabled s) then previous_stop
  else
    match ohlcv with
    | None => previous_stop
    | Some d =>
        let trailing_distance :=
          Py.fmul (Py.fmul (md_atr d) (Py.Num (atr_multiplier s))) (Py.Num 0.7) in
        match pt, previous_stop with
        | LONG, None => Some (Py.fsub (Py.Num entry_price) trailing_distance)
        | LONG, Some prev =>
            let new_stop := Py.fsub (Py.Num current_price) trailing_distance in
            if Py.flt prev new_stop then Some new_stop else Some prev
        | SHORT, None => Some (Py.fadd (Py.Num entry_price) trailing_distance)
        | SHORT, Some prev =>
            let new_stop := Py.fadd (Py.Num current_price) trailing_distance in
            if Py.flt new_stop prev then Some new_stop else Some prev
        end
    end.

(** The default of the [profit_threshold] keyword argument. *)
Definition default_profit_threshold : Q := 0.01.

(** A zero entry price divides by zero; the handler returns [None]. *)
Definition calculate_break_even_stop
    (s : Settings) (pt : PositionType) (entry_price current_price : Q)
    (profit_threshold : Q) : option Q :=
  if negb (break_even_enabled s) then None
  else if Qeq_dec entry_price 0 then None
  else
    let profit_pct := Py.abs (current_price - entry_price) / entry_price in
    if Qlt_le_dec profit_pct profit_threshold then None
    else
      match pt with
      | LONG => Some (entry_price * 1.001)
      | SHORT => Some (entry_price * 0.999)
      end.

(** [update_position_stop_loss].  [ohlcv50] and [ohlcv20] are the two
    frames the call reads (limits 50 and 20), [now] the clock.  With
    every callee total the outer handler, which would return the fixed
    stop, has no path leading to it. *)
Definition update_position_stop_loss
    (self : t) (position_id symbol : string) (pt : PositionType)
    (entry_price current_price : Q)
    (ohlcv50 ohlcv20 : option market_data) (now : Z) : Py.float * t :=
  let s := settings self in
  let dynamic := calculate_dynamic_stop_loss s pt entry_price ohlcv50 in
  let previous_stop := current_stop <$> (position_stops self !! position_id) in
  let trailing :=
    calculate_trailing_stop_loss s pt entry_price current_price previous_stop ohlcv20 in
  let break_even :=
    calculate_break_even_stop s pt entry_price current_price default_profit_threshold in
  let final_stop :=
    match pt with
    | LONG =>
        Py.fmax_list dynamic
          [Py.f_or_else trailing dynamic; Py.f_or_else (Py.Num <$> break_even) dynamic]
    | SHORT =>
        Py.fmin_list dynamic
          [Py.f_or_else trailing dynamic; Py.f_or_else (Py.Num <$> break_even) dynamic]
    end in
  let info := {|
    si_symbol := symbol;
    si_position_type := pt;
    si_entry_price := entry_price;
    current_stop := final_stop;
    dynamic_stop := dynamic;
    trailing_stop := trailing;
    break_even_stop := break_even;
    last_updated := now
  |} in
  (final_stop,
   {| settings := s;
      position_stops := <[position_id := info]> (position_stops self) |}).

Definition check_stop_loss_hit (self : t) (position_id : string) (current_price : Q) : bool :=
  match position_stops self !! position_id with
  | None => false
  | Some info =>
      match si_position_type info with
      | LONG => Py.fle (Py.Num current_price) (current_stop info)
      | SHORT => Py.fle (current_stop info) (Py.Num current_price)
      end
  end.

Definition get_stop_loss_info (self : t) (position_id : string) : option StopInfo :=
  position_stops self !! position_id.

Definition remove_position_stop (self : t) (position_id : string) : t :=
  {| settings := settings self;
     position_stops := delete position_id (position_stops self) |}.

End SmartStopLoss.

(** ** Generic pieces shared by the scanner and the trading system *)

(** [sorted(l, key=...)] and [list.sort]: a stable sort, written as the
    insertion sort with the same result.  [before y x] says that the key
    of [y] is strictly ahead of the key of [x] in the requested order, so
    elements with equal keys keep their original order, also with
    [reverse=True]. *)
Fixpoint py_insert {A : Type} (before : A -> A -> bool) (x : A) (l : list A) : list A :=
  match l with
  | [] => [x]
  | y :: l' => if before y x then y :: py_insert before x l' else x :: y :: l'
  end.

Definition py_sorted {A : Type} (before : A -> A -> bool) (l : list A) : list A :=
  fold_right (py_insert before) [] l.

Definition Qltb (a b : Q) : bool := if Qlt_le_dec a b then true else false.

(** [key=..., reverse=True]: [y] goes before [x] when its key is the
    greater one. *)
Definition before_desc {A : Type} (key : A -> Q) (y x : A) : bool :=
  Qltb (key x) (key y).

(** [desc key a b]: the key of [b] is not greater than the key of [a]. *)
Definition desc {A : Type} (key : A -> Q) (a b : A) : Prop := key b <= key a.

(** What a call into a collaborator can do: raise, or return. *)
Inductive reply (A : Type) :=
| Raise
| Return (a : A).
Arguments Raise {A}.
Arguments Return {A} a.

(** The warnings and errors written to the loggers; the second component
    is the instrument the message is about. *)
Inductive log_level := WARNING | ERROR.

Record log_entry := {
  lg_level : log_level;
  lg_logger : string;
  lg_subject : string
}.

(** ** modules/smc_strategy.py *)

Module SMCStrategy.

(** A row of [ohlcv_data]. *)
Record candle := {
  c_timestamp : Z;
  c_open : Q;
  c_high : Q;
  c_low : Q;
  c_close : Q;
  c_volume : Q
}.

Inductive Bias := Bullish | Bearish | Neutral.

(** The part of the [smc_data] dictionary that is kept here. *)
Record SMCData := {
  sd_symbol : string;
  sd_timestamp : Z;
  sd_current_price : Q;
  sd_bias : Bias;
  sd_confidence : Q
}.

(** The minimum number of rows. *)
Definition min_rows : nat := 100.

(** [calculate_smc_levels].  [pipeline] stands for the body after the
    guard (data frame, indicators, levels, structure, signals, storage):
    [None] when any step of it raised.  The function returns what the
    caller gets and what it wrote to its logger. *)
Definition calculate_smc_levels
    (pipeline : string -> list candle -> option SMCData)
    (symbol : string) (ohlcv_data : list candle) : option SMCData * list log_entry :=
  if (length ohlcv_data <? min_rows)%nat then
    (None, [ {| lg_level := WARNING; lg_logger := "smc_strategy"; lg_subject := symbol |} ])
  else
    match pipeline symbol ohlcv_data with
    | Some smc_data => (Some smc_data, [])
    | None =>
        (None, [ {| lg_level := ERROR; lg_logger := "smc_strategy"; lg_subject := symbol |} ])
    end.

End SMCStrategy.

(** ** modules/smc_scanner.py *)

Module SMCScanner.

Import SMCStrategy.

Inductive Direction := GoLong | GoShort | Wait.

Inductive RiskLevel := LowRisk | MediumRisk | HighRisk.

(** The part of an opportunity dictionary that is kept here. *)
Record Opportunity := {
  op_symbol : string;
  op_timeframe : string;
  op_current_price : Q;
  op_trade_direction : Direction;
  signal_strength : Q;
  op_risk_level : RiskLevel;
  op_confidence : Q
}.

(** What [scan_single_pair] hands back: [None], the empty dictionary that
    [analyze_trading_opportunity] returns from its handler, or an
    opportunity. *)
Inductive scan_result :=
| RNone
| REmpty
| ROpportunity (o : Opportunity).

(** The collaborators of the scanner.  [get_ohlcv] answers with rows
    ([Return []] also for a falsy answer) or raises; [analyze] is the
    body of [analyze_trading_opportunity]: [None] when it raised. *)
Record World := {
  get_ohlcv : string -> reply (list candle);
  pipeline : string -> list candle -> option SMCData;
  analyze : string -> SMCData -> string -> option Opportunity
}.

(** [self.config.get('min_confidence', 0.7)]. *)
Definition default_min_confidence : Q := 0.7.

Record t := {
  min_confidence : Q;
  is_scanning : bool;
  last_scan_time : option Z;
  scan_results : gmap string Opportunity;
  high_confidence_signals : list Opportunity
}.

Record ScanReport := {
  total_scanned : nat;
  successful_scans : nat;
  rp_high_confidence_signals : list Opportunity;
  scan_time : Z;
  results : gmap string Opportunity
}.

Definition get_all_perpetual_pairs : list string :=
  [ "BTC-USDT-SWAP"; "ETH-USDT-SWAP"; "SOL-USDT-SWAP";
    "ADA-USDT-SWAP"; "DOT-USDT-SWAP"; "XRP-USDT-SWAP";
    "LTC-USDT-SWAP"; "BNB-USDT-SWAP"; "AVAX-USDT-SWAP";
    "MATIC-USDT-SWAP"; "LINK-USDT-SWAP"; "UNI-USDT-SWAP";
    "DOGE-USDT-SWAP"; "ATOM-USDT-SWAP"; "NEAR-USDT-SWAP";
    "ALGO-USDT-SWAP"; "FIL-USDT-SWAP"; "ETC-USDT-SWAP";
    "XLM-USDT-SWAP"; "EOS-USDT-SWAP"; "XTZ-USDT-SWAP";
    "AAVE-USDT-SWAP"; "SUSHI-USDT-SWAP"; "MKR-USDT-SWAP";
    "COMP-USDT-SWAP"; "YFI-USDT-SWAP"; "SNX-USDT-SWAP";
    "SAND-USDT-SWAP"; "MANA-USDT-SWAP"; "ENJ-USDT-SWAP";
    "GALA-USDT-SWAP"; "APE-USDT-SWAP"; "GMT-USDT-SWAP";
    "IMX-USDT-SWAP"; "RNDR-USDT-SWAP"; "OP-USDT-SWAP";
    "ARB-USDT-SWAP"; "APT-USDT-SWAP"; "SUI-USDT-SWAP" ]%string.

Definition scanner_log (lvl : log_level) (pair : string) : log_entry :=
  {| lg_level := lvl; lg_logger := "smc_scanner"; lg_subject := pair |}.

Definition analyze_trading_opportunity
    (w : World) (pair : string) (smc_data : SMCData) (timeframe : string)
    : scan_result * list log_entry :=
  match analyze w pair smc_data timeframe with
  | Some opportunity => (ROpportunity opportunity, [])
  | None => (REmpty, [scanner_log ERROR pair])
  end.

Definition scan_single_pair (w : World) (pair : string) (timeframe : string)
    : scan_result * list log_entry :=
  match get_ohlcv w pair with
  | Raise => (RNone, [scanner_log ERROR pair])
  | Return ohlcv_data =>
      if (length ohlcv_data <? 100)%nat then (RNone, [scanner_log WARNING pair])
      else
        let '(smc_data, lg) := calculate_smc_levels (pipeline w) pair ohlcv_data in
        match smc_data with
        | None => (RNone, lg)
        | Some d =>
            let '(opportunity, lg') := analyze_trading_opportunity w pair d timeframe in
            (opportunity, lg ++ lg')
        end
  end.

(** The accumulators of the collecting loop of [scan_all_pairs]. *)
Record Collected := {
  col_results : gmap string Opportunity;
  col_high_confidence : list Opportunity;
  col_log : list log_entry
}.

(** One iteration of [for future in as_completed(future_to_pair)].
    [task pair] is what [future.result(timeout=60)] does: it raises (the
    task raised, or the wait timed out) or returns the task's value and
    the log lines the task wrote. *)
Definition collect
    (min_conf : Q) (task : string -> reply (scan_result * list log_entry))
    (acc : Collected) (pair : string) : Collected :=
  match task pair with
  | Raise =>
      {| col_results := col_results acc;
         col_high_confidence := col_high_confidence acc;
         col_log := col_log acc ++ [scanner_log ERROR pair] |}
  | Return (ROpportunity result, lg) =>
      {| col_results := <[pair := result]> (col_results acc);
         col_high_confidence :=
           if Qltb (signal_strength result) min_conf
           then col_high_confidence acc
           else col_high_confidence acc ++ [result];
         col_log := col_log acc ++ lg |}
  | Return (_, lg) =>
      {| col_results := col_results acc;
         col_high_confidence := col_high_confidence acc;
         col_log := col_log acc ++ lg |}
  end.

Definition effective_pairs (pairs : list string) : list string :=
  match pairs with
  | [] => get_all_perpetual_pairs
  | _ => pairs
  end.

(** [scan_all_pairs] over any task function.  [completed] is the order
    in which [as_completed] yields the submitted futures, [now] the
    clock.  The rows written by [log_scan_results] are not kept. *)
Definition scan_all_pairs_with
    (task : string -> reply (scan_result * list log_entry))
    (self : t) (pairs : list string) (completed : list string) (now : Z)
    : ScanReport * t * list log_entry :=
  let pairs := effective_pairs pairs in
  let acc :=
    fold_left (collect (min_confidence self) task) completed
      {| col_results := ∅; col_high_confidence := []; col_log := [] |} in
  let results := col_results acc in
  let high := col_high_confidence acc in
  let self' := {|
    min_confidence := min_confidence self;
    is_scanning := false;
    last_scan_time := Some now;
    scan_results := results;
    high_confidence_signals :=
      py_sorted (before_desc signal_strength) high
  |} in
  ({| total_scanned := length pairs;
      successful_scans := size results;
      rp_high_confidence_signals := high;
      scan_time := now;
      results := results |},
   self', col_log acc).

(** [scan_all_pairs]: every task is [scan_single_pair] on the 4H frame,
    which returns on every path. *)
Definition scan_all_pairs
    (w : World) (self : t) (pairs : list string) (completed : list string) (now : Z)
    : ScanReport * t * list log_entry :=
  scan_all_pairs_with (fun pair => Return (scan_single_pair w pair "4H")) self pairs completed now.

Definition get_high_confidence_signals (self : t) (min_conf : option Q) : list Opportunity :=
  let m := match min_conf with Some m => m | None => min_confidence self end in
  List.filter (fun signal => negb (Qltb (signal_strength signal) m)) (high_confidence_signals self).

End SMCScanner.

(** ** modules/trading_system.py *)

(** A Python [dict] with string keys, in insertion order: assigning to a
    key that is present replaces the value where it stands, assigning to
    a new key appends. *)
Fixpoint dict_get {V : Type} (k : string) (d : list (string * V)) : option V :=
  match d with
  | [] => None
  | (k', v) :: d' => if decide (k = k') then Some v else dict_get k d'
  end.

Fixpoint dict_set {V : Type} (k : string) (v : V) (d : list (string * V)) : list (string * V) :=
  match d with
  | [] => [(k, v)]
  | (k', v') :: d' =>
      if decide (k = k') then (k, v) :: d' else (k', v') :: dict_set k v d'
  end.

Fixpoint dict_del {V : Type} (k : string) (d : list (string * V)) : list (string * V) :=
  match d with
  | [] => []
  | (k', v') :: d' =>
      if decide (k = k') then d' else (k', v') :: dict_del k d'
  end.

Module TradingSystem.

Inductive Status := OPEN | CLOSED.

#[global] Instance Status_eq_dec : EqDecision Status.
Proof. solve_decision. Defined.

(** [@dataclass TradingPosition].  Time stamps are integers (seconds);
    the empty [closed_at] of a position that was never closed is [None]. *)
Record TradingPosition := {
  position_id : string;
  symbol : string;
  position_type : PositionType;
  entry_price : Q;
  quantity : Q;
  stop_loss : Py.float;
  take_profit : Py.float;
  status : Status;
  created_at : Z;
  pnl : Q;
  leverage : Z;
  order_id : string;
  exit_price : Q;
  closed_at : option Z;
  close_reason : string
}.

(** [@dataclass SpotHolding]. *)
Record SpotHolding := {
  sh_symbol : string;
  sh_quantity : Q;
  sh_avg_price : Q;
  sh_total_cost : Q;
  sh_last_buy_price : Q;
  sh_last_buy_time : option Z;
  sh_last_sell_price : Q;
  sh_last_sell_time : option Z
}.

(** [trading_mode]; any other string selects neither strategy. *)
Inductive TradingMode := ModeBoth | ModeFutures | ModeSpot | ModeOther.

(** What [_load_configurations] reads, as far as the functions below use
    it. *)
Record Config := {
  risk_percent : Q;
  max_positions : nat;
  trading_mode : TradingMode;
  cooldown_period : Z;
  spot_enabled : bool;
  spot_pairs : list string;
  min_spot_amount : Q;
  max_spot_amount : Q;
  spot_trading_fee : Q;
  futures_enabled : bool;
  futures_pairs : list string;
  default_leverage : Z;
  futures_trading_fee : Q;
  max_daily_loss : Q;
  max_position_size : Q;
  max_daily_trades : nat;
  volatility_filter : bool
}.

(** The defaults of [_load_configurations]. *)
Definition default_config : Config := {|
  risk_percent := 2;
  max_positions := 5;
  trading_mode := ModeBoth;
  cooldown_period := 300;
  spot_enabled := true;
  spot_pairs := ["BTC-USDT"; "ETH-USDT"; "SOL-USDT"]%string;
  min_spot_amount := 10;
  max_spot_amount := 1000;
  spot_trading_fee := 0.001;
  futures_enabled := true;
  futures_pairs := ["BTC-USDT-SWAP"; "ETH-USDT-SWAP"; "SOL-USDT-SWAP"]%string;
  default_leverage := 10;
  futures_trading_fee := 0.0004;
  max_daily_loss := 0.05;
  max_position_size := 0.2;
  max_daily_trades := 20;
  volatility_filter := true
|}.

(** A row handed to [_save_trade_record]; a failed insert is swallowed by
    that function, so the list is the sequence of inserts attempted. *)
Record TradeRecord := {
  tr_id : string;
  tr_symbol : string;
  tr_action : string;
  tr_price : Q;
  tr_quantity : Q;
  tr_pnl : option Q
}.

(** The attributes of a [TradingSystem] that the functions below read or
    write.  [smart_stoploss] is [None] when [_initialize_subsystems]
    failed; [last_reset_date] is [None] until [_check_daily_reset] has
    set [_last_reset_date].  Logger and notification calls change none of
    these attributes and are left out. *)
Record t := {
  config : Config;
  balance : Q;
  available_balance : Q;
  positions : list (string * TradingPosition);
  spot_holdings : gmap string SpotHolding;
  daily_pnl : Q;
  today_start_balance : Q;
  position_count : nat;
  total_trades_today : nat;
  auto_trading : bool;
  last_trade_time : option Z;
  smart_stoploss : option SmartStopLoss.t;
  last_reset_date : option Z;
  trade_records : list TradeRecord
}.

Inductive Signal := SigLong | SigShort | SigHold.

(** [okx_api.get_spot_balance()]: the two keys read from it. *)
Record BalanceInfo := {
  bi_total_balance : option Q;
  bi_available_balance : option Q
}.

(** Everything outside the process, as seen during one pass of the
    control loop or one call from outside it:
    [now] is the clock, [today_start] the midnight before it;
    [price] is the value of [_get_current_price] (cache or ticker,
    [None] when neither has one);
    [set_leverage] is [futures_set_leverage], whose answer is only
    logged;
    [create_order] is [futures_create_order] ([Return None] for a falsy
    order, otherwise the order id);
    [close_order] is [futures_close_position];
    [ohlcv50] and [ohlcv20] are the frames read by the stop engine;
    [futures_signal] and [spot_signal] are the answers of
    [_get_trading_signal_with_confidence] inside the two strategies;
    [spot_buy_order] and [spot_sell_order] say whether the exchange
    returned an order;
    [spot_balance] is [None] for a falsy or failed balance query. *)
Record World := {
  now : Z;
  today_start : Z;
  price : string -> option Q;
  set_leverage : string -> reply bool;
  create_order : string -> PositionType -> Q -> reply (option string);
  close_order : string -> PositionType -> reply bool;
  ohlcv50 : string -> option SmartStopLoss.market_data;
  ohlcv20 : string -> option SmartStopLoss.market_data;
  futures_signal : string -> Signal;
  spot_signal : string -> Signal;
  spot_buy_order : string -> Q -> Q -> reply bool;
  spot_sell_order : string -> Q -> Q -> reply bool;
  spot_balance : option BalanceInfo
}.

(** *** Field updates *)

Definition with_positions (s : t) (ps : list (string * TradingPosition)) : t :=
  {| config := config s; balance := balance s;
     available_balance := available_balance s; positions := ps;
     spot_holdings := spot_holdings s; daily_pnl := daily_pnl s;
     today_start_balance := today_start_balance s;
     position_count := position_count s;
     total_trades_today := total_trades_today s;
     auto_trading := auto_trading s; last_trade_time := last_trade_time s;
     smart_stoploss := smart_stoploss s;
     last_reset_date := last_reset_date s;
     trade_records := trade_records s |}.

Definition with_smart_stoploss (s : t) (ss : option SmartStopLoss.t) : t :=
  {| config := config s; balance := balance s;
     available_balance := available_balance s; positions := positions s;
     spot_holdings := spot_holdings s; daily_pnl := daily_pnl s;
     today_start_balance := today_start_balance s;
     position_count := position_count s;
     total_trades_today := total_trades_today s;
     auto_trading := auto_trading s; last_trade_time := last_trade_time s;
     smart_stoploss := ss;
     last_reset_date := last_reset_date s;
     trade_records := trade_records s |}.

Definition with_auto_trading (s : t) (b : bool) : t :=
  {| config := config s; balance := balance s;
     available_balance := available_balance s; positions := positions s;
     spot_holdings := spot_holdings s; daily_pnl := daily_pnl s;
     today_start_balance := today_start_balance s;
     position_count := position_count s;
     total_trades_today := total_trades_today s;
     auto_trading := b; last_trade_time := last_trade_time s;
     smart_stoploss := smart_stoploss s;
     last_reset_date := last_reset_date s;
     trade_records := trade_records s |}.

(** [self.last_trade_time = time.time(); self.total_trades_today += 1]. *)
Definition note_trade (s : t) (time : Z) : t :=
  {| config := config s; balance := balance s;
     available_balance := available_balance s; positions := positions s;
     spot_holdings := spot_holdings s; daily_pnl := daily_pnl s;
     today_start_balance := today_start_balance s;
     position_count := position_count s;
     total_trades_today := S (total_trades_today s);
     auto_trading := auto_trading s; last_trade_time := Some time;
     smart_stoploss := smart_stoploss s;
     last_reset_date := last_reset_date s;
     trade_records := trade_records s |}.

Definition _save_trade_record (s : t) (r : TradeRecord) : t :=
  {| config := config s; balance := balance s;
     available_balance := available_balance s; positions := positions s;
     spot_holdings := spot_holdings s; daily_pnl := daily_pnl s;
     today_start_balance := today_start_balance s;
     position_count := position_count s;
     total_trades_today := total_trades_today s;
     auto_trading := auto_trading s; last_trade_time := last_trade_time s;
     smart_stoploss := smart_stoploss s;
     last_reset_date := last_reset_date s;
     trade_records := trade_records s ++ [r] |}.

Definition set_pnl (p : TradingPosition) (v : Q) : TradingPosition :=
  {| position_id := position_id p; symbol := symbol p;
     position_type := position_type p; entry_price := entry_price p;
     quantity := quantity p; stop_loss := stop_loss p;
     take_profit := take_profit p; status := status p;
     created_at := created_at p; pnl := v; leverage := leverage p;
     order_id := order_id p; exit_price := exit_price p;
     closed_at := closed_at p; close_reason := close_reason p |}.

Definition set_stop_loss (p : TradingPosition) (v : Py.float) : TradingPosition :=
  {| position_id := position_id p; symbol := symbol p;
     position_type := position_type p; entry_price := entry_price p;
     quantity := quantity p; stop_loss := v;
     take_profit := take_profit p; status := status p;
     created_at := created_at p; pnl := pnl p; leverage := leverage p;
     order_id := order_id p; exit_price := exit_price p;
     closed_at := closed_at p; close_reason := close_reason p |}.

(** The five assignments of [close_position] to the position. *)
Definition mark_closed (p : TradingPosition) (price : Q) (time : Z) (v : Q)
    (reason : string) : TradingPosition :=
  {| position_id := position_id p; symbol := symbol p;
     position_type := position_type p; entry_price := entry_price p;
     quantity := quantity p; stop_loss := stop_loss p;
     take_profit := take_profit p; status := CLOSED;
     created_at := created_at p; pnl := v; leverage := leverage p;
     order_id := order_id p; exit_price := price;
     closed_at := Some time; close_reason := reason |}.

Definition with_balances (s : t) (bal avail : Q) : t :=
  {| config := config s; balance := bal;
     available_balance := avail; positions := positions s;
     spot_holdings := spot_holdings s; daily_pnl := daily_pnl s;
     today_start_balance := today_start_balance s;
     position_count := position_count s;
     total_trades_today := total_trades_today s;
     auto_trading := auto_trading s; last_trade_time := last_trade_time s;
     smart_stoploss := smart_stoploss s;
     last_reset_date := last_reset_date s;
     trade_records := trade_records s |}.

Definition with_daily_pnl (s : t) (v : Q) : t :=
  {| config := config s; balance := balance s;
     available_balance := available_balance s; positions := positions s;
     spot_holdings := spot_holdings s; daily_pnl := v;
     today_start_balance := today_start_balance s;
     position_count := position_count s;
     total_trades_today := total_trades_today s;
     auto_trading := auto_trading s; last_trade_time := last_trade_time s;
     smart_stoploss := smart_stoploss s;
     last_reset_date := last_reset_date s;
     trade_records := trade_records s |}.

Definition with_spot_holdings (s : t) (h : gmap string SpotHolding) : t :=
  {| config := config s; balance := balance s;
     available_balance := available_balance s; positions := positions s;
     spot_holdings := h; daily_pnl := daily_pnl s;
     today_start_balance := today_start_balance s;
     position_count := position_count s;
     total_trades_today := total_trades_today s;
     auto_trading := auto_trading s; last_trade_time := last_trade_time s;
     smart_stoploss := smart_stoploss s;
     last_reset_date := last_reset_date s;
     trade_records := trade_records s |}.

Definition with_position_count (s : t) (n : nat) : t :=
  {| config := config s; balance := balance s;
     available_balance := available_balance s; positions := positions s;
     spot_holdings := spot_holdings s; daily_pnl := daily_pnl s;
     today_start_balance := today_start_balance s;
     position_count := n;
     total_trades_today := total_trades_today s;
     auto_trading := auto_trading s; last_trade_time := last_trade_time s;
     smart_stoploss := smart_stoploss s;
     last_reset_date := last_reset_date s;
     trade_records := trade_records s |}.

(** The four assignments of [_check_daily_reset]. *)
Definition reset_day (s : t) (day : Z) : t :=
  {| config := config s; balance := balance s;
     available_balance := available_balance s; positions := positions s;
     spot_holdings := spot_holdings s; daily_pnl := 0;
     today_start_balance := balance s;
     position_count := position_count s;
     total_trades_today := 0;
     auto_trading := auto_trading s; last_trade_time := last_trade_time s;
     smart_stoploss := smart_stoploss s;
     last_reset_date := Some day;
     trade_records := trade_records s |}.

(** *** Queries *)

Definition is_open (p : TradingPosition) : bool :=
  match status p with OPEN => true | CLOSED => false end.

Definition is_closed (p : TradingPosition) : bool :=
  match status p with OPEN => false | CLOSED => true end.

Definition get_open_positions (s : t) : list TradingPosition :=
  List.filter is_open (map snd (positions s)).

(** A float in a condition: [None] and [0.0] are falsy. *)
Definition truthy (x : option Q) : option Q :=
  match x with
  | Some v => if Qeq_dec v 0 then None else Some v
  | None => None
  end.

(** *** Risk checks *)

Definition _check_market_volatility : bool := true.

Definition _can_execute_trade (w : World) (s : t) : bool :=
  let c := config s in
  if (max_positions c <=? length (positions s))%nat then false
  else if (max_daily_trades c <=? total_trades_today s)%nat then false
  else if
    match last_trade_time s with
    | Some last =>
        if (last =? 0)%Z then false
        else (now w - last <? cooldown_period c)%Z
    | None => false
    end
  then false
  else if volatility_filter c && negb _check_market_volatility then false
  else true.

(** A zero [today_start_balance] divides by zero; the handler returns
    [True]. *)
Definition _check_risk_limits (s : t) : bool :=
  let c := config s in
  if Qeq_dec (today_start_balance s) 0 then true
  else
    let daily_loss_pct := Py.abs (daily_pnl s) / today_start_balance s in
    if Qlt_le_dec daily_loss_pct (max_daily_loss c) then
      (max_positions c <=? length (positions s))%nat
    else true.

(** *** Sizing and profit *)

(** A zero price divides by zero; the handler returns [0.0]. *)
Definition _calculate_position_size (s : t) (price : Q) : Q :=
  let c := config s in
  if Qeq_dec price 0 then 0
  else
    let risk_amount := available_balance s * risk_percent c / 100 in
    let position_size := risk_amount / price in
    let max_size_usdt := available_balance s * max_position_size c in
    let max_size := max_size_usdt / price in
    let min_size := 0.001 in
    let final_size := Py.min2 position_size max_size in
    Py.max2 final_size min_size.

(** A zero price divides by zero and the handler returns 0.  The
    arithmetic is exact here; in the source the product that the test
    compares with the minimum is rounded, and nothing below rests on
    the size times the price reaching the minimum again. *)
Definition _calculate_spot_position_size (s : t) (price : Q) : Q :=
  let c := config s in
  if Qeq_dec price 0 then 0
  else
    let max_size_usdt :=
      Py.min2 (available_balance s * max_position_size c) (max_spot_amount c) in
    let position_size := max_size_usdt / price in
    let min_size_usdt := min_spot_amount c in
    if Qlt_le_dec (position_size * price) min_size_usdt
    then min_size_usdt / price
    else position_size.

Definition _calculate_position_pnl (c : Config) (position : TradingPosition)
    (current_price : Q) : Q :=
  let gross :=
    match position_type position with
    | LONG => (current_price - entry_price position) * quantity position
    | SHORT => (entry_price position - current_price) * quantity position
    end in
  let net :=
    gross - quantity position * entry_price position * futures_trading_fee c * 2 in
  net * inject_Z (leverage position).

Definition _calculate_stop_loss (s : t) (w : World) (sym : string)
    (pt : PositionType) (entry : Q) : Py.float :=
  match smart_stoploss s with
  | Some engine =>
      SmartStopLoss.calculate_dynamic_stop_loss
        (SmartStopLoss.settings engine) pt entry (ohlcv50 w sym)
  | None =>
      match pt with
      | LONG => Py.Num (entry * 0.98)
      | SHORT => Py.Num (entry * 1.02)
      end
  end.

Definition _calculate_take_profit (s : t) (w : World) (sym : string)
    (pt : PositionType) (entry : Q) : Py.float :=
  let stop := _calculate_stop_loss s w sym pt entry in
  let risk := Py.fabs (Py.fsub (Py.Num entry) stop) in
  match pt with
  | LONG => Py.fadd (Py.Num entry) (Py.fmul risk (Py.Num 2))
  | SHORT => Py.fsub (Py.Num entry) (Py.fmul risk (Py.Num 2))
  end.

(** *** Opening a futures position *)

Definition type_name (pt : PositionType) : string :=
  match pt with LONG => "LONG" | SHORT => "SHORT" end.

(** [f"LONG_{symbol}_{int(time.time())}"]. *)
Definition make_position_id (pt : PositionType) (sym : string) (time : Z) : string :=
  (type_name pt +:+ "_" +:+ sym +:+ "_" +:+ pretty time)%string.

(** The common body of [open_long_position] and [open_short_position],
    which differ in the side only.  [qty = None] is the omitted keyword
    argument.  Returns the success flag and the new state; a call to the
    exchange that raises ends in the handler, before anything was
    written. *)
Definition open_position (pt : PositionType) (s : t) (w : World)
    (sym : string) (price_ : Q) (qty : option Q) : bool * t :=
  let qty :=
    match truthy qty with
    | Some q => q
    | None => _calculate_position_size s price_
    end in
  if Qlt_le_dec 0 qty then
    match set_leverage w sym, create_order w sym pt qty with
    | Raise, _ => (false, s)
    | Return _, Raise => (false, s)
    | Return _, Return None => (false, s)
    | Return _, Return (Some oid) =>
        let stop := _calculate_stop_loss s w sym pt price_ in
        let target := _calculate_take_profit s w sym pt price_ in
        let pid := make_position_id pt sym (now w) in
        let position := {|
          position_id := pid; symbol := sym; position_type := pt;
          entry_price := price_; quantity := qty; stop_loss := stop;
          take_profit := target; status := OPEN; created_at := now w;
          pnl := 0; leverage := default_leverage (config s);
          order_id := oid; exit_price := 0; closed_at := None;
          close_reason := EmptyString |} in
        let s1 := with_positions s (dict_set pid position (positions s)) in
        let s2 := with_position_count s1 (S (position_count s1)) in
        let s3 :=
          match smart_stoploss s2 with
          | Some engine =>
              with_smart_stoploss s2
                (Some (snd (SmartStopLoss.update_position_stop_loss
                              engine pid sym pt price_ price_
                              (ohlcv50 w sym) (ohlcv20 w sym) (now w))))
          | None => s2
          end in
        let s4 :=
          _save_trade_record s3
            {| tr_id := pid; tr_symbol := sym;
               tr_action := ("FUTURES_ENTRY_" +:+ type_name pt)%string;
               tr_price := price_; tr_quantity := qty; tr_pnl := None |} in
        (true, s4)
    end
  else (false, s).

Definition open_long_position := open_position LONG.

Definition open_short_position := open_position SHORT.

(** *** Closing a futures position *)

Inductive CloseMessage :=
| MsgClosed          (* the position was closed *)
| MsgNoSuchPosition  (* the id is not in the book *)
| MsgNotOpen         (* the position is already closed *)
| MsgNoPrice         (* no current price *)
| MsgCloseRefused    (* the exchange returned False *)
| MsgCloseError.     (* the call raised *)

Definition close_position (s : t) (w : World) (pid : string) (reason : string)
    : (bool * CloseMessage) * t :=
  match dict_get pid (positions s) with
  | None => ((false, MsgNoSuchPosition), s)
  | Some position =>
      match status position with
      | CLOSED => ((false, MsgNotOpen), s)
      | OPEN =>
          match price w (symbol position) with
          | None => ((false, MsgNoPrice), s)
          | Some current_price =>
              match close_order w (symbol position) (position_type position) with
              | Raise => ((false, MsgCloseError), s)
              | Return false => ((false, MsgCloseRefused), s)
              | Return true =>
                  let v := _calculate_position_pnl (config s) position current_price in
                  let position' := mark_closed position current_price (now w) v reason in
                  let s1 := with_positions s (dict_set pid position' (positions s)) in
                  let s2 := with_daily_pnl s1 (daily_pnl s1 + v) in
                  let s3 := with_balances s2 (balance s2 + v) (available_balance s2 + v) in
                  let s4 :=
                    match smart_stoploss s3 with
                    | Some engine =>
                        with_smart_stoploss s3
                          (Some (SmartStopLoss.remove_position_stop engine pid))
                    | None => s3
                    end in
                  let s5 :=
                    _save_trade_record s4
                      {| tr_id := pid; tr_symbol := symbol position;
                         tr_action := "FUTURES_EXIT"; tr_price := current_price;
                         tr_quantity := quantity position; tr_pnl := Some v |} in
                  ((true, MsgClosed), s5)
              end
          end
      end
  end.

Definition close_all_positions (s : t) (w : World) (reason : string) : t :=
  fold_left
    (fun acc position => snd (close_position acc w (position_id position) reason))
    (get_open_positions s) s.

(** *** Watching the stops of the open positions *)

Definition _should_close_position (engine : option SmartStopLoss.t)
    (position : TradingPosition) (current_price : Q) : bool :=
  let stop_hit :=
    if Py.flt (Py.Num 0) (stop_loss position) then
      match position_type position with
      | LONG => Py.fle (Py.Num current_price) (stop_loss position)
      | SHORT => Py.fle (stop_loss position) (Py.Num current_price)
      end
    else false in
  let target_hit :=
    if Py.flt (Py.Num 0) (take_profit position) then
      match position_type position with
      | LONG => Py.fle (take_profit position) (Py.Num current_price)
      | SHORT => Py.fle (Py.Num current_price) (take_profit position)
      end
    else false in
  if stop_hit then true
  else if target_hit then true
  else
    match engine with
    | Some e => SmartStopLoss.check_stop_loss_hit e (position_id position) current_price
    | None => false
    end.

(** The first loop of [_check_position_stops]: the positions after the
    pass, the stop engine after the pass, and [positions_to_close]. *)
Fixpoint watch_positions (c : Config) (w : World) (engine : option SmartStopLoss.t)
    (items : list (string * TradingPosition))
    : list (string * TradingPosition) * option SmartStopLoss.t * list string :=
  match items with
  | [] => ([], engine, [])
  | (pid, position) :: rest =>
      match status position, price w (symbol position) with
      | OPEN, Some current_price =>
          let position1 :=
            set_pnl position (_calculate_position_pnl c position current_price) in
          let hit := _should_close_position engine position1 current_price in
          let '(position2, engine') :=
            match engine with
            | Some e =>
                let '(updated_stop, e') :=
                  SmartStopLoss.update_position_stop_loss e pid
                    (symbol position1) (position_type position1)
                    (entry_price position1) current_price
                    (ohlcv50 w (symbol position1)) (ohlcv20 w (symbol position1))
                    (now w) in
                (set_stop_loss position1 updated_stop, Some e')
            | None => (position1, None)
            end in
          let '(rest', engine'', to_close) := watch_positions c w engine' rest in
          ((pid, position2) :: rest', engine'',
           if hit then pid :: to_close else to_close)
      | _, _ =>
          let '(rest', engine', to_close) := watch_positions c w engine rest in
          ((pid, position) :: rest', engine', to_close)
      end
  end.

Definition _check_position_stops (s : t) (w : World) : t :=
  let '(items, engine, positions_to_close) :=
    watch_positions (config s) w (smart_stoploss s) (positions s) in
  let s1 := with_smart_stoploss (with_positions s items) engine in
  fold_left (fun acc pid => snd (close_position acc w pid "STOP_LOSS"))
    positions_to_close s1.

(** *** The strategies *)

(** The body of [for symbol in self.futures_pairs[:3]], with its
    [break]. *)
Fixpoint futures_loop (w : World) (symbols : list string) (s : t) : t :=
  match symbols with
  | [] => s
  | sym :: rest =>
      if negb (_can_execute_trade w s) then s
      else
        let s' :=
          match futures_signal w sym, truthy (price w sym) with
          | SigLong, Some current_price =>
              let '(success, s1) := open_long_position s w sym current_price None in
              if success then note_trade s1 (now w) else s1
          | SigShort, Some current_price =>
              let '(success, s1) := open_short_position s w sym current_price None in
              if success then note_trade s1 (now w) else s1
          | _, _ => s
          end in
        futures_loop w rest s'
  end.

Definition _execute_futures_strategy (s : t) (w : World) : t :=
  futures_loop w (firstn 3 (futures_pairs (config s))) s.

Definition spot_buy (s : t) (w : World) (sym : string) (price_ : Q)
    (qty : option Q) : bool * t :=
  let c := config s in
  let qty :=
    match truthy qty with
    | Some q => q
    | None => _calculate_spot_position_size s price_
    end in
  let total_cost := qty * price_ in
  if Qlt_le_dec (available_balance s) total_cost then (false, s)
  else if Qlt_le_dec total_cost (min_spot_amount c) then (false, s)
  else
    match spot_buy_order w sym qty price_ with
    | Raise => (false, s)
    | Return false => (false, s)
    | Return true =>
        let fee := total_cost * spot_trading_fee c in
        let current_holding :=
          match spot_holdings s !! sym with
          | Some h => h
          | None =>
              {| sh_symbol := sym; sh_quantity := 0; sh_avg_price := 0;
                 sh_total_cost := 0; sh_last_buy_price := 0;
                 sh_last_buy_time := None; sh_last_sell_price := 0;
                 sh_last_sell_time := None |}
          end in
        let total_quantity := sh_quantity current_holding + qty in
        let total_cost_new := sh_total_cost current_holding + total_cost in
        let avg :=
          if Qlt_le_dec 0 total_quantity then total_cost_new / total_quantity else 0 in
        let holding := {|
          sh_symbol := sym; sh_quantity := total_quantity; sh_avg_price := avg;
          sh_total_cost := total_cost_new; sh_last_buy_price := price_;
          sh_last_buy_time := Some (now w); sh_last_sell_price := 0;
          sh_last_sell_time := None |} in
        let s1 := with_spot_holdings s (<[sym := holding]> (spot_holdings s)) in
        let s2 := with_balances s1 (balance s1) (available_balance s1 - (total_cost + fee)) in
        let s3 :=
          _save_trade_record s2
            {| tr_id := ("SPOT_BUY_" +:+ sym +:+ "_" +:+ pretty (now w))%string;
               tr_symbol := sym; tr_action := "SPOT_BUY"; tr_price := price_;
               tr_quantity := qty; tr_pnl := Some (- fee) |} in
        (true, s3)
    end.

(** [qty = None] sells the whole holding. *)
Definition spot_sell (s : t) (w : World) (sym : string) (price_ : Q)
    (qty : option Q) : bool * t :=
  let c := config s in
  match spot_holdings s !! sym with
  | None => (false, s)
  | Some h =>
      if Qlt_le_dec 0 (sh_quantity h) then
        let qty := match qty with Some q => q | None => sh_quantity h end in
        if Qlt_le_dec (sh_quantity h) qty then (false, s)
        else
          match spot_sell_order w sym qty price_ with
          | Raise => (false, s)
          | Return false => (false, s)
          | Return true =>
              let gross := (price_ - sh_avg_price h) * qty in
              let fee := (qty * price_) * spot_trading_fee c in
              let net_pnl := gross - fee in
              let remaining_quantity := sh_quantity h - qty in
              let remaining_cost :=
                sh_total_cost h * (remaining_quantity / sh_quantity h) in
              let holding := {|
                sh_symbol := sym; sh_quantity := remaining_quantity;
                sh_avg_price :=
                  if Qlt_le_dec 0 remaining_quantity
                  then remaining_cost / remaining_quantity else 0;
                sh_total_cost := remaining_cost; sh_last_buy_price := 0;
                sh_last_buy_time := None; sh_last_sell_price := price_;
                sh_last_sell_time := Some (now w) |} in
              let s1 := with_spot_holdings s (<[sym := holding]> (spot_holdings s)) in
              let avail := available_balance s1 + (qty * price_ - fee) in
              let s2 := with_balances s1 avail avail in
              let s3 := with_daily_pnl s2 (daily_pnl s2 + net_pnl) in
              let s4 :=
                _save_trade_record s3
                  {| tr_id := ("SPOT_SELL_" +:+ sym +:+ "_" +:+ pretty (now w))%string;
                     tr_symbol := sym; tr_action := "SPOT_SELL"; tr_price := price_;
                     tr_quantity := qty; tr_pnl := Some net_pnl |} in
              (true, s4)
          end
      else (false, s)
  end.

(** The body of [for symbol in self.spot_pairs[:3]]. *)
Definition spot_step (w : World) (s : t) (sym : string) : t :=
  match spot_signal w sym, truthy (price w sym) with
  | SigLong, Some current_price =>
      let held :=
        match spot_holdings s !! sym with
        | Some h => if Qeq_dec (sh_quantity h) 0 then false else true
        | None => false
        end in
      if held then s
      else
        let '(success, s1) := spot_buy s w sym current_price None in
        if success then note_trade s1 (now w) else s1
  | SigShort, Some current_price =>
      match spot_holdings s !! sym with
      | Some h =>
          if Qlt_le_dec 0 (sh_quantity h) then
            let '(success, s1) := spot_sell s w sym current_price (Some (sh_quantity h)) in
            if success then note_trade s1 (now w) else s1
          else s
      | None => s
      end
  | _, _ => s
  end.

Definition _execute_spot_strategy (s : t) (w : World) : t :=
  fold_left (spot_step w) (firstn 3 (spot_pairs (config s))) s.

Definition _execute_trading_strategy (s : t) (w : World) : t :=
  let c := config s in
  let s1 :=
    match trading_mode c with
    | ModeBoth | ModeFutures =>
        if futures_enabled c then _execute_futures_strategy s w else s
    | _ => s
    end in
  match trading_mode c with
  | ModeBoth | ModeSpot =>
      if spot_enabled c then _execute_spot_strategy s1 w else s1
  | _ => s1
  end.

(** *** Account refresh and housekeeping *)

Definition _update_positions_pnl (s : t) (w : World) : t :=
  with_positions s
    (map (fun '(pid, position) =>
            match status position, truthy (price w (symbol position)) with
            | OPEN, Some current_price =>
                (pid, set_pnl position
                        (_calculate_position_pnl (config s) position current_price))
            | _, _ => (pid, position)
            end)
         (positions s)).

Definition _check_daily_reset (s : t) (w : World) : t :=
  match last_reset_date s with
  | None => reset_day s (today_start w)
  | Some d => if (d <? today_start w)%Z then reset_day s (today_start w) else s
  end.

Definition _update_account_info (s : t) (w : World) : t :=
  let s1 :=
    match spot_balance w with
    | Some info =>
        with_balances s
          (default (balance s) (bi_total_balance info))
          (default (available_balance s) (bi_available_balance info))
    | None => s
    end in
  _update_positions_pnl (_check_daily_reset s1 w) w.

(** The order of [closed_at] strings; the empty string comes first. *)
Definition closed_before (a b : option Z) : bool :=
  match a, b with
  | None, Some _ => true
  | Some x, Some y => (x <? y)%Z
  | _, None => false
  end.

(** The number of closed positions kept. *)
Definition retained_closed : nat := 100.

(** [_cleanup_old_data], without the price cache, which is not kept
    here. *)
Definition _cleanup_old_data (s : t) : t :=
  let closed_positions :=
    List.filter (fun '(_, position) => is_closed position) (positions s) in
  if (retained_closed <? length closed_positions)%nat then
    let closed_with_time :=
      py_sorted (fun y x => closed_before (snd y) (snd x))
        (map (fun '(pid, position) => (pid, closed_at position)) closed_positions) in
    let stale := firstn (length closed_with_time - retained_closed) closed_with_time in
    with_positions s
      (fold_left (fun d '(pid, _) => dict_del pid d) stale (positions s))
  else s.

(** *** The control loop *)

(** Called from the loop's own thread: the flag is cleared, then joining
    the current thread raises and the handler returns. *)
Definition stop_auto_trading (s : t) : bool * t :=
  if auto_trading s then (false, with_auto_trading s false)
  else (false, s).

(** One pass of the [while] body of [_auto_trading_loop]; [loop_count]
    is its value after the increment. *)
Definition loop_body (w : World) (loop_count : nat) (s : t) : t :=
  let s1 := if (loop_count mod 10 =? 0)%nat then _update_account_info s w else s in
  if _check_risk_limits s1 then snd (stop_auto_trading s1)
  else
    let s2 := _check_position_stops s1 w in
    let s3 := if _can_execute_trade w s2 then _execute_trading_strategy s2 w else s2 in
    if (loop_count mod 30 =? 0)%nat then _cleanup_old_data s3 else s3.

(** [_auto_trading_loop] over the passes the process lives to make, one
    [World] per pass; [loop_count] is the number of passes made so far. *)
Fixpoint _auto_trading_loop (worlds : list World) (loop_count : nat) (s : t) : t :=
  match worlds with
  | [] => s
  | w :: rest =>
      if auto_trading s then
        _auto_trading_loop rest (S loop_count) (loop_body w (S loop_count) s)
      else s
  end.

(** What can happen to a trading system: a pass of the control loop, or
    one of the calls offered to the front end. *)
Inductive Op :=
| OpLoopPass (w : World) (loop_count : nat)
| OpClose (w : World) (pid : string) (reason : string)
| OpCloseAll (w : World) (reason : string)
| OpOpenLong (w : World) (sym : string) (price_ : Q) (qty : option Q)
| OpOpenShort (w : World) (sym : string) (price_ : Q) (qty : option Q).

Definition apply_op (s : t) (o : Op) : t :=
  match o with
  | OpLoopPass w n => loop_body w n s
  | OpClose w pid reason => snd (close_position s w pid reason)
  | OpCloseAll w reason => close_all_positions s w reason
  | OpOpenLong w sym p q => snd (open_long_position s w sym p q)
  | OpOpenShort w sym p q => snd (open_short_position s w sym p q)
  end.

Definition is_direct_open (o : Op) : bool :=
  match o with
  | OpOpenLong _ _ _ _ | OpOpenShort _ _ _ _ => true
  | _ => false
  end.

End TradingSystem.

(** ** Vocabulary of the statements *)

Module StopTrace.

Import SmartStopLoss.

(** One call of [update_position_stop_loss], with what the engine reads
    from the database while it runs. *)
Record update_call := {
  uc_id : string;
  uc_symbol : string;
  uc_type : PositionType;
  uc_entry : Q;
  uc_price : Q;
  uc_ohlcv50 : option market_data;
  uc_ohlcv20 : option market_data;
  uc_now : Z
}.

Definition run_update (self : t) (c : update_call) : Py.float * t :=
  update_position_stop_loss self (uc_id c) (uc_symbol c) (uc_type c)
    (uc_entry c) (uc_price c) (uc_ohlcv50 c) (uc_ohlcv20 c) (uc_now c).

(** The stops returned, in order, by those calls of a sequence that are
    made for position [pid]. *)
Fixpoint returned_stops (pid : string) (self : t) (calls : list update_call)
    : list Py.float :=
  match calls with
  | [] => []
  | c :: rest =>
      let '(stop, self') := run_update self c in
      if decide (uc_id c = pid)
      then stop :: returned_stops pid self' rest
      else returned_stops pid self' rest
  end.

(** [tighter pt a b]: stop [b] is at least as tight as stop [a], in the
    comparison of floats: [a <= b] for a long position, [b <= a] for a
    short one, which no NaN satisfies. *)
Definition tighter (pt : PositionType) (a b : Py.float) : Prop :=
  match pt with
  | LONG => Py.fle a b = true
  | SHORT => Py.fle b a = true
  end.

(** Each stop is at least as tight as the one before it. *)
Definition non_loosening (pt : PositionType) (stops : list Py.float) : Prop :=
  Sorted (tighter pt) stops.

(** [not_tighter pt a b]: stop [a] is not strictly tighter than stop
    [b].  Between two numbers this is [tighter pt a b]; it also holds
    when one of them is NaN, which compares false with everything. *)
Definition not_tighter (pt : PositionType) (a b : Py.float) : Prop :=
  match pt with
  | LONG => Py.flt b a = false
  | SHORT => Py.flt a b = false
  end.

(** The ATR of the frame, if it is a number, is not negative. *)
Definition frame_ok (d : option market_data) : Prop :=
  match d with
  | Some m =>
      match md_atr m with
      | Py.Num atr => 0 <= atr
      | Py.NaN => True
      end
  | None => True
  end.

(** The ATR of the frame is NaN: the frame has rows, but fewer than
    [atr_period]. *)
Definition short_frame (d : option market_data) : bool :=
  match d with
  | Some m =>
      match md_atr m with
      | Py.NaN => true
      | Py.Num _ => false
      end
  | None => false
  end.

(** The settings are in their meaningful range. *)
Definition settings_ok (s : Settings) : Prop :=
  0 <= atr_multiplier s /\ 0 <= max_risk_per_trade s /\ max_risk_per_trade s <= 1.

(** A call made for position [pid], of side [pt] entered at [entry]:
    it names that side and entry, the price is positive, and each of
    the two frames is empty or has an ATR that is a number and not
    negative. *)
Definition call_ok (pid : string) (pt : PositionType) (entry : Q) (c : update_call) : Prop :=
  uc_id c = pid ->
  uc_type c = pt /\ uc_entry c = entry /\ 0 < uc_price c /\
  frame_ok (uc_ohlcv50 c) /\ short_frame (uc_ohlcv50 c) = false /\
  frame_ok (uc_ohlcv20 c) /\ short_frame (uc_ohlcv20 c) = false.

(** A stop already stored for the position is a number, and positive
    for a short position. *)
Definition stored_ok (pt : PositionType) (self : t) (pid : string) : Prop :=
  forall info, position_stops self !! pid = Some info ->
    exists stop, current_stop info = Py.Num stop /\
                 match pt with
                 | LONG => True
                 | SHORT => 0 < stop
                 end.

(** The unrealized profit of a position as a fraction of its entry
    price, in the direction of the trade. *)
Definition unrealized_profit_pct (pt : PositionType) (entry current : Q) : Q :=
  match pt with
  | LONG => (current - entry) / entry
  | SHORT => (entry - current) / entry
  end.

End StopTrace.

Module SizingSpec.

Import TradingSystem.

(** The sizing rule in the words of the specification: the risk amount
    is the available balance times the risk percent (read as a fraction
    of the balance), the size is the risk amount divided by the distance
    from the entry price to the stop, capped so that the position is
    worth no more than the fraction [max_position_size] of the balance,
    and floored at the minimum size. *)
Definition spec_position_size (s : t) (entry stop : Q) : Q :=
  let c := config s in
  let risk_amount := available_balance s * (risk_percent c / 100) in
  let size := risk_amount / Py.abs (entry - stop) in
  let cap := available_balance s * max_position_size c / entry in
  Qmax (Qmin size cap) 0.001.

(** A fresh system with the default configuration and the default
    initial capital of 1000, without a stop engine. *)
Definition fresh : t := {|
  config := default_config;
  balance := 1000;
  available_balance := 1000;
  positions := [];
  spot_holdings := ∅;
  daily_pnl := 0;
  today_start_balance := 1000;
  position_count := 0;
  total_trades_today := 0;
  auto_trading := false;
  last_trade_time := None;
  smart_stoploss := None;
  last_reset_date := None;
  trade_records := []
|}.

(** A world in which the exchange answers nothing and accepts nothing. *)
Definition silent : World := {|
  now := 0;
  today_start := 0;
  price := fun _ => None;
  set_leverage := fun _ => Return false;
  create_order := fun _ _ _ => Return None;
  close_order := fun _ _ => Return false;
  ohlcv50 := fun _ => None;
  ohlcv20 := fun _ => None;
  futures_signal := fun _ => SigHold;
  spot_signal := fun _ => SigHold;
  spot_buy_order := fun _ _ _ => Return false;
  spot_sell_order := fun _ _ _ => Return false;
  spot_balance := None
|}.

End SizingSpec.

Module Book.

Import TradingSystem.

(** The number of open positions in the book. *)
Definition open_count (s : t) : nat := length (get_open_positions s).

(** The number of closed positions still in the book. *)
Definition closed_count (s : t) : nat :=
  length (List.filter (fun '(_, position) => is_closed position) (positions s)).

(** A candle, for examples where the values do not matter. *)
Definition flat_candle : SMCStrategy.candle := {|
  SMCStrategy.c_timestamp := 0; SMCStrategy.c_open := 100;
  SMCStrategy.c_high := 100; SMCStrategy.c_low := 100;
  SMCStrategy.c_close := 100; SMCStrategy.c_volume := 1
|}.

(** A closed long position, for examples. *)
Definition closed_example : TradingPosition := {|
  position_id := "LONG_BTC-USDT-SWAP_1"; symbol := "BTC-USDT-SWAP";
  position_type := LONG; entry_price := 100; quantity := 1;
  stop_loss := Py.Num 98; take_profit := Py.Num 104; status := CLOSED; created_at := 1;
  pnl := 3; leverage := 10; order_id := "o1"; exit_price := 104;
  closed_at := Some 2%Z; close_reason := "STOP_LOSS"
|}.

(** The same position while it was open. *)
Definition open_example : TradingPosition := {|
  position_id := "LONG_BTC-USDT-SWAP_1"; symbol := "BTC-USDT-SWAP";
  position_type := LONG; entry_price := 100; quantity := 1;
  stop_loss := Py.Num 98; take_profit := Py.Num 104; status := OPEN; created_at := 1;
  pnl := 0; leverage := 10; order_id := "o1"; exit_price := 0;
  closed_at := None; close_reason := EmptyString
|}.

(** The default configuration with room for one position only. *)
Definition one_slot : Config := {|
  risk_percent := 2; max_positions := 1; trading_mode := ModeBoth;
  cooldown_period := 300; spot_enabled := true;
  spot_pairs := ["BTC-USDT"; "ETH-USDT"; "SOL-USDT"]%string;
  min_spot_amount := 10; max_spot_amount := 1000; spot_trading_fee := 0.001;
  futures_enabled := true;
  futures_pairs := ["BTC-USDT-SWAP"; "ETH-USDT-SWAP"; "SOL-USDT-SWAP"]%string;
  default_leverage := 10; futures_trading_fee := 0.0004;
  max_daily_loss := 0.05; max_position_size := 0.2; max_daily_trades := 20;
  volatility_filter := true
|}.

(** A running system with the given configuration, book and realized
    profit of the day, on a balance of 100 at the start of the day. *)
Definition system (c : Config) (book : list (string * TradingPosition)) (realized : Q) : t := {|
  config := c; balance := 100 + realized; available_balance := 100 + realized;
  positions := book; spot_holdings := ∅; daily_pnl := realized;
  today_start_balance := 100; position_count := length book;
  total_trades_today := 0; auto_trading := true; last_trade_time := None;
  smart_stoploss := None; last_reset_date := Some 0%Z; trade_records := []
|}.

(** A world in which every instrument trades at 100, every signal of
    the futures strategy says long, and the exchange accepts every
    order. *)
Definition eager : World := {|
  now := 1000;
  today_start := 0;
  price := fun _ => Some 100;
  set_leverage := fun _ => Return true;
  create_order := fun _ _ _ => Return (Some "order"%string);
  close_order := fun _ _ => Return true;
  ohlcv50 := fun _ => None;
  ohlcv20 := fun _ => None;
  futures_signal := fun _ => SigLong;
  spot_signal := fun _ => SigHold;
  spot_buy_order := fun _ _ _ => Return false;
  spot_sell_order := fun _ _ _ => Return false;
  spot_balance := None
|}.

(** A world in which every instrument has fallen to 90 and the exchange
    accepts every order. *)
Definition falling : World := {|
  now := 1000;
  today_start := 0;
  price := fun _ => Some 90;
  set_leverage := fun _ => Return true;
  create_order := fun _ _ _ => Return (Some "order"%string);
  close_order := fun _ _ => Return true;
  ohlcv50 := fun _ => None;
  ohlcv20 := fun _ => None;
  futures_signal := fun _ => SigHold;
  spot_signal := fun _ => SigHold;
  spot_buy_order := fun _ _ _ => Return false;
  spot_sell_order := fun _ _ _ => Return false;
  spot_balance := None
|}.

(** A book with the unrealized profit of every position blanked: what
    the account refresh of a pass leaves as it was. *)
Definition apart_from_pnl (book : list (string * TradingPosition))
    : list (string * TradingPosition) :=
  map (fun '(pid, position) => (pid, set_pnl position 0)) book.

(** The state in which a pass numbered [loop_count] checks the risk
    limits: every tenth pass refreshes the account first. *)
Definition at_risk_check (w : World) (loop_count : nat) (s : t) : t :=
  if (loop_count mod 10 =? 0)%nat then _update_account_info s w else s.

(** The limits of the control loop in the words of the specification:
    the realized loss of the day has reached the fraction
    [max_daily_loss] of the balance at the start of the day, or the
    book has reached [max_positions]. *)
Definition risk_limit_reached (s : t) : Prop :=
  (~ today_start_balance s == 0 /\
   max_daily_loss (config s) <= Py.abs (daily_pnl s) / today_start_balance s)
  \/ (max_positions (config s) <= length (positions s))%nat.

End Book.

Module ScanSpec.

Import SMCStrategy SMCScanner.

(** The opportunity a task hands to the collecting loop, if it hands
    one. *)
Definition task_opportunity
    (task : string -> reply (scan_result * list log_entry)) (pair : string)
    : option Opportunity :=
  match task pair with
  | Return (ROpportunity o, _) => Some o
  | _ => None
  end.

(** The log lines that the collecting loop has for a task: the lines the
    task wrote, or the error the loop writes when the future raised. *)
Definition task_log
    (task : string -> reply (scan_result * list log_entry)) (pair : string)
    : list log_entry :=
  match task pair with
  | Raise => [scanner_log ERROR pair]
  | Return (_, lg) => lg
  end.

(** The entries of a list with a given signal strength, in their order
    in the list. *)
Definition with_strength (k : Q) (l : list Opportunity) : list Opportunity :=
  List.filter (fun o => Qeq_bool (signal_strength o) k) l.

(** An opportunity for examples, of the given instrument and strength. *)
Definition opportunity (pair : string) (strength : Q) : Opportunity := {|
  op_symbol := pair; op_timeframe := "4H"; op_current_price := 100;
  op_trade_direction := GoLong; signal_strength := strength;
  op_risk_level := MediumRisk; op_confidence := 0.8
|}.

Definition found (pair : string) : SMCData := {|
  sd_symbol := pair; sd_timestamp := 0; sd_current_price := 100;
  sd_bias := Bullish; sd_confidence := 0.8
|}.

(** A world in which BTC has 50 rows only, every other instrument has
    120, the analysis succeeds, and the strength is 0.9 for SOL and 0.8
    for every other instrument. *)
Definition short_history : World := {|
  get_ohlcv := fun pair =>
    if decide (pair = "BTC-USDT-SWAP"%string)
    then Return (repeat Book.flat_candle 50)
    else Return (repeat Book.flat_candle 120);
  pipeline := fun pair _ => Some (found pair);
  analyze := fun pair _ _ =>
    Some (opportunity pair
            (if decide (pair = "SOL-USDT-SWAP"%string) then 0.9 else 0.8))
|}.

(** A scanner before its first scan. *)
Definition idle : t := {|
  min_confidence := default_min_confidence;
  is_scanning := false;
  last_scan_time := None;
  scan_results := ∅;
  high_confidence_signals := []
|}.

End ScanSpec.

(** ** Further parts of the four modules *)

(** Floats that may be NaN: [None] is NaN, and every comparison with NaN
    is false. *)
Module Nan.

Definition lt (a b : option Q) : bool :=
  match a, b with
  | Some x, Some y => Qltb x y
  | _, _ => false
  end.

End Nan.

(** The two pandas operations the code uses on a column. *)
Module Pandas.

(** The last [n] values of a column. *)
Definition tail {A : Type} (n : nat) (xs : list A) : list A :=
  skipn (length xs - n) xs.

Definition sum (xs : list Q) : Q := fold_right Qplus 0 xs.

(** [column.rolling(window).mean().iloc[-1]] for a positive window on a
    column without NaN: NaN while the column is shorter than the window,
    then the mean of its last [window] values. *)
Definition rolling_mean_last (window : nat) (xs : list Q) : option Q :=
  if (length xs <? window)%nat then None
  else Some (sum (tail window xs) / inject_Z (Z.of_nat window)).

End Pandas.

(** [SmartStopLoss.calculate_atr] on the rows of a non-empty frame. *)
Module Atr.

Import SMCStrategy.

(** [self.settings['atr_period']] as [__init__] sets it. *)
Definition atr_period : nat := 14.

(** One entry of [true_range]: the row-wise maximum of [tr1], [tr2] and
    [tr3], which skips the NaN that [close.shift()] leaves in the first
    row. *)
Definition true_range (previous_close : option Q) (row : candle) : Q :=
  let tr1 := c_high row - c_low row in
  match previous_close with
  | None => tr1
  | Some pc =>
      Qmax tr1 (Qmax (Py.abs (c_high row - pc)) (Py.abs (c_low row - pc)))
  end.

Fixpoint true_ranges (previous_close : option Q) (rows : list candle) : list Q :=
  match rows with
  | [] => []
  | row :: rest => true_range previous_close row :: true_ranges (Some (c_close row)) rest
  end.

(** [None] is NaN.  On an empty frame [iloc[-1]] raises and the handler
    returns 0. *)
Definition calculate_atr (period : nat) (rows : list candle) : option Q :=
  match rows with
  | [] => Some 0
  | _ => Pandas.rolling_mean_last period (true_ranges None rows)
  end.

End Atr.

(** More of modules/smc_strategy.py: the functions that read the last
    row of the frame, with the columns they read as arguments. *)
Module Analysis.

Inductive Vote := Up | Down.

Inductive Overall := StrongUp | MildUp | MildDown | StrongDown | UnknownTrend.

(** The dictionary [determine_trend] returns; the three votes are
    missing in the one its handler returns. *)
Record Trend := {
  short_term : option Vote;
  medium_term : option Vote;
  long_term : option Vote;
  overall : Overall;
  score : Z
}.

(** ["上漲" if close > ma else "下跌"]; the average is NaN while the
    column is shorter than its window. *)
Definition vote (close : Q) (ma : option Q) : Vote :=
  if Nan.lt ma (Some close) then Up else Down.

Definition vote_score (v : Vote) : Z :=
  match v with Up => 1 | Down => -1 end.

(** [closes] is the column [df['close']]; on an empty frame [iloc[-1]]
    raises and the handler returns the short dictionary. *)
Definition determine_trend (closes : list Q) : Trend :=
  match last closes with
  | None =>
      {| short_term := None; medium_term := None; long_term := None;
         overall := UnknownTrend; score := 0 |}
  | Some close =>
      let ma_20_trend := vote close (Pandas.rolling_mean_last 20 closes) in
      let ma_50_trend := vote close (Pandas.rolling_mean_last 50 closes) in
      let ma_200_trend := vote close (Pandas.rolling_mean_last 200 closes) in
      let trend_score :=
        (vote_score ma_20_trend + vote_score ma_50_trend + vote_score ma_200_trend)%Z in
      let overall_trend :=
        if (2 <=? trend_score)%Z then StrongUp
        else if (0 <=? trend_score)%Z then MildUp
        else if (-1 <=? trend_score)%Z then MildDown
        else StrongDown in
      {| short_term := Some ma_20_trend; medium_term := Some ma_50_trend;
         long_term := Some ma_200_trend; overall := overall_trend;
         score := trend_score |}
  end.

Definition of_nat (n : nat) : Q := inject_Z (Z.of_nat n).

(** [calculate_confidence]: [closes] is the close column of [df], the
    other two arguments are the lengths of the two lists of levels. *)
Definition calculate_confidence (closes : list Q) (supports resistances : nat) : Q :=
  let data_quality := Py.min2 (of_nat (length closes) / 200) 1 in
  let level_clarity := Py.min2 (of_nat (supports + resistances) / 8) 1 in
  let trend := determine_trend closes in
  let trend_consistency := inject_Z (Z.abs (score trend)) / 3 in
  let confidence := (data_quality + level_clarity + trend_consistency) / 3 in
  Py.min2 confidence 1.

(** A support or resistance level; [strength] may be missing from the
    dictionary. *)
Record Level := {
  lv_price : Q;
  lv_strength : option Q
}.

(** [min(xs, key=key)] on a non-empty list: the first of the smallest. *)
Definition min_by {A : Type} (key : A -> Q) (x0 : A) (xs : list A) : A :=
  fold_left (fun best x => if Qltb (key x) (key best) then x else best) xs x0.

(** [_find_nearest_level] as [generate_trading_signals] calls it, with
    the last close of the frame, a numpy float: at a zero price the
    quotient is inf or NaN, the comparison is false and the result is
    [None].  (With a plain float a zero price raises instead.) *)
Definition _find_nearest_level (current_price : Q) (levels : list Level)
    : option Level :=
  match levels with
  | [] => None
  | l0 :: rest =>
      let nearest := min_by (fun x => Py.abs (lv_price x - current_price)) l0 rest in
      if Qeq_dec current_price 0 then None
      else if Qltb (Py.abs (lv_price nearest - current_price) / current_price) 0.05
      then Some nearest
      else None
  end.

Inductive BuySignal := NearSupport | RsiOversold | MacdGoldenCross.

Inductive SellSignal := NearResistance | RsiOverbought | MacdDeadCross.

Inductive Action := Hold | ConsiderBuy | ConsiderSell.

Record Signals := {
  buy_signals : list BuySignal;
  sell_signals : list SellSignal;
  action : Action;
  sg_confidence : Q
}.

(** [generate_trading_signals] on a frame with the columns it reads:
    the current price is the last close, [rsi], [macd] and [macd_signal]
    are the last values of their columns (NaN while the indicator has
    too few rows).  The two quotients by the price are only computed
    next to a nearest level, which a zero price never has. *)
Definition generate_trading_signals
    (current_price : Q) (rsi macd macd_signal : option Q)
    (support_levels resistance_levels : list Level) : Signals :=
  let nearest_support := _find_nearest_level current_price support_levels in
  let nearest_resistance := _find_nearest_level current_price resistance_levels in
  let buy :=
    (match nearest_support with
     | Some l =>
         if Qltb ((current_price - lv_price l) / current_price) 0.02
         then [NearSupport] else []
     | None => []
     end)
    ++ (if Nan.lt rsi (Some 35) then [RsiOversold] else [])
    ++ (if Nan.lt macd_signal macd then [MacdGoldenCross] else []) in
  let sell :=
    (match nearest_resistance with
     | Some l =>
         if Qltb ((lv_price l - current_price) / current_price) 0.02
         then [NearResistance] else []
     | None => []
     end)
    ++ (if Nan.lt (Some 65) rsi then [RsiOverbought] else [])
    ++ (if Nan.lt macd macd_signal then [MacdDeadCross] else []) in
  {| buy_signals := buy; sell_signals := sell;
     action :=
       match buy, sell with
       | [], [] => Hold
       | _, _ =>
           if (length sell <? length buy)%nat then ConsiderBuy
           else if (length buy <? length sell)%nat then ConsiderSell
           else Hold
       end;
     sg_confidence := of_nat (length buy + length sell) / 6 |}.

End Analysis.

(** More of modules/smc_scanner.py: how an opportunity is derived from
    the analysis. *)
Module Derive.

Import SMCStrategy SMCScanner Analysis.

(** [key=...] without [reverse]: [y] goes before [x] when its key is the
    smaller one. *)
Definition before_asc {A : Type} (key : A -> Q) (y x : A) : bool :=
  Qltb (key y) (key x).

Inductive PointKind :=
| SupportBuy | ResistanceSell
| SupportStop | ResistanceStop
| ResistanceTarget | SupportTarget.

(** An entry, stop or target candidate.  [pt_pct] is the key
    [distance_pct], [risk_pct] or [reward_pct] of its dictionary. *)
Record Point := {
  pt_price : Q;
  pt_strength : Q;
  pt_kind : PointKind;
  pt_pct : Q
}.

(** [level.get('strength', 0.5)]. *)
Definition strength_of (l : Level) : Q := default 0.5 (lv_strength l).

(** In the three functions below the current price is the last close of
    the frame, a numpy float, and [pt_pct] is a quotient by it: the
    definitions follow the code for a price that is not zero (at zero
    numpy's quotient is inf or NaN, which the rationals do not have). *)
Definition find_entry_points (current_price : Q)
    (support_levels resistance_levels : list Level) (direction : Direction)
    : list Point :=
  let entry_points :=
    match direction with
    | GoLong =>
        map (fun l =>
               {| pt_price := lv_price l; pt_strength := strength_of l;
                  pt_kind := SupportBuy;
                  pt_pct := Py.abs (current_price - lv_price l) / current_price |})
            (List.filter (fun l => negb (Qltb (lv_price l * 1.02) current_price))
                         (firstn 3 support_levels))
    | GoShort =>
        map (fun l =>
               {| pt_price := lv_price l; pt_strength := strength_of l;
                  pt_kind := ResistanceSell;
                  pt_pct := Py.abs (current_price - lv_price l) / current_price |})
            (List.filter (fun l => negb (Qltb current_price (lv_price l * 0.98)))
                         (firstn 3 resistance_levels))
    | Wait => []
    end in
  firstn 2 (py_sorted (before_desc pt_strength) entry_points).

Definition find_stop_loss_points (current_price : Q)
    (support_levels resistance_levels : list Level) (direction : Direction)
    : list Point :=
  let stop_loss_points :=
    match direction with
    | GoLong =>
        map (fun l =>
               {| pt_price := lv_price l * 0.99; pt_strength := strength_of l;
                  pt_kind := SupportStop;
                  pt_pct := (current_price - lv_price l * 0.99) / current_price |})
            (List.filter (fun l => Qltb (lv_price l) current_price) support_levels)
    | GoShort =>
        map (fun l =>
               {| pt_price := lv_price l * 1.01; pt_strength := strength_of l;
                  pt_kind := ResistanceStop;
                  pt_pct := (lv_price l * 1.01 - current_price) / current_price |})
            (List.filter (fun l => Qltb current_price (lv_price l)) resistance_levels)
    | Wait => []
    end in
  firstn 2 (py_sorted (before_asc pt_pct) stop_loss_points).

Definition find_take_profit_points (current_price : Q)
    (support_levels resistance_levels : list Level) (direction : Direction)
    : list Point :=
  let take_profit_points :=
    match direction with
    | GoLong =>
        map (fun l =>
               {| pt_price := lv_price l; pt_strength := strength_of l;
                  pt_kind := ResistanceTarget;
                  pt_pct := (lv_price l - current_price) / current_price |})
            (List.filter (fun l => Qltb current_price (lv_price l)) resistance_levels)
    | GoShort =>
        map (fun l =>
               {| pt_price := lv_price l; pt_strength := strength_of l;
                  pt_kind := SupportTarget;
                  pt_pct := (current_price - lv_price l) / current_price |})
            (List.filter (fun l => Qltb (lv_price l) current_price) support_levels)
    | Wait => []
    end in
  firstn 3 (py_sorted (before_desc pt_pct) take_profit_points).

Inductive VolumeStatus := HugeVolume | HighVolume | NormalVolume | LowVolume.

(** What [calculate_signal_strength] reads from [smc_data].  The trend
    score and the volume status are missing when the structure analysis
    had failed and left an empty dictionary; [confidence] has a default
    of 0.5. *)
Record StrengthInput := {
  in_confidence : option Q;
  in_trend_score : option Z;
  in_support_levels : nat;
  in_resistance_levels : nat;
  in_volume_status : option VolumeStatus;
  in_buy_signals : nat;
  in_sell_signals : nat
}.

(** A missing key raises, and the handler returns 0.5. *)
Definition calculate_signal_strength (i : StrengthInput) : Q :=
  match in_trend_score i, in_volume_status i with
  | Some trend, Some volume_status =>
      let confidence := default 0.5 (in_confidence i) in
      let trend_score := inject_Z (Z.abs trend) / 3 in
      let level_clarity :=
        Py.min2 (of_nat (in_support_levels i + in_resistance_levels i) / 6) 1 in
      let volume_factor :=
        match volume_status with
        | HugeVolume | HighVolume => 1
        | _ => 0.5
        end in
      let signal_factor :=
        Py.min2 (of_nat (in_buy_signals i + in_sell_signals i) / 4) 1 in
      let weighted_strength :=
        confidence * 0.3 + trend_score * 0.25 + level_clarity * 0.2
        + volume_factor * 0.15 + signal_factor * 0.1 in
      Py.min2 weighted_strength 1
  | _, _ => 0.5
  end.

Definition determine_trade_direction (bias : Bias) (buy_signals sell_signals : nat)
    : Direction :=
  match bias with
  | Bullish => if (sell_signals <? buy_signals)%nat then GoLong else Wait
  | Bearish => if (buy_signals <? sell_signals)%nat then GoShort else Wait
  | Neutral => Wait
  end.

(** [high] and [medium] are [self.config['risk_levels']], 0.9 and 0.7
    when the configuration has none. *)
Definition calculate_risk_level (high medium : Q) (i : StrengthInput) : RiskLevel :=
  let strength := calculate_signal_strength i in
  if negb (Qltb strength high) then LowRisk
  else if negb (Qltb strength medium) then MediumRisk
  else HighRisk.

End Derive.

(** More of modules/trading_system.py. *)
Module Desk.

Import TradingSystem.

(** [stop_auto_trading] called from another thread than the loop's: the
    flag is cleared and the loop's thread is joined. *)
Definition stop_auto_trading_outside (s : t) : bool * t :=
  if auto_trading s then (true, with_auto_trading s false)
  else (false, s).

(** One entry of [closed_positions] in the report of [emergency_stop]. *)
Record CloseResult := {
  cr_position_id : string;
  cr_symbol : string;
  cr_success : bool;
  cr_message : CloseMessage
}.

Record EmergencyReport := {
  er_success : bool;
  closed_positions : list CloseResult;
  positions_closed : nat
}.

(** The loop of [emergency_stop] over the positions that were open when
    it started. *)
Fixpoint close_each (s : t) (w : World) (open_positions : list TradingPosition)
    : list CloseResult * t :=
  match open_positions with
  | [] => ([], s)
  | position :: rest =>
      let '((success, message), s1) :=
        close_position s w (position_id position) "EMERGENCY_STOP" in
      let '(results, s2) := close_each s1 w rest in
      ({| cr_position_id := position_id position; cr_symbol := symbol position;
          cr_success := success; cr_message := message |} :: results, s2)
  end.

Definition emergency_stop (s : t) (w : World) : EmergencyReport * t :=
  let s1 := if auto_trading s then snd (stop_auto_trading_outside s) else s in
  let open_positions := get_open_positions s1 in
  let '(close_results, s2) := close_each s1 w open_positions in
  ({| er_success := true; closed_positions := close_results;
      positions_closed := length open_positions |}, s2).

(** The running state of the loop of [_calculate_max_drawdown]. *)
Record Drawdown := {
  cumulative_pnl : Q;
  peak : Q;
  max_drawdown : Q
}.

Definition drawdown_step (d : Drawdown) (trade_pnl : Q) : Drawdown :=
  let cumulative := cumulative_pnl d + trade_pnl in
  let peak' := if Qltb (peak d) cumulative then cumulative else peak d in
  let drawdown := peak' - cumulative in
  {| cumulative_pnl := cumulative; peak := peak';
     max_drawdown := if Qltb (max_drawdown d) drawdown then drawdown else max_drawdown d |}.

(** [_calculate_max_drawdown] on the [pnl] column the query returns, in
    the order of the time stamps. *)
Definition _calculate_max_drawdown (trades : list Q) : Q :=
  max_drawdown
    (fold_left drawdown_step trades
       {| cumulative_pnl := 0; peak := 0; max_drawdown := 0 |}).

(** The settings of [smc_trading] that pick the source of a signal, and
    whether a strategy object was passed to the constructor. *)
Record SmcSwitch := {
  smc_enabled : bool;
  has_smc_strategy : bool;
  use_smc_signals : bool;
  smc_confidence_threshold : Q
}.

(** The defaults of [_load_configurations], with a strategy present. *)
Definition default_switch : SmcSwitch := {|
  smc_enabled := true;
  has_smc_strategy := true;
  use_smc_signals := true;
  smc_confidence_threshold := 0.7
|}.

(** [_get_smc_trading_signal]; [stored] is the [trading_signals] entry
    of the analysis last saved for the instrument, [None] when there is
    none or the lookup failed. *)
Definition _get_smc_trading_signal (stored : option Analysis.Signals) : Signal * Q :=
  match stored with
  | None => (SigHold, 0)
  | Some signals =>
      match Analysis.action signals with
      | Analysis.ConsiderBuy => (SigLong, Analysis.sg_confidence signals)
      | Analysis.ConsiderSell => (SigShort, Analysis.sg_confidence signals)
      | Analysis.Hold => (SigHold, Analysis.sg_confidence signals)
      end
  end.

(** [_get_trading_signal_with_confidence]; [technical] is what the
    random generator of [_get_technical_signal] answers. *)
Definition _get_trading_signal_with_confidence (c : SmcSwitch)
    (stored : option Analysis.Signals) (technical : Signal * Q) : Signal * Q :=
  if smc_enabled c && has_smc_strategy c && use_smc_signals c then
    let '(signal, confidence) := _get_smc_trading_signal stored in
    match signal with
    | SigHold => technical
    | _ =>
        if negb (Qltb confidence (smc_confidence_threshold c))
        then (signal, confidence) else technical
    end
  else technical.

(** The book is a dictionary keyed by the id of the position it holds:
    no key twice, and every position under its own id. *)
Definition book_ok (book : list (string * TradingPosition)) : Prop :=
  NoDup (map fst book) /\
  Forall (fun '(k, position) => position_id position = k) book.

(** An exchange that has a price for every instrument and accepts every
    close. *)
Definition accepts_all (w : World) : Prop :=
  forall sym pt, price w sym <> None /\ close_order w sym pt = Return true.

End Desk.

(** Vocabulary for the statements about the stop engine. *)
Module StopSpec.

Import SmartStopLoss.

(** The frame gives an ATR that is not zero, a number or NaN: the
    dynamic stop is computed from it. *)
Definition usable (d : option market_data) : bool :=
  match d with
  | Some m => negb (Py.fis_zero (md_atr m))
  | None => false
  end.

(** The largest distance of the dynamic stop from the entry price, as a
    fraction of it: the setting when an ATR is at hand, the fixed 2%
    when not. *)
Definition risk_cap (s : Settings) (d : option market_data) : Q :=
  if usable d then max_risk_per_trade s else fixed_risk.

(** A price at or beyond the stop, on the losing side; no price is
    beyond a NaN stop. *)
Definition beyond (pt : PositionType) (stop : Py.float) (price_ : Q) : Prop :=
  match stop with
  | Py.Num v =>
      match pt with
      | LONG => price_ <= v
      | SHORT => v <= price_
      end
  | Py.NaN => False
  end.

(** Every row has its high at or above its low. *)
Definition well_formed (rows : list SMCStrategy.candle) : Prop :=
  Forall (fun row => SMCStrategy.c_low row <= SMCStrategy.c_high row) rows.

(** The float of an indicator whose NaN is [None]. *)
Definition of_nan (x : option Q) : Py.float :=
  match x with
  | Some q => Py.Num q
  | None => Py.NaN
  end.

(** What a call of the engine reads when [rows] are the rows stored for
    the instrument, oldest first: [get_recent_ohlcv] takes the last
    [limit] of them, [calculate_atr] gives the ATR of those, and
    [volatility] is the standard deviation of their returns. *)
Definition frame (limit : nat) (rows : list SMCStrategy.candle) (volatility : option Q)
    : option market_data :=
  match Pandas.tail limit rows with
  | [] => None
  | recent =>
      Some {| md_atr := of_nan (Atr.calculate_atr Atr.atr_period recent);
              md_volatility := volatility |}
  end.

(** An hour in which the instrument moved between 100 and 101 and
    closed at 100.5. *)
Definition quiet_hour (n : nat) : SMCStrategy.candle := {|
  SMCStrategy.c_timestamp := Z.of_nat n; SMCStrategy.c_open := 100.5;
  SMCStrategy.c_high := 101; SMCStrategy.c_low := 100;
  SMCStrategy.c_close := 100.5; SMCStrategy.c_volume := 1
|}.

(** The first [n] such hours. *)
Definition quiet_hours (n : nat) : list SMCStrategy.candle := map quiet_hour (seq 1 n).

(** A call for the long position P1, entered at 100, at the given price
    and with the given rows in store; the closes do not move, so the
    standard deviation of the returns is 0. *)
Definition call_at (price_ : Q) (rows : list SMCStrategy.candle) (now : Z)
    : StopTrace.update_call := {|
  StopTrace.uc_id := "P1"; StopTrace.uc_symbol := "BTC-USDT-SWAP";
  StopTrace.uc_type := LONG; StopTrace.uc_entry := 100; StopTrace.uc_price := price_;
  StopTrace.uc_ohlcv50 := frame 50 rows (Some 0);
  StopTrace.uc_ohlcv20 := frame 20 rows (Some 0);
  StopTrace.uc_now := now
|}.

(** The history of a newly listed instrument: nothing in store at the
    first call, five hours at the second, twenty at the third; the price
    stands at 102 and then falls back to 100.5. *)
Definition growing_history : list StopTrace.update_call :=
  [call_at 102 [] 1; call_at 102 (quiet_hours 5) 2; call_at 100.5 (quiet_hours 20) 3].

(** The engine as [__init__] leaves it. *)
Definition new_engine : t :=
  {| settings := default_settings; position_stops := ∅ |}.

End StopSpec.

(** Vocabulary for the statements about opening a position. *)
Module OpenSpec.

Import TradingSystem.

(** The quantity [open_position] trades: the one passed, or the computed
    size when none or zero was passed. *)
Definition chosen_quantity (s : t) (price_ : Q) (qty : option Q) : Q :=
  match truthy qty with
  | Some q => q
  | None => _calculate_position_size s price_
  end.

(** There is a stop engine, and the frame it reads for the instrument
    has a NaN ATR. *)
Definition nan_at_entry (s : t) (w : World) (sym : string) : bool :=
  match smart_stoploss s with
  | Some _ => StopTrace.short_frame (ohlcv50 w sym)
  | None => false
  end.

(** The position a successful [open_position] puts into the book. *)
Definition opened (pt : PositionType) (s : t) (w : World) (sym : string)
    (price_ qty : Q) (oid : string) : TradingPosition :=
  {| position_id := make_position_id pt sym (now w); symbol := sym;
     position_type := pt; entry_price := price_; quantity := qty;
     stop_loss := _calculate_stop_loss s w sym pt price_;
     take_profit := _calculate_take_profit s w sym pt price_;
     status := OPEN; created_at := now w; pnl := 0;
     leverage := default_leverage (config s); order_id := oid;
     exit_price := 0; closed_at := None; close_reason := EmptyString |}.

(** A fresh system with the stop engine as [__init__] leaves it. *)
Definition guarded : t :=
  with_smart_stoploss SizingSpec.fresh (Some StopSpec.new_engine).

(** A world in which the instrument trades at 100 and has five hours of
    history in store, and the exchange accepts every order. *)
Definition newly_listed : World := {|
  now := 1000;
  today_start := 0;
  price := fun _ => Some 100;
  set_leverage := fun _ => Return true;
  create_order := fun _ _ _ => Return (Some "order"%string);
  close_order := fun _ _ => Return true;
  ohlcv50 := fun _ => StopSpec.frame 50 (StopSpec.quiet_hours 5) (Some 0);
  ohlcv20 := fun _ => StopSpec.frame 20 (StopSpec.quiet_hours 5) (Some 0);
  futures_signal := fun _ => SigLong;
  spot_signal := fun _ => SigHold;
  spot_buy_order := fun _ _ _ => Return false;
  spot_sell_order := fun _ _ _ => Return false;
  spot_balance := None
|}.

End OpenSpec.

(** Books for examples. *)
Module Ledger.

Import TradingSystem.

(** A long position opened in second [n] and closed one second later. *)
Definition closed_in_second (n : nat) : string * TradingPosition :=
  let time := Z.of_nat n in
  (make_position_id LONG "BTC-USDT-SWAP" time,
   {| position_id := make_position_id LONG "BTC-USDT-SWAP" time;
      symbol := "BTC-USDT-SWAP"; position_type := LONG; entry_price := 100;
      quantity := 1; stop_loss := Py.Num 98; take_profit := Py.Num 104; status := CLOSED;
      created_at := time; pnl := 0; leverage := 10; order_id := "o";
      exit_price := 100; closed_at := Some (time + 1)%Z;
      close_reason := "MANUAL" |}).

(** One open position and the positions closed in seconds 2 to 102, the
    latest first. *)
Definition crowded : list (string * TradingPosition) :=
  ("LONG_BTC-USDT-SWAP_1"%string, Book.open_example)
  :: map closed_in_second (rev (seq 2 101)).

End Ledger.

(** Vocabulary for the statements about spot trades. *)
Module SpotSpec.

Import TradingSystem.

(** The quantity [spot_buy] trades: the one passed, or the computed size
    when none or zero was passed. *)
Definition bought (s : t) (price_ : Q) (qty : option Q) : Q :=
  match truthy qty with
  | Some q => q
  | None => _calculate_spot_position_size s price_
  end.

(** Nothing of the instrument is held: no entry, or an entry of quantity
    and cost zero. *)
Definition flat (s : t) (sym : string) : Prop :=
  match spot_holdings s !! sym with
  | None => True
  | Some h => sh_quantity h == 0 /\ sh_total_cost h == 0
  end.

(** A world in which every instrument trades at 50 and the exchange
    accepts every spot order. *)
Definition open_market : World := {|
  now := 1000;
  today_start := 0;
  price := fun _ => Some 50;
  set_leverage := fun _ => Return true;
  create_order := fun _ _ _ => Return None;
  close_order := fun _ _ => Return true;
  ohlcv50 := fun _ => None;
  ohlcv20 := fun _ => None;
  futures_signal := fun _ => SigHold;
  spot_signal := fun _ => SigHold;
  spot_buy_order := fun _ _ _ => Return true;
  spot_sell_order := fun _ _ _ => Return true;
  spot_balance := None
|}.

End SpotSpec.

(** Worlds for examples. *)
Module Markets.

Import TradingSystem.

(** Every instrument trades at 50 and the exchange refuses every
    order. *)
Definition closed_market : World := {|
  now := 1000;
  today_start := 0;
  price := fun _ => Some 50;
  set_leverage := fun _ => Return true;
  create_order := fun _ _ _ => Return None;
  close_order := fun _ _ => Return false;
  ohlcv50 := fun _ => None;
  ohlcv20 := fun _ => None;
  futures_signal := fun _ => SigHold;
  spot_signal := fun _ => SigHold;
  spot_buy_order := fun _ _ _ => Return false;
  spot_sell_order := fun _ _ _ => Return false;
  spot_balance := None
|}.

End Markets.

(** Vocabulary for the statement about the largest drawdown. *)
Module DrawdownSpec.

Import Desk.

(** What the three variables of the loop hold after the trades [l]. *)
Definition drawdown_inv (d : Drawdown) (l : list Q) : Prop :=
  cumulative_pnl d == Pandas.sum l /\
  (forall pre post, l = pre ++ post -> Pandas.sum pre <= peak d) /\
  (exists pre post, l = pre ++ post /\ peak d == Pandas.sum pre) /\
  (forall pre mid post, l = pre ++ mid ++ post -> - Pandas.sum mid <= max_drawdown d) /\
  (exists pre mid post, l = pre ++ mid ++ post /\ max_drawdown d == - Pandas.sum mid).

End DrawdownSpec.

(** Vocabulary for the statement about the entries of one pass. *)
Module PassSpec.

Import TradingSystem.

(** [s'] is [s] after one successful entry, at the current price of one
    of the instruments, and the note of the trade. *)
Definition one_entry (s : t) (w : World) (symbols : list string) (s' : t) : Prop :=
  exists pt sym current_price,
    In sym symbols /\
    price w sym = Some current_price /\
    fst (open_position pt s w sym current_price None) = true /\
    s' = note_trade (snd (open_position pt s w sym current_price None)) (now w).

End PassSpec.

(** Vocabulary for the statement about the stops of a pass. *)
Module WatchSpec.

Import TradingSystem.

(** The price has reached the stop or the target the position carries. *)
Definition reached (position : TradingPosition) (current_price : Q) : Prop :=
  (exists stop,
     stop_loss position = Py.Num stop /\ 0 < stop /\
     match position_type position with
     | LONG => current_price <= stop
     | SHORT => stop <= current_price
     end)
  \/
  (exists target,
     take_profit position = Py.Num target /\ 0 < target /\
     match position_type position with
     | LONG => target <= current_price
     | SHORT => current_price <= target
     end).

(** A world in which every instrument has risen to 110 and the exchange
    accepts every order. *)
Definition rally : World := {|
  now := 1000;
  today_start := 0;
  price := fun _ => Some 110;
  set_leverage := fun _ => Return true;
  create_order := fun _ _ _ => Return (Some "order"%string);
  close_order := fun _ _ => Return true;
  ohlcv50 := fun _ => None;
  ohlcv20 := fun _ => None;
  futures_signal := fun _ => SigHold;
  spot_signal := fun _ => SigHold;
  spot_buy_order := fun _ _ _ => Return false;
  spot_sell_order := fun _ _ _ => Return false;
  spot_balance := None
|}.

End WatchSpec.

(** Vocabulary for the statement about the daily reset. *)
Module DaySpec.

Import TradingSystem.

(** The statistics of the day have never been reset, or were last reset
    before the start of the present day. *)
Definition due (s : t) (w : World) : Prop :=
  match last_reset_date s with
  | None => True
  | Some d => (d < today_start w)%Z
  end.

(** A world of the day after the one [Book.system] was last reset on. *)
Definition tomorrow : World := {|
  now := 90000;
  today_start := 86400;
  price := fun _ => Some 100;
  set_leverage := fun _ => Return true;
  create_order := fun _ _ _ => Return None;
  close_order := fun _ _ => Return true;
  ohlcv50 := fun _ => None;
  ohlcv20 := fun _ => None;
  futures_signal := fun _ => SigHold;
  spot_signal := fun _ => SigHold;
  spot_buy_order := fun _ _ _ => Return false;
  spot_sell_order := fun _ _ _ => Return false;
  spot_balance := None
|}.

End DaySpec.

(** * Properties *)

(** ** Facts about the Python builtins *)

Section PyFacts.

Lemma max2_ge_l a b : a <= Py.max2 a b.
Proof. unfold Py.max2. destruct (Qlt_le_dec a b); lra. Qed.

Lemma max2_ge_r a b : b <= Py.max2 a b.
Proof. unfold Py.max2. destruct (Qlt_le_dec a b); lra. Qed.

Lemma min2_le_l a b : Py.min2 a b <= a.
Proof. unfold Py.min2. destruct (Qlt_le_dec b a); lra. Qed.

Lemma min2_le_r a b : Py.min2 a b <= b.
Proof. unfold Py.min2. destruct (Qlt_le_dec b a); lra. Qed.

Lemma max2_cases a b : Py.max2 a b = a \/ Py.max2 a b = b.
Proof. unfold Py.max2. destruct (Qlt_le_dec a b); auto. Qed.

Lemma min2_cases a b : Py.min2 a b = a \/ Py.min2 a b = b.
Proof. unfold Py.min2. destruct (Qlt_le_dec b a); auto. Qed.

Lemma min2_pos a b : 0 < a -> 0 < b -> 0 < Py.min2 a b.
Proof. intros Ha Hb. destruct (min2_cases a b) as [-> | ->]; assumption. Qed.

Lemma abs_nonneg x : 0 <= Py.abs x.
Proof. unfold Py.abs. destruct (Qlt_le_dec x 0); lra. Qed.

Lemma Qltb_true a b : Qltb a b = true <-> a < b.
Proof. unfold Qltb. destruct (Qlt_le_dec a b); split; intros; try easy; lra. Qed.

Lemma Qltb_false a b : Qltb a b = false <-> b <= a.
Proof. unfold Qltb. destruct (Qlt_le_dec a b); split; intros; try easy; lra. Qed.

End PyFacts.

(** ** Floats that may be NaN *)

Section FloatFacts.

Lemma flt_num x y : Py.flt (Py.Num x) (Py.Num y) = true <-> x < y.
Proof. cbn. destruct (Qlt_le_dec x y); split; intros; try easy; lra. Qed.

Lemma flt_num_false x y : Py.flt (Py.Num x) (Py.Num y) = false <-> y <= x.
Proof. cbn. destruct (Qlt_le_dec x y); split; intros; try easy; lra. Qed.

Lemma fle_num x y : Py.fle (Py.Num x) (Py.Num y) = true <-> x <= y.
Proof. cbn. destruct (Qlt_le_dec y x); split; intros; try easy; lra. Qed.

Lemma fle_num_false x y : Py.fle (Py.Num x) (Py.Num y) = false <-> y < x.
Proof. cbn. destruct (Qlt_le_dec y x); split; intros; try easy; lra. Qed.

Lemma flt_true a b :
  Py.flt a b = true -> exists x y, a = Py.Num x /\ b = Py.Num y /\ x < y.
Proof.
  destruct a as [x|], b as [y|]; try discriminate. intros H. apply flt_num in H.
  exists x, y. repeat split. exact H.
Qed.

Lemma fle_true a b :
  Py.fle a b = true -> exists x y, a = Py.Num x /\ b = Py.Num y /\ x <= y.
Proof.
  destruct a as [x|], b as [y|]; try discriminate. intros H. apply fle_num in H.
  exists x, y. repeat split. exact H.
Qed.

Lemma fmax2_num x y : Py.fmax2 (Py.Num x) (Py.Num y) = Py.Num (Py.max2 x y).
Proof. unfold Py.fmax2, Py.max2. cbn. destruct (Qlt_le_dec x y); reflexivity. Qed.

Lemma fmin2_num x y : Py.fmin2 (Py.Num x) (Py.Num y) = Py.Num (Py.min2 x y).
Proof. unfold Py.fmin2, Py.min2. cbn. destruct (Qlt_le_dec y x); reflexivity. Qed.

Lemma fmax2_nan_l b : Py.fmax2 Py.NaN b = Py.NaN.
Proof. reflexivity. Qed.

Lemma fmin2_nan_l b : Py.fmin2 Py.NaN b = Py.NaN.
Proof. unfold Py.fmin2. destruct b; reflexivity. Qed.

Lemma fmax2_nan_r a : Py.fmax2 a Py.NaN = a.
Proof. unfold Py.fmax2. destruct a; reflexivity. Qed.

Lemma fmin2_nan_r a : Py.fmin2 a Py.NaN = a.
Proof. unfold Py.fmin2. destruct a; reflexivity. Qed.

Lemma fmax2_cases a b : Py.fmax2 a b = a \/ Py.fmax2 a b = b.
Proof. unfold Py.fmax2. destruct (Py.flt a b); auto. Qed.

Lemma fmin2_cases a b : Py.fmin2 a b = a \/ Py.fmin2 a b = b.
Proof. unfold Py.fmin2. destruct (Py.flt b a); auto. Qed.

(** [max] returns nothing that one of its arguments is above. *)
Lemma fmax2_not_below_l a b : Py.flt (Py.fmax2 a b) a = false.
Proof.
  unfold Py.fmax2. destruct (Py.flt a b) eqn:E.
  - destruct (flt_true a b E) as (x & y & -> & -> & H). apply flt_num_false. lra.
  - destruct a as [x|]; [|reflexivity]. apply flt_num_false. lra.
Qed.

Lemma fmax2_not_below_r a b : Py.flt (Py.fmax2 a b) b = false.
Proof.
  unfold Py.fmax2. destruct (Py.flt a b) eqn:E; [|exact E].
  destruct b as [y|]; [|destruct a; reflexivity]. apply flt_num_false. lra.
Qed.

Lemma fmin2_not_above_l a b : Py.flt a (Py.fmin2 a b) = false.
Proof.
  unfold Py.fmin2. destruct (Py.flt b a) eqn:E.
  - destruct (flt_true b a E) as (x & y & -> & -> & H). apply flt_num_false. lra.
  - destruct a as [x|]; [|reflexivity]. apply flt_num_false. lra.
Qed.

Lemma fmin2_not_above_r a b : Py.flt b (Py.fmin2 a b) = false.
Proof.
  unfold Py.fmin2. destruct (Py.flt b a) eqn:E; [|exact E].
  destruct b as [y|]; [|reflexivity]. apply flt_num_false. lra.
Qed.

(** What is not above [a] is not above the maximum of [a] and [b]. *)
Lemma flt_fmax2_mono c a b : Py.flt a c = false -> Py.flt (Py.fmax2 a b) c = false.
Proof.
  intros H. unfold Py.fmax2. destruct (Py.flt a b) eqn:E; [|exact H].
  destruct (flt_true a b E) as (x & y & -> & -> & Hxy).
  destruct c as [z|]; [|reflexivity]. apply flt_num_false in H. apply flt_num_false. lra.
Qed.

Lemma flt_fmin2_mono c a b : Py.flt c a = false -> Py.flt c (Py.fmin2 a b) = false.
Proof.
  intros H. unfold Py.fmin2. destruct (Py.flt b a) eqn:E; [|exact H].
  destruct (flt_true b a E) as (x & y & -> & -> & Hxy).
  destruct c as [z|]; [|reflexivity]. apply flt_num_false in H. apply flt_num_false. lra.
Qed.

Lemma f_or_else_cases x d :
  Py.f_or_else x d = d \/
  (x = Some (Py.f_or_else x d) /\ Py.fis_zero (Py.f_or_else x d) = false).
Proof.
  unfold Py.f_or_else. destruct x as [[v|]|]; [|right; split; reflexivity|left; reflexivity].
  destruct (Qeq_dec v 0) as [E|E]; [left; reflexivity|].
  right. split; [reflexivity|]. cbn. destruct (Qeq_dec v 0); [contradiction|reflexivity].
Qed.

End FloatFacts.

(** ** The stop engine *)

Section StopEngine.

Import SmartStopLoss StopTrace.

Lemma volatility_factor_pos s v : 0 < calculate_volatility_factor s v.
Proof.
  unfold calculate_volatility_factor.
  destruct v as [v|]; [|lra].
  destruct (Qlt_le_dec v _); [lra|].
  destruct (Qlt_le_dec _ v); lra.
Qed.

Lemma product_nonneg a b c : 0 <= a -> 0 <= b -> 0 <= c -> 0 <= a * b * c.
Proof.
  intros Ha Hb Hc. apply Qmult_le_0_compat; [|exact Hc].
  apply Qmult_le_0_compat; assumption.
Qed.

Lemma break_even_cases s pt entry current thr :
  calculate_break_even_stop s pt entry current thr = None \/
  calculate_break_even_stop s pt entry current thr =
    Some (match pt with LONG => entry * 1.001 | SHORT => entry * 0.999 end).
Proof.
  unfold calculate_break_even_stop.
  destruct (break_even_enabled s); simpl; [|auto].
  destruct (Qeq_dec entry 0); [auto|].
  destruct (Qlt_le_dec _ thr); [auto|].
  destruct pt; auto.
Qed.

(** The dynamic stop on a frame whose ATR is a number. *)
Lemma dynamic_stop_numeric s pt entry m atr :
  md_atr m = Py.Num atr ->
  calculate_dynamic_stop_loss s pt entry (Some m)
  = Py.Num
      (if Qeq_dec atr 0 then calculate_fixed_stop_loss entry pt fixed_risk
       else
         let base := atr * atr_multiplier s
                     * calculate_volatility_factor s (md_volatility m) in
         match pt with
         | LONG => Py.max2 (entry - base) (entry * (1 - max_risk_per_trade s))
         | SHORT => Py.min2 (entry + base) (entry * (1 + max_risk_per_trade s))
         end).
Proof.
  intros E. unfold calculate_dynamic_stop_loss. rewrite E. cbn [Py.fis_zero].
  destruct (Qeq_dec atr 0); [reflexivity|]. cbv zeta.
  destruct pt; cbn [Py.fmul Py.fsub Py.fadd Py.flift2];
    [apply fmax2_num | apply fmin2_num].
Qed.

(** The dynamic stop on a frame whose ATR is NaN. *)
Lemma dynamic_stop_nan s pt entry m :
  md_atr m = Py.NaN -> calculate_dynamic_stop_loss s pt entry (Some m) = Py.NaN.
Proof.
  intros E. unfold calculate_dynamic_stop_loss. rewrite E. destruct pt; reflexivity.
Qed.

(** The value the call returns and the entry it stores. *)
Lemma update_stores self pid sym pt entry current d50 d20 now :
  position_stops (snd (update_position_stop_loss self pid sym pt entry current d50 d20 now))
    !! pid
  = Some {|
      si_symbol := sym; si_position_type := pt; si_entry_price := entry;
      current_stop :=
        fst (update_position_stop_loss self pid sym pt entry current d50 d20 now);
      dynamic_stop := calculate_dynamic_stop_loss (settings self) pt entry d50;
      trailing_stop :=
        calculate_trailing_stop_loss (settings self) pt entry current
          (current_stop <$> position_stops self !! pid) d20;
      break_even_stop :=
        calculate_break_even_stop (settings self) pt entry current default_profit_threshold;
      last_updated := now |}.
Proof. unfold update_position_stop_loss. simpl. apply lookup_insert_eq. Qed.

Lemma update_other self pid sym pt entry current d50 d20 now pid' :
  pid <> pid' ->
  position_stops (snd (update_position_stop_loss self pid sym pt entry current d50 d20 now))
    !! pid'
  = position_stops self !! pid'.
Proof. intros H. unfold update_position_stop_loss. simpl. by apply lookup_insert_ne. Qed.

Lemma update_settings self pid sym pt entry current d50 d20 now :
  settings (snd (update_position_stop_loss self pid sym pt entry current d50 d20 now))
  = settings self.
Proof. reflexivity. Qed.

End StopEngine.

(** C1, at a history the code departs from it on.  A long position is
    entered at 100 in an instrument that has just been listed.  At the
    first call nothing is in store for the instrument and the price
    stands at 102: the stop returned is the break-even stop, 100.1.  At
    the second call five hours are in store, fewer than the 14 of the
    ATR: the ATR is NaN, and so is the stop returned and stored.  At
    the third call twenty hours are in store and the price is back at
    100.5: the stop returned is 98.4, looser than the first.  The
    stored NaN has made the trailing stop forget the stop before it. *)
Theorem short_history_loosens_the_stop :
  let stops :=
    StopTrace.returned_stops "P1" StopSpec.new_engine StopSpec.growing_history in
  Atr.calculate_atr Atr.atr_period (StopSpec.quiet_hours 5) = None /\
  Forall2 Py.feq stops [Py.Num 100.1; Py.NaN; Py.Num 98.4] /\
  ~ StopTrace.non_loosening LONG stops.
Proof.
  intros stops. remember stops as computed eqn:E. subst stops. vm_compute in E.
  subst computed. split; [vm_compute; reflexivity|]. split.
  - constructor; [reflexivity|]. constructor; [exact I|].
    constructor; [reflexivity|constructor].
  - intros H. inversion H as [|a l _ Hhd]; subst.
    inversion Hhd as [|b l' Hrel]; subst. discriminate Hrel.
Qed.

(** ** The break-even stop *)

Section BreakEven.

Import SmartStopLoss StopTrace.

Lemma abs_ge x : x <= Py.abs x.
Proof. unfold Py.abs. destruct (Qlt_le_dec x 0); lra. Qed.

Lemma abs_ge_opp x : - x <= Py.abs x.
Proof. unfold Py.abs. destruct (Qlt_le_dec x 0); lra. Qed.

Lemma div_le_div_pos a b e : 0 < e -> a <= b -> a / e <= b / e.
Proof.
  intros He Hab. unfold Qdiv. apply Qmult_le_compat_r; [exact Hab|].
  apply Qlt_le_weak, Qinv_lt_0_compat, He.
Qed.

(** The profit the code compares with the threshold is at least the
    unrealized profit of the position. *)
Lemma profit_le_abs pt entry current :
  0 < entry ->
  unrealized_profit_pct pt entry current <= Py.abs (current - entry) / entry.
Proof.
  intros He. unfold unrealized_profit_pct. destruct pt; apply div_le_div_pos; try exact He.
  - apply abs_ge.
  - eapply Qle_trans; [|apply abs_ge_opp]. lra.
Qed.

(** Once the unrealized profit has reached the threshold the break-even
    stop is the entry price moved by one per mille to the winning side. *)
Lemma break_even_at_threshold s pt entry current thr :
  break_even_enabled s = true -> 0 < entry ->
  thr <= unrealized_profit_pct pt entry current ->
  calculate_break_even_stop s pt entry current thr
  = Some (match pt with LONG => entry * 1.001 | SHORT => entry * 0.999 end).
Proof.
  intros Hen He Hthr. unfold calculate_break_even_stop. rewrite Hen. simpl.
  destruct (Qeq_dec entry 0) as [Hz|_]; [lra|].
  destruct (Qlt_le_dec _ thr) as [Hlt|_].
  - pose proof (profit_le_abs pt entry current He). lra.
  - destruct pt; reflexivity.
Qed.

(** While the price has moved by less than the threshold in either
    direction there is no break-even stop. *)
Lemma break_even_small_move s pt entry current thr :
  Py.abs (current - entry) / entry < thr ->
  calculate_break_even_stop s pt entry current thr = None.
Proof.
  intros Hlt. unfold calculate_break_even_stop.
  destruct (break_even_enabled s); simpl; [|reflexivity].
  destruct (Qeq_dec entry 0); [reflexivity|].
  destruct (Qlt_le_dec _ thr) as [_|Hge]; [reflexivity|lra].
Qed.

(** A long position whose price has fallen by the threshold or more is
    given a break-even stop all the same: the code measures the size of
    the move, not its direction. *)
Lemma break_even_after_loss s entry current thr :
  break_even_enabled s = true -> 0 < entry ->
  thr <= (entry - current) / entry ->
  calculate_break_even_stop s LONG entry current thr = Some (entry * 1.001).
Proof.
  intros Hen He Hthr. unfold calculate_break_even_stop. rewrite Hen. simpl.
  destruct (Qeq_dec entry 0) as [Hz|_]; [lra|].
  destruct (Qlt_le_dec _ thr) as [Hlt|_]; [|reflexivity].
  assert ((entry - current) / entry <= Py.abs (current - entry) / entry).
  { apply div_le_div_pos; [exact He|]. eapply Qle_trans; [|apply abs_ge_opp]. lra. }
  lra.
Qed.

End BreakEven.

(** C7, at the input where the code departs from it.  A long position
    entered at 100 stands at 90: its unrealized profit is negative, far
    below the threshold of 1%, and yet [calculate_break_even_stop]
    returns a break-even stop, 100.1, above the current price. *)
Theorem break_even_stop_for_losing_long :
  StopTrace.unrealized_profit_pct LONG 100 90 < SmartStopLoss.default_profit_threshold /\
  SmartStopLoss.calculate_break_even_stop SmartStopLoss.default_settings LONG 100 90
    SmartStopLoss.default_profit_threshold = Some (100 * 1.001).
Proof. split; reflexivity. Qed.

(** A long position whose profit has reached the threshold gets no stop
    below the break-even stop from [update_position_stop_loss]: entered
    at 100 and standing at 110, its stop is not below 100.1. *)
Lemma update_long_in_profit
    (self : SmartStopLoss.t) (pid sym : string) (entry current : Q)
    (d50 d20 : option SmartStopLoss.market_data) (now : Z) :
  SmartStopLoss.break_even_enabled (SmartStopLoss.settings self) = true ->
  0 < entry ->
  SmartStopLoss.default_profit_threshold
    <= StopTrace.unrealized_profit_pct LONG entry current ->
  entry < entry * 1.001 /\
  Py.flt (fst (SmartStopLoss.update_position_stop_loss self pid sym LONG entry current
                 d50 d20 now))
         (Py.Num (entry * 1.001)) = false.
Proof.
  intros Hen He Hthr. split; [lra|].
  unfold SmartStopLoss.update_position_stop_loss. cbn [fst].
  rewrite (break_even_at_threshold _ LONG entry current _ Hen He Hthr).
  unfold Py.fmax_list. cbn [fold_left fmap option_fmap option_map Py.f_or_else].
  destruct (Qeq_dec (entry * 1.001) 0); [lra|]. apply fmax2_not_below_r.
Qed.

(** ** Position sizing *)

Section Sizing.

Import TradingSystem SizingSpec.

Lemma max2_Qmax a b : Py.max2 a b == Qmax a b.
Proof.
  unfold Py.max2. destruct (Qlt_le_dec a b) as [H|H].
  - symmetry. apply Q.max_r. lra.
  - symmetry. apply Q.max_l. exact H.
Qed.

Lemma min2_Qmin a b : Py.min2 a b == Qmin a b.
Proof.
  unfold Py.min2. destruct (Qlt_le_dec b a) as [H|H].
  - symmetry. apply Q.min_r. lra.
  - symmetry. apply Q.min_l. exact H.
Qed.

Lemma Qmax_mult_pos_r a b p : 0 < p -> Qmax a b * p == Qmax (a * p) (b * p).
Proof.
  intros Hp. destruct (Qlt_le_dec a b) as [H|H].
  - rewrite (Q.max_r a b) by lra. rewrite Q.max_r; [reflexivity|]. nra.
  - rewrite (Q.max_l a b) by lra. rewrite Q.max_l; [reflexivity|]. nra.
Qed.

Lemma Qmin_mult_pos_r a b p : 0 < p -> Qmin a b * p == Qmin (a * p) (b * p).
Proof.
  intros Hp. destruct (Qlt_le_dec a b) as [H|H].
  - rewrite (Q.min_l a b) by lra. rewrite Q.min_l; [reflexivity|]. nra.
  - rewrite (Q.min_r a b) by lra. rewrite Q.min_r; [reflexivity|]. nra.
Qed.

Lemma position_size_unfold s price :
  ~ price == 0 ->
  _calculate_position_size s price ==
  Qmax (Qmin (available_balance s * risk_percent (config s) / 100 / price)
             (available_balance s * max_position_size (config s) / price))
       0.001.
Proof.
  intros Hp. unfold _calculate_position_size.
  destruct (Qeq_dec price 0) as [Hz|_]; [contradiction|].
  rewrite max2_Qmax, min2_Qmin. reflexivity.
Qed.

End Sizing.

(** C6, as the code has it.  For every available balance, risk percent
    and positive entry price, the size is the risk amount (the balance
    times the risk percent over 100) divided by the entry price, capped
    at the size worth the fraction [max_position_size] of the balance,
    and then floored at 0.001; so the value of the position is the
    smaller of the risk amount and that fraction of the balance, or the
    value of 0.001 units if that is more.  No stop enters into it. *)
Theorem position_size_by_entry_price (s : TradingSystem.t) (price : Q) :
  0 < price ->
  let c := TradingSystem.config s in
  let available := TradingSystem.available_balance s in
  let risk_amount := available * TradingSystem.risk_percent c / 100 in
  TradingSystem._calculate_position_size s price ==
    Qmax (Qmin (risk_amount / price)
               (available * TradingSystem.max_position_size c / price)) 0.001 /\
  TradingSystem._calculate_position_size s price * price ==
    Qmax (Qmin risk_amount (available * TradingSystem.max_position_size c))
         (0.001 * price).
Proof.
  intros Hp c available risk_amount.
  assert (Hnz : ~ price == 0) by lra.
  pose proof (position_size_unfold s price Hnz) as Hsize.
  split; [exact Hsize|].
  rewrite Hsize. rewrite Qmax_mult_pos_r by exact Hp.
  rewrite Qmin_mult_pos_r by exact Hp.
  assert (E1 : risk_amount / price * price == risk_amount) by (field; exact Hnz).
  assert (E2 : available * TradingSystem.max_position_size c / price * price
               == available * TradingSystem.max_position_size c) by (field; exact Hnz).
  fold c available risk_amount. rewrite E1, E2. reflexivity.
Qed.

(** C6 as amended, at a balance of 1000 with the default configuration
    and an entry price of 100. *)
Lemma position_size_by_entry_price_witness :
  TradingSystem._calculate_position_size SizingSpec.fresh 100 * 100 ==
  Qmax (Qmin (1000 * 2 / 100) (1000 * 0.2)) (0.001 * 100).
Proof.
  exact (proj2 (position_size_by_entry_price SizingSpec.fresh 100 eq_refl)).
Defined.

(** C6 as the specification words it fails.  With a balance of 1000, a
    risk of 2% and an entry at 100, the stop the system itself computes
    lies at 98; the rule of the specification gives the capped size 2,
    the code gives 0.2. *)
Lemma position_size_ignores_stop_distance :
  Py.feq (TradingSystem._calculate_stop_loss SizingSpec.fresh SizingSpec.silent
            "BTC-USDT-SWAP" LONG 100) (Py.Num 98) /\
  SizingSpec.spec_position_size SizingSpec.fresh 100 98 == 2 /\
  TradingSystem._calculate_position_size SizingSpec.fresh 100 == 0.2 /\
  ~ TradingSystem._calculate_position_size SizingSpec.fresh 100
    == SizingSpec.spec_position_size SizingSpec.fresh 100 98.
Proof.
  repeat split; try reflexivity. intros H. vm_compute in H. discriminate H.
Qed.

(** ** The row guard of the analyzer *)

(** C9.  A history of fewer than 100 rows makes [calculate_smc_levels]
    return no structure, with the warning that the data are
    insufficient, whatever the rows are; with 100 rows or more the guard
    lets the analysis run, and the result is the one of the analysis. *)
Theorem smc_levels_need_100_rows
    (pipeline : string -> list SMCStrategy.candle -> option SMCStrategy.SMCData)
    (symbol : string) (ohlcv_data : list SMCStrategy.candle) :
  ((length ohlcv_data < 100)%nat ->
   SMCStrategy.calculate_smc_levels pipeline symbol ohlcv_data
   = (None, [ {| lg_level := WARNING; lg_logger := "smc_strategy";
                lg_subject := symbol |} ])) /\
  ((100 <= length ohlcv_data)%nat ->
   SMCStrategy.calculate_smc_levels pipeline symbol ohlcv_data
   = match pipeline symbol ohlcv_data with
     | Some smc_data => (Some smc_data, [])
     | None => (None, [ {| lg_level := ERROR; lg_logger := "smc_strategy";
                          lg_subject := symbol |} ])
     end).
Proof.
  unfold SMCStrategy.calculate_smc_levels, SMCStrategy.min_rows. split; intros H.
  - destruct (Nat.ltb_spec (length ohlcv_data) 100) as [_|Hge]; [reflexivity|lia].
  - destruct (Nat.ltb_spec (length ohlcv_data) 100) as [Hlt|_]; [lia|reflexivity].
Qed.

(** C9, at a history of 50 rows, and at one of 100 rows on which the
    analysis succeeds. *)
Lemma smc_levels_need_100_rows_witness :
  let found := {|
    SMCStrategy.sd_symbol := "BTC-USDT-SWAP"; SMCStrategy.sd_timestamp := 0;
    SMCStrategy.sd_current_price := 100; SMCStrategy.sd_bias := SMCStrategy.Neutral;
    SMCStrategy.sd_confidence := 0.5 |} in
  SMCStrategy.calculate_smc_levels (fun _ _ => Some found) "BTC-USDT-SWAP"
    (repeat Book.flat_candle 50)
  = (None, [ {| lg_level := WARNING; lg_logger := "smc_strategy";
               lg_subject := "BTC-USDT-SWAP" |} ]) /\
  SMCStrategy.calculate_smc_levels (fun _ _ => Some found) "BTC-USDT-SWAP"
    (repeat Book.flat_candle 100)
  = (Some found, []).
Proof.
  intros found. split.
  - apply (proj1 (smc_levels_need_100_rows (fun _ _ => Some found) "BTC-USDT-SWAP"
                    (repeat Book.flat_candle 50))).
    apply Nat.ltb_lt. reflexivity.
  - apply (proj2 (smc_levels_need_100_rows (fun _ _ => Some found) "BTC-USDT-SWAP"
                    (repeat Book.flat_candle 100))).
    apply Nat.leb_le. reflexivity.
Defined.

(** ** The position book *)

Section Dict.

Context {V : Type}.

Lemma dict_get_set_eq (k : string) (v : V) d : dict_get k (dict_set k v d) = Some v.
Proof.
  induction d as [|[k' v'] d IH]; simpl.
  - destruct (decide (k = k)); [reflexivity|contradiction].
  - destruct (decide (k = k')) as [->|Hne]; simpl.
    + destruct (decide (k' = k')); [reflexivity|contradiction].
    + destruct (decide (k = k')); [contradiction|exact IH].
Qed.

Lemma dict_get_set_ne (k k' : string) (v : V) d :
  k <> k' -> dict_get k' (dict_set k v d) = dict_get k' d.
Proof.
  intros Hne. induction d as [|[k0 v0] d IH]; simpl.
  - destruct (decide (k' = k)); [congruence|reflexivity].
  - destruct (decide (k = k0)) as [->|Hne0]; simpl.
    + destruct (decide (k' = k0)); [congruence|reflexivity].
    + destruct (decide (k' = k0)); [reflexivity|exact IH].
Qed.

(** Assigning to a key that is present keeps the length. *)
Lemma dict_set_length_present (k : string) (v v0 : V) d :
  dict_get k d = Some v0 -> length (dict_set k v d) = length d.
Proof.
  induction d as [|[k' v'] d IH]; simpl; [discriminate|].
  destruct (decide (k = k')); simpl; [reflexivity|]. intros H. f_equal. exact (IH H).
Qed.

(** Assigning to a key adds one entry at most. *)
Lemma dict_set_length_le (k : string) (v : V) d :
  (length (dict_set k v d) <= S (length d))%nat.
Proof.
  induction d as [|[k' v'] d IH]; simpl; [lia|].
  destruct (decide (k = k')); simpl; lia.
Qed.

Lemma dict_set_length_ge (k : string) (v : V) d :
  (length d <= length (dict_set k v d))%nat.
Proof.
  induction d as [|[k' v'] d IH]; simpl; [lia|].
  destruct (decide (k = k')); simpl; lia.
Qed.

Lemma dict_del_length_le (k : string) (d : list (string * V)) :
  (length (dict_del k d) <= length d)%nat.
Proof.
  induction d as [|[k' v'] d IH]; simpl; [lia|].
  destruct (decide (k = k')); simpl; lia.
Qed.

End Dict.

Section ClosePosition.

Import TradingSystem.

(** What [close_position] does, by the state of the position and the
    answers of the exchange. *)
Lemma close_position_not_found s w pid reason :
  dict_get pid (positions s) = None ->
  close_position s w pid reason = ((false, MsgNoSuchPosition), s).
Proof. intros H. unfold close_position. rewrite H. reflexivity. Qed.

Lemma close_position_closed s w pid reason position :
  dict_get pid (positions s) = Some position -> status position = CLOSED ->
  close_position s w pid reason = ((false, MsgNotOpen), s).
Proof. intros H Hst. unfold close_position. rewrite H, Hst. reflexivity. Qed.

(** The book keeps its length through [close_position], whatever
    happens. *)
Lemma close_position_length s w pid reason :
  length (positions (snd (close_position s w pid reason))) = length (positions s).
Proof.
  unfold close_position.
  destruct (dict_get pid (positions s)) as [position|] eqn:Hget; [|reflexivity].
  destruct (status position); [|reflexivity].
  destruct (price w (symbol position)); [|reflexivity].
  destruct (close_order w _ _) as [|[|]]; try reflexivity.
  simpl. destruct (smart_stoploss s); simpl; eapply dict_set_length_present; exact Hget.
Qed.

(** Either nothing changes, or the call succeeded. *)
Lemma close_position_cases s w pid reason :
  close_position s w pid reason = ((true, MsgClosed), snd (close_position s w pid reason))
  \/ (fst (fst (close_position s w pid reason)) = false /\
      snd (close_position s w pid reason) = s).
Proof.
  unfold close_position.
  destruct (dict_get pid (positions s)) as [position|]; [|right; split; reflexivity].
  destruct (status position); [|right; split; reflexivity].
  destruct (price w (symbol position)); [|right; split; reflexivity].
  destruct (close_order w _ _) as [|[|]]; try (right; split; reflexivity).
  left. reflexivity.
Qed.

(** After a successful call the position is in the book, closed. *)
Lemma close_position_success s w pid reason :
  fst (fst (close_position s w pid reason)) = true ->
  exists position position',
    dict_get pid (positions s) = Some position /\ status position = OPEN /\
    dict_get pid (positions (snd (close_position s w pid reason))) = Some position' /\
    status position' = CLOSED /\ close_reason position' = reason.
Proof.
  unfold close_position.
  destruct (dict_get pid (positions s)) as [position|] eqn:Hget; [|discriminate].
  destruct (status position) eqn:Hst; [|discriminate].
  destruct (price w (symbol position)) as [p|]; [|discriminate].
  destruct (close_order w _ _) as [|[|]]; try discriminate.
  intros _. exists position. eexists. split; [reflexivity|]. split; [exact Hst|].
  simpl. destruct (smart_stoploss s); simpl; (split; [apply dict_get_set_eq|]);
    split; reflexivity.
Qed.

End ClosePosition.

Section EntryChecks.

Import TradingSystem.

Lemma can_execute_needs_room w s :
  _can_execute_trade w s = true ->
  (length (positions s) < max_positions (config s))%nat.
Proof.
  unfold _can_execute_trade.
  destruct (Nat.leb_spec (max_positions (config s)) (length (positions s))) as [H|H];
    [discriminate | intros _; exact H].
Qed.

Lemma full_book_blocks_entries w s :
  (max_positions (config s) <= length (positions s))%nat ->
  _can_execute_trade w s = false.
Proof.
  intros H. unfold _can_execute_trade.
  destruct (Nat.leb_spec (max_positions (config s)) (length (positions s)));
    [reflexivity | lia].
Qed.

Lemma full_book_is_risk_limit s :
  (max_positions (config s) <= length (positions s))%nat ->
  _check_risk_limits s = true.
Proof.
  intros H. unfold _check_risk_limits.
  destruct (Qeq_dec (today_start_balance s) 0); [reflexivity|].
  destruct (Qlt_le_dec _ _); [|reflexivity].
  apply Nat.leb_le. exact H.
Qed.

Lemma cleanup_keeps_small_book s :
  (Book.closed_count s <= retained_closed)%nat -> _cleanup_old_data s = s.
Proof.
  unfold Book.closed_count, _cleanup_old_data. intros H.
  destruct (Nat.ltb_spec retained_closed
              (length (List.filter (fun '(_, position) => is_closed position)
                         (positions s)))); [lia|reflexivity].
Qed.

End EntryChecks.

(** C10.  The two checks read the length of the whole book.  Whenever
    the book holds at least [max_positions] positions, open or closed,
    [_can_execute_trade] is false and [_check_risk_limits] is true,
    however few of the positions are open.  Closed positions do stay in
    the book: [close_position] never changes its length, and
    [_cleanup_old_data] leaves a book with at most 100 closed positions
    as it is. *)
Theorem closed_positions_count_against_limit
    (s : TradingSystem.t) (w : TradingSystem.World) :
  (TradingSystem.max_positions (TradingSystem.config s)
     <= Book.open_count s + Book.closed_count s)%nat ->
  length (TradingSystem.positions s) = (Book.open_count s + Book.closed_count s)%nat /\
  TradingSystem._can_execute_trade w s = false /\
  TradingSystem._check_risk_limits s = true /\
  (forall w' pid reason,
     length (TradingSystem.positions (snd (TradingSystem.close_position s w' pid reason)))
     = length (TradingSystem.positions s)) /\
  ((Book.closed_count s <= 100)%nat -> TradingSystem._cleanup_old_data s = s).
Proof.
  intros H.
  assert (Hlen : length (TradingSystem.positions s)
                 = (Book.open_count s + Book.closed_count s)%nat).
  { unfold Book.open_count, Book.closed_count, TradingSystem.get_open_positions.
    induction (TradingSystem.positions s) as [|[k p] d IH]; simpl; [reflexivity|].
    unfold TradingSystem.is_open, TradingSystem.is_closed in *.
    destruct (TradingSystem.status p); simpl; lia. }
  split; [exact Hlen|]. rewrite <- Hlen in H.
  split; [apply full_book_blocks_entries; exact H|].
  split; [apply full_book_is_risk_limit; exact H|].
  split; [intros; apply close_position_length|].
  apply cleanup_keeps_small_book.
Qed.

(** C10, at a book whose only position is closed, with room for one
    position: nothing is open and no entry is permitted. *)
Lemma closed_positions_count_against_limit_witness :
  let s := Book.system Book.one_slot
             [("LONG_BTC-USDT-SWAP_1"%string, Book.closed_example)] 3 in
  Book.open_count s = 0%nat /\
  TradingSystem._can_execute_trade SizingSpec.silent s = false /\
  TradingSystem._check_risk_limits s = true.
Proof.
  intros s. split; [reflexivity|].
  assert (H : (TradingSystem.max_positions (TradingSystem.config s)
               <= Book.open_count s + Book.closed_count s)%nat)
    by (apply Nat.leb_le; reflexivity).
  destruct (closed_positions_count_against_limit s SizingSpec.silent H)
    as (_ & Hcan & Hrisk & _).
  split; assumption.
Defined.

(** ** The book under the control loop *)

Section BookInvariant.

Import TradingSystem.

Lemma close_position_config s w pid reason :
  config (snd (close_position s w pid reason)) = config s.
Proof.
  destruct (close_position_cases s w pid reason) as [H | (_ & ->)]; [|reflexivity].
  revert H. unfold close_position.
  destruct (dict_get pid (positions s)) as [position|]; [|reflexivity].
  destruct (status position); [|reflexivity].
  destruct (price w (symbol position)); [|reflexivity].
  destruct (close_order w _ _) as [|[|]]; try reflexivity.
  intros _. simpl. destruct (smart_stoploss s); reflexivity.
Qed.

Lemma close_many_book s w reason (ids : list string) :
  let s' := fold_left (fun acc pid => snd (close_position acc w pid reason)) ids s in
  config s' = config s /\ length (positions s') = length (positions s).
Proof.
  revert s. induction ids as [|pid ids IH]; intros s; simpl; [split; reflexivity|].
  destruct (IH (snd (close_position s w pid reason))) as (Hc & Hl).
  simpl in Hc, Hl. rewrite Hc, Hl, close_position_config, close_position_length.
  split; reflexivity.
Qed.

Lemma close_all_book s w reason :
  config (close_all_positions s w reason) = config s /\
  length (positions (close_all_positions s w reason)) = length (positions s).
Proof.
  unfold close_all_positions.
  generalize (get_open_positions s) as ps. intros ps. revert s.
  induction ps as [|p ps IH]; intros s; simpl; [split; reflexivity|].
  destruct (IH (snd (close_position s w (position_id p) reason))) as (Hc & Hl).
  rewrite Hc, Hl, close_position_config, close_position_length. split; reflexivity.
Qed.

Lemma watch_positions_length c w engine items :
  length (fst (fst (watch_positions c w engine items))) = length items.
Proof.
  revert engine. induction items as [|[pid position] rest IH]; intros engine;
    [reflexivity|].
  cbn [watch_positions].
  destruct (status position).
  - destruct (price w (symbol position)) as [p|].
    + destruct engine as [e|].
      * destruct (SmartStopLoss.update_position_stop_loss e pid _ _ _ p _ _ _)
          as [stop e'] eqn:Hup.
        specialize (IH (Some e')).
        destruct (watch_positions c w (Some e') rest) as [[rest' engine''] ids].
        simpl in *. f_equal. exact IH.
      * specialize (IH None).
        destruct (watch_positions c w None rest) as [[rest' engine''] ids].
        simpl in *. f_equal. exact IH.
    + specialize (IH engine).
      destruct (watch_positions c w engine rest) as [[rest' engine'] ids].
      simpl in *. f_equal. exact IH.
  - specialize (IH engine).
    destruct (watch_positions c w engine rest) as [[rest' engine'] ids].
    simpl in *. f_equal. exact IH.
Qed.

Lemma check_position_stops_book s w :
  config (_check_position_stops s w) = config s /\
  length (positions (_check_position_stops s w)) = length (positions s).
Proof.
  unfold _check_position_stops.
  pose proof (watch_positions_length (config s) w (smart_stoploss s) (positions s)) as Hlen.
  destruct (watch_positions (config s) w (smart_stoploss s) (positions s))
    as [[items engine] ids]. simpl in Hlen.
  destruct (close_many_book (with_smart_stoploss (with_positions s items) engine)
              w "STOP_LOSS" ids) as (Hc & Hl).
  simpl in Hc, Hl. rewrite Hc, Hl. split; [reflexivity | exact Hlen].
Qed.

Lemma open_position_book pt s w sym p q :
  config (snd (open_position pt s w sym p q)) = config s /\
  (length (positions (snd (open_position pt s w sym p q))) <= S (length (positions s)))%nat.
Proof.
  unfold open_position.
  destruct (Qlt_le_dec 0 _); [|split; [reflexivity | simpl; lia]].
  destruct (set_leverage w sym); [split; [reflexivity | simpl; lia]|].
  destruct (create_order w sym pt _) as [|[oid|]]; try (split; [reflexivity | simpl; lia]).
  simpl. destruct (smart_stoploss s); simpl; (split; [reflexivity | apply dict_set_length_le]).
Qed.

(** A call that reports failure has changed nothing. *)
Lemma open_position_failed pt s w sym p q :
  fst (open_position pt s w sym p q) = false -> snd (open_position pt s w sym p q) = s.
Proof.
  unfold open_position.
  destruct (Qlt_le_dec 0 _); [|reflexivity].
  destruct (set_leverage w sym); [reflexivity|].
  destruct (create_order w sym pt _) as [|[oid|]]; try reflexivity.
  simpl. discriminate.
Qed.

Lemma futures_loop_book w symbols : forall s,
  (length (positions s) <= max_positions (config s))%nat ->
  config (futures_loop w symbols s) = config s /\
  (length (positions (futures_loop w symbols s)) <= max_positions (config s))%nat.
Proof.
  induction symbols as [|sym rest IH]; intros s Hs; [split; [reflexivity|exact Hs]|].
  cbn [futures_loop].
  destruct (_can_execute_trade w s) eqn:Hcan; simpl; [|split; [reflexivity|exact Hs]].
  apply can_execute_needs_room in Hcan.
  set (s' := match futures_signal w sym with
             | SigLong => _ | SigShort => _ | SigHold => _ end).
  assert (Hs' : config s' = config s /\
                (length (positions s') <= max_positions (config s))%nat).
  { subst s'. destruct (futures_signal w sym); [| |split; [reflexivity|lia]].
    - destruct (truthy (price w sym)) as [current_price|]; [|split; [reflexivity|lia]].
      unfold open_long_position.
      destruct (open_position_book LONG s w sym current_price None) as (Hc & Hl).
      destruct (open_position LONG s w sym current_price None) as [[|] s1];
        simpl in *; (split; [exact Hc | lia]).
    - destruct (truthy (price w sym)) as [current_price|]; [|split; [reflexivity|lia]].
      unfold open_short_position.
      destruct (open_position_book SHORT s w sym current_price None) as (Hc & Hl).
      destruct (open_position SHORT s w sym current_price None) as [[|] s1];
        simpl in *; (split; [exact Hc | lia]). }
  destruct Hs' as (Hc' & Hl').
  destruct (IH s') as (Hc & Hl); [rewrite Hc'; exact Hl'|].
  rewrite Hc, Hc' in *. split; [reflexivity | exact Hl].
Qed.

Lemma spot_buy_book s w sym p q :
  config (snd (spot_buy s w sym p q)) = config s /\
  positions (snd (spot_buy s w sym p q)) = positions s.
Proof.
  unfold spot_buy.
  destruct (Qlt_le_dec (available_balance s) _); [split; reflexivity|].
  destruct (Qlt_le_dec _ (min_spot_amount (config s))); [split; reflexivity|].
  destruct (spot_buy_order w sym _ p) as [|[|]]; split; reflexivity.
Qed.

Lemma spot_sell_book s w sym p q :
  config (snd (spot_sell s w sym p q)) = config s /\
  positions (snd (spot_sell s w sym p q)) = positions s.
Proof.
  unfold spot_sell.
  destruct (spot_holdings s !! sym) as [h|]; [|split; reflexivity].
  destruct (Qlt_le_dec 0 (sh_quantity h)); [|split; reflexivity].
  destruct (Qlt_le_dec (sh_quantity h) _); [split; reflexivity|].
  destruct (spot_sell_order w sym _ p) as [|[|]]; split; reflexivity.
Qed.

Lemma spot_step_book w s sym :
  config (spot_step w s sym) = config s /\
  positions (spot_step w s sym) = positions s.
Proof.
  unfold spot_step.
  destruct (spot_signal w sym); [| |split; reflexivity].
  - destruct (truthy (price w sym)) as [p|]; [|split; reflexivity].
    destruct (match spot_holdings s !! sym with
              | Some h => if Qeq_dec (sh_quantity h) 0 then false else true
              | None => false end); [split; reflexivity|].
    destruct (spot_buy_book s w sym p None) as (Hc & Hp).
    destruct (spot_buy s w sym p None) as [[|] s1]; simpl in *; split; assumption.
  - destruct (truthy (price w sym)) as [p|]; [|split; reflexivity].
    destruct (spot_holdings s !! sym) as [h|]; [|split; reflexivity].
    destruct (Qlt_le_dec 0 (sh_quantity h)); [|split; reflexivity].
    destruct (spot_sell_book s w sym p (Some (sh_quantity h))) as (Hc & Hp).
    destruct (spot_sell s w sym p (Some (sh_quantity h))) as [[|] s1];
      simpl in *; split; assumption.
Qed.

Lemma spot_strategy_book s w :
  config (_execute_spot_strategy s w) = config s /\
  positions (_execute_spot_strategy s w) = positions s.
Proof.
  unfold _execute_spot_strategy.
  generalize (firstn 3 (spot_pairs (config s))) as syms. intros syms. revert s.
  induction syms as [|sym syms IH]; intros s; simpl; [split; reflexivity|].
  destruct (IH (spot_step w s sym)) as (Hc & Hp).
  destruct (spot_step_book w s sym) as (Hc' & Hp').
  rewrite Hc, Hp, Hc', Hp'. split; reflexivity.
Qed.

Lemma trading_strategy_book s w :
  (length (positions s) <= max_positions (config s))%nat ->
  config (_execute_trading_strategy s w) = config s /\
  (length (positions (_execute_trading_strategy s w)) <= max_positions (config s))%nat.
Proof.
  intros Hs. unfold _execute_trading_strategy.
  set (s1 := match trading_mode (config s) with
             | ModeBoth | ModeFutures => _ | _ => s end).
  assert (H1 : config s1 = config s /\
               (length (positions s1) <= max_positions (config s))%nat).
  { subst s1. unfold _execute_futures_strategy.
    destruct (trading_mode (config s)); try (split; [reflexivity|exact Hs]);
      destruct (futures_enabled (config s)); try (split; [reflexivity|exact Hs]);
      apply futures_loop_book; exact Hs. }
  destruct H1 as (Hc1 & Hl1).
  destruct (spot_strategy_book s1 w) as (Hc2 & Hp2).
  destruct (trading_mode (config s)); try (split; assumption);
    destruct (spot_enabled (config s)); try (split; assumption);
    rewrite Hc2, Hp2; split; assumption.
Qed.

Lemma check_daily_reset_book s w :
  config (_check_daily_reset s w) = config s /\
  positions (_check_daily_reset s w) = positions s /\
  auto_trading (_check_daily_reset s w) = auto_trading s.
Proof.
  unfold _check_daily_reset.
  destruct (last_reset_date s) as [d|]; [destruct (d <? today_start w)%Z|];
    repeat split; reflexivity.
Qed.

Lemma update_account_info_book s w :
  config (_update_account_info s w) = config s /\
  length (positions (_update_account_info s w)) = length (positions s) /\
  auto_trading (_update_account_info s w) = auto_trading s.
Proof.
  unfold _update_account_info, _update_positions_pnl.
  set (s1 := match spot_balance w with Some _ => _ | None => s end).
  assert (H1 : config s1 = config s /\ positions s1 = positions s /\
               auto_trading s1 = auto_trading s).
  { subst s1. destruct (spot_balance w); repeat split; reflexivity. }
  destruct H1 as (Hc1 & Hp1 & Ha1).
  destruct (check_daily_reset_book s1 w) as (Hc2 & Hp2 & Ha2).
  cbn [config positions auto_trading with_positions].
  rewrite length_map, Hc2, Hp2, Ha2, Hc1, Hp1, Ha1. repeat split; reflexivity.
Qed.

Lemma delete_many_length {V : Type} (stale : list (string * option Z))
    (d : list (string * V)) :
  (length (fold_left (fun d '(pid, _) => dict_del pid d) stale d) <= length d)%nat.
Proof.
  revert d. induction stale as [|[pid ?] stale IH]; intros d; simpl; [lia|].
  etransitivity; [apply IH|]. apply dict_del_length_le.
Qed.

Lemma cleanup_book s :
  config (_cleanup_old_data s) = config s /\
  (length (positions (_cleanup_old_data s)) <= length (positions s))%nat.
Proof.
  unfold _cleanup_old_data.
  destruct (retained_closed <? _)%nat; [|split; [reflexivity|lia]].
  split; [reflexivity|]. simpl. apply delete_many_length.
Qed.

Lemma loop_body_book w n s :
  (length (positions s) <= max_positions (config s))%nat ->
  config (loop_body w n s) = config s /\
  (length (positions (loop_body w n s)) <= max_positions (config s))%nat.
Proof.
  intros Hs. unfold loop_body.
  set (s1 := if (n mod 10 =? 0)%nat then _update_account_info s w else s).
  assert (H1 : config s1 = config s /\ length (positions s1) = length (positions s)).
  { subst s1. destruct (n mod 10 =? 0)%nat; [|split; reflexivity].
    destruct (update_account_info_book s w) as (? & ? & _). split; assumption. }
  destruct H1 as (Hc1 & Hl1).
  destruct (_check_risk_limits s1).
  { unfold stop_auto_trading. destruct (auto_trading s1); simpl;
      rewrite ?Hc1, ?Hl1; split; [reflexivity|exact Hs|reflexivity|exact Hs]. }
  destruct (check_position_stops_book s1 w) as (Hc2 & Hl2).
  set (s2 := _check_position_stops s1 w) in *.
  set (s3 := if _can_execute_trade w s2 then _execute_trading_strategy s2 w else s2).
  assert (H3 : config s3 = config s /\
               (length (positions s3) <= max_positions (config s))%nat).
  { subst s3. destruct (_can_execute_trade w s2).
    - destruct (trading_strategy_book s2 w) as (Hc3 & Hl3).
      + rewrite Hc2, Hc1, Hl2, Hl1. exact Hs.
      + rewrite Hc3, Hc2, Hc1 in *. split; [reflexivity|exact Hl3].
    - rewrite Hc2, Hc1, Hl2, Hl1. split; [reflexivity|exact Hs]. }
  destruct H3 as (Hc3 & Hl3).
  destruct (n mod 30 =? 0)%nat; [|split; assumption].
  destruct (cleanup_book s3) as (Hc4 & Hl4). rewrite Hc4. split; [exact Hc3|lia].
Qed.

Lemma open_count_le_length s : (Book.open_count s <= length (positions s))%nat.
Proof.
  unfold Book.open_count, get_open_positions.
  etransitivity; [apply List.filter_length_le|]. rewrite length_map. lia.
Qed.

Lemma apply_op_book s o :
  is_direct_open o = false ->
  (length (positions s) <= max_positions (config s))%nat ->
  config (apply_op s o) = config s /\
  (length (positions (apply_op s o)) <= max_positions (config s))%nat.
Proof.
  intros Ho Hs. destruct o; try discriminate Ho; simpl.
  - apply loop_body_book. exact Hs.
  - rewrite close_position_config, close_position_length. split; [reflexivity|exact Hs].
  - destruct (close_all_book s w reason) as (-> & ->). split; [reflexivity|exact Hs].
Qed.

End BookInvariant.

(** C3, as the code has it.  Start from a book that holds no more than
    [max_positions] positions and apply any sequence of passes of the
    control loop, calls of [close_position] and calls of
    [close_all_positions]: the book never holds more than
    [max_positions] positions, open and closed together, and so never
    more than [max_positions] open ones.  The two direct operations are
    left out: they do not look at the limit. *)
Theorem loop_keeps_book_within_limit
    (s : TradingSystem.t) (ops : list TradingSystem.Op) :
  Forall (fun o => TradingSystem.is_direct_open o = false) ops ->
  (length (TradingSystem.positions s)
     <= TradingSystem.max_positions (TradingSystem.config s))%nat ->
  let s' := fold_left TradingSystem.apply_op ops s in
  TradingSystem.config s' = TradingSystem.config s /\
  (length (TradingSystem.positions s')
     <= TradingSystem.max_positions (TradingSystem.config s))%nat /\
  (Book.open_count s' <= TradingSystem.max_positions (TradingSystem.config s))%nat.
Proof.
  intros Hops. revert s. induction Hops as [|o ops Ho _ IH]; intros s Hs; simpl.
  - split; [reflexivity|]. split; [exact Hs|].
    etransitivity; [apply open_count_le_length | exact Hs].
  - destruct (apply_op_book s o Ho Hs) as (Hc & Hl).
    destruct (IH (TradingSystem.apply_op s o)) as (Hc' & Hl' & Ho').
    + rewrite Hc. exact Hl.
    + rewrite Hc in *. rewrite Hc'. repeat split; assumption.
Qed.

(** C3 as amended, at an empty book with room for one position: two
    passes of the loop in a world where every signal says long. *)
Lemma loop_keeps_book_within_limit_witness :
  (Book.open_count
     (fold_left TradingSystem.apply_op
        [TradingSystem.OpLoopPass Book.eager 1; TradingSystem.OpLoopPass Book.eager 2]
        (Book.system Book.one_slot [] 0)) <= 1)%nat.
Proof.
  refine (proj2 (proj2 (loop_keeps_book_within_limit (Book.system Book.one_slot [] 0)
                          [TradingSystem.OpLoopPass Book.eager 1;
                           TradingSystem.OpLoopPass Book.eager 2] _ _))).
  - repeat constructor.
  - apply Nat.leb_le. reflexivity.
Defined.

(** The first of those two passes opens the one position the limit
    allows; the second opens nothing. *)
Example loop_fills_the_one_slot :
  Book.open_count
    (fold_left TradingSystem.apply_op
       [TradingSystem.OpLoopPass Book.eager 1]
       (Book.system Book.one_slot [] 0)) = 1%nat /\
  Book.open_count
    (fold_left TradingSystem.apply_op
       [TradingSystem.OpLoopPass Book.eager 1; TradingSystem.OpLoopPass Book.eager 2]
       (Book.system Book.one_slot [] 0)) = 1%nat.
Proof. split; vm_compute; reflexivity. Qed.

(** C3 as the specification words it fails.  With room for one position
    and an empty book, two calls of [open_long_position] for two
    instruments leave two open positions. *)
Lemma direct_opens_exceed_limit :
  let s' :=
    fold_left TradingSystem.apply_op
      [TradingSystem.OpOpenLong Book.eager "BTC-USDT-SWAP" 100 None;
       TradingSystem.OpOpenLong Book.eager "ETH-USDT-SWAP" 100 None]
      (Book.system Book.one_slot [] 0) in
  TradingSystem.max_positions (TradingSystem.config s') = 1%nat /\
  Book.open_count s' = 2%nat /\
  ~ (Book.open_count s' <= TradingSystem.max_positions (TradingSystem.config s'))%nat.
Proof.
  intros s'.
  assert (H1 : TradingSystem.max_positions (TradingSystem.config s') = 1%nat)
    by (vm_compute; reflexivity).
  assert (H2 : Book.open_count s' = 2%nat) by (vm_compute; reflexivity).
  rewrite H1, H2. repeat split. lia.
Qed.

(** ** The pass that finds a risk limit *)

Section RiskLimit.

Import TradingSystem.

Lemma risk_limit_reached_checked s :
  Book.risk_limit_reached s -> _check_risk_limits s = true.
Proof.
  intros [(Hnz & Hloss) | Hfull]; [|apply full_book_is_risk_limit; exact Hfull].
  unfold _check_risk_limits.
  destruct (Qeq_dec (today_start_balance s) 0); [reflexivity|].
  destruct (Qlt_le_dec _ _) as [Hlt|_]; [lra|reflexivity].
Qed.

Lemma update_positions_pnl_apart s w :
  Book.apart_from_pnl (positions (_update_positions_pnl s w))
  = Book.apart_from_pnl (positions s).
Proof.
  unfold _update_positions_pnl, Book.apart_from_pnl.
  cbn [positions with_positions]. rewrite map_map.
  apply map_ext. intros [pid position].
  destruct (status position); [|reflexivity].
  destruct (truthy (price w (symbol position))); reflexivity.
Qed.

(** What the account refresh leaves alone. *)
Lemma update_account_info_rest s w :
  Book.apart_from_pnl (positions (_update_account_info s w))
  = Book.apart_from_pnl (positions s) /\
  smart_stoploss (_update_account_info s w) = smart_stoploss s /\
  trade_records (_update_account_info s w) = trade_records s /\
  position_count (_update_account_info s w) = position_count s /\
  last_trade_time (_update_account_info s w) = last_trade_time s /\
  spot_holdings (_update_account_info s w) = spot_holdings s.
Proof.
  unfold _update_account_info. rewrite update_positions_pnl_apart.
  unfold _update_positions_pnl, _check_daily_reset.
  destruct (spot_balance w) as [info|];
    cbn [last_reset_date with_balances];
    (destruct (last_reset_date s) as [d|];
     [destruct (d <? today_start w)%Z|]); repeat split; reflexivity.
Qed.

Lemma at_risk_check_book w n s :
  Book.apart_from_pnl (positions (Book.at_risk_check w n s))
  = Book.apart_from_pnl (positions s) /\
  smart_stoploss (Book.at_risk_check w n s) = smart_stoploss s /\
  trade_records (Book.at_risk_check w n s) = trade_records s /\
  position_count (Book.at_risk_check w n s) = position_count s /\
  last_trade_time (Book.at_risk_check w n s) = last_trade_time s /\
  spot_holdings (Book.at_risk_check w n s) = spot_holdings s.
Proof.
  unfold Book.at_risk_check. destruct (n mod 10 =? 0)%nat.
  - apply update_account_info_rest.
  - repeat split; reflexivity.
Qed.

Lemma at_risk_check_rest w n s :
  auto_trading (Book.at_risk_check w n s) = auto_trading s.
Proof.
  unfold Book.at_risk_check. destruct (n mod 10 =? 0)%nat; [|reflexivity].
  apply update_account_info_book.
Qed.

End RiskLimit.

(** C2, as the code has it.  Let the loop run with [auto_trading] set.
    A pass checks the risk limits after the account refresh, which every
    tenth pass makes first and no other pass makes.  If at that check
    the realized loss of the day has reached [max_daily_loss] of the
    balance at the start of the day, or the book has reached
    [max_positions], then the pass calls [stop_auto_trading] and does
    nothing else: the state it leaves is the state at the check with
    the flag cleared, and the loop makes no further pass, whatever the
    later market does.  On a pass that is not a tenth pass that is the
    state before the pass with the flag cleared.  On a tenth pass the
    refresh has read the balances, reset the counters of the day on a
    new date and recomputed the unrealized profit of the open
    positions; apart from that profit the book is as it was, and so are
    the stop engine, the trade records, the position count, the time of
    the last trade and the spot holdings: no position is opened, no
    stop is updated, nothing is closed. *)
Theorem risk_limit_stops_the_loop
    (s : TradingSystem.t) (w : TradingSystem.World)
    (rest : list TradingSystem.World) (passes : nat) :
  TradingSystem.auto_trading s = true ->
  Book.risk_limit_reached (Book.at_risk_check w (S passes) s) ->
  let s' := TradingSystem._auto_trading_loop (w :: rest) passes s in
  s' = TradingSystem.with_auto_trading (Book.at_risk_check w (S passes) s) false /\
  ((S passes mod 10 =? 0)%nat = false ->
   s' = TradingSystem.with_auto_trading s false) /\
  TradingSystem.auto_trading s' = false /\
  Book.apart_from_pnl (TradingSystem.positions s')
  = Book.apart_from_pnl (TradingSystem.positions s) /\
  TradingSystem.smart_stoploss s' = TradingSystem.smart_stoploss s /\
  TradingSystem.trade_records s' = TradingSystem.trade_records s /\
  TradingSystem.position_count s' = TradingSystem.position_count s /\
  TradingSystem.last_trade_time s' = TradingSystem.last_trade_time s /\
  TradingSystem.spot_holdings s' = TradingSystem.spot_holdings s.
Proof.
  intros Hon Hlimit s'.
  assert (Hs' : s' = TradingSystem.with_auto_trading
                       (Book.at_risk_check w (S passes) s) false).
  { subst s'. cbn [TradingSystem._auto_trading_loop]. rewrite Hon.
    unfold TradingSystem.loop_body.
    change (if (S passes mod 10 =? 0)%nat
            then TradingSystem._update_account_info s w else s)
      with (Book.at_risk_check w (S passes) s).
    rewrite (risk_limit_reached_checked _ Hlimit).
    unfold TradingSystem.stop_auto_trading.
    rewrite (at_risk_check_rest w (S passes) s), Hon. cbn [snd].
    destruct rest as [|w' rest']; [reflexivity|].
    cbn [TradingSystem._auto_trading_loop TradingSystem.auto_trading
         TradingSystem.with_auto_trading]. reflexivity. }
  split; [exact Hs'|]. split.
  { intros Hnot. rewrite Hs'. unfold Book.at_risk_check. rewrite Hnot. reflexivity. }
  rewrite Hs'.
  cbn [TradingSystem.with_auto_trading TradingSystem.auto_trading
       TradingSystem.positions TradingSystem.smart_stoploss
       TradingSystem.trade_records TradingSystem.position_count
       TradingSystem.last_trade_time TradingSystem.spot_holdings].
  split; [reflexivity|].
  pose proof (at_risk_check_book w (S passes) s) as (H1 & H2 & H3 & H4 & H5 & H6).
  repeat split; assumption.
Qed.

(** C2 as amended, at a realized loss of 6 on a balance of 100 at the
    start of the day, with the limit at 5%, and one long position open
    from 100 while the price is 90.  Found on the first pass, the limit
    stops the loop and leaves the state as it was, flag apart; the two
    later passes are never made.  Found on the tenth pass, the limit
    stops the loop after the refresh has written the open loss, 100.8
    with the fees at leverage 10, into the position, which stays open
    with its stop at 98. *)
Lemma risk_limit_stops_the_loop_witness :
  let s := Book.system TradingSystem.default_config
             [("LONG_BTC-USDT-SWAP_1"%string, Book.open_example)] (-6) in
  let worlds := [Book.falling; Book.falling; Book.falling] in
  TradingSystem._auto_trading_loop worlds 0 s
  = TradingSystem.with_auto_trading s false /\
  TradingSystem._auto_trading_loop worlds 9 s
  = TradingSystem.with_auto_trading
      (TradingSystem.with_positions s
         [("LONG_BTC-USDT-SWAP_1"%string,
           TradingSystem.set_pnl Book.open_example (TradingSystem._calculate_position_pnl TradingSystem.default_config
              Book.open_example 90))]) false /\
  TradingSystem.get_open_positions (TradingSystem._auto_trading_loop worlds 9 s)
  = [TradingSystem.set_pnl Book.open_example (TradingSystem._calculate_position_pnl TradingSystem.default_config
              Book.open_example 90)] /\
  (TradingSystem._calculate_position_pnl TradingSystem.default_config
              Book.open_example 90) == -100.8.
Proof.
  intros s worlds. subst worlds.
  assert (Hlimit : forall n, Book.risk_limit_reached (Book.at_risk_check Book.falling n s)).
  { intros n. left. unfold Book.at_risk_check.
    destruct (n mod 10 =? 0)%nat; split; discriminate. }
  pose proof (risk_limit_stops_the_loop s Book.falling [Book.falling; Book.falling]
                0 eq_refl (Hlimit 1%nat)) as (_ & H1 & _).
  pose proof (risk_limit_stops_the_loop s Book.falling [Book.falling; Book.falling]
                9 eq_refl (Hlimit 10%nat)) as (H10 & _).
  split; [exact (H1 eq_refl)|].
  split; [rewrite H10; reflexivity|].
  split; [rewrite H10; reflexivity | reflexivity].
Defined.

(** C2 as the specification words it fails.  Same day: a loss of 6 on
    100, limit 5%.  The one open position is long from 100 with its stop
    at 98, and the price has fallen to 90, so [_should_close_position]
    is true and the exchange would accept the close.  After three passes
    the position is still open, exactly as it was: no profit recomputed,
    no stop updated, nothing closed, nothing recorded. *)
Lemma open_position_left_unmanaged :
  let s := Book.system TradingSystem.default_config
             [("LONG_BTC-USDT-SWAP_1"%string, Book.open_example)] (-6) in
  let s' := TradingSystem._auto_trading_loop
              [Book.falling; Book.falling; Book.falling] 0 s in
  TradingSystem._should_close_position (TradingSystem.smart_stoploss s)
    Book.open_example 90 = true /\
  TradingSystem.close_order Book.falling "BTC-USDT-SWAP" LONG = Return true /\
  dict_get "LONG_BTC-USDT-SWAP_1" (TradingSystem.positions s') = Some Book.open_example /\
  TradingSystem.get_open_positions s' = [Book.open_example] /\
  TradingSystem.trade_records s' = [] /\
  TradingSystem.auto_trading s' = false.
Proof. repeat split; vm_compute; reflexivity. Qed.

(** ** The stable sort *)

Section SortedByKey.

Context {A : Type} (key : A -> Q).

Lemma py_insert_perm (before : A -> A -> bool) x l :
  Permutation (py_insert before x l) (x :: l).
Proof.
  induction l as [|y l IH]; simpl; [reflexivity|].
  destruct (before y x); [|reflexivity].
  rewrite IH. apply perm_swap.
Qed.

Lemma py_sorted_perm (before : A -> A -> bool) l : Permutation (py_sorted before l) l.
Proof.
  induction l as [|x l IH]; simpl; [reflexivity|].
  rewrite py_insert_perm. constructor. exact IH.
Qed.

Lemma py_insert_sorted x l :
  StronglySorted (desc key) l -> StronglySorted (desc key) (py_insert (before_desc key) x l).
Proof.
  induction l as [|y l IH]; intros Hs; simpl.
  - constructor; constructor.
  - inversion Hs as [|? ? Hl Hy]; subst.
    unfold before_desc at 1. destruct (Qltb (key x) (key y)) eqn:Hlt.
    + apply Qltb_true in Hlt. constructor; [apply IH; exact Hl|].
      eapply Permutation_Forall; [symmetry; apply py_insert_perm|].
      constructor; [unfold desc; lra | exact Hy].
    + apply Qltb_false in Hlt. constructor; [exact Hs|].
      constructor; [exact Hlt|].
      eapply Forall_impl; [exact Hy|]. unfold desc. intros z Hz. simpl in Hz. lra.
Qed.

Lemma py_sorted_sorted l : StronglySorted (desc key) (py_sorted (before_desc key) l).
Proof.
  induction l as [|x l IH]; simpl; [constructor|]. apply py_insert_sorted, IH.
Qed.

(** Stability: the entries of one key keep their order. *)
Lemma py_insert_stable k x l :
  List.filter (fun a => Qeq_bool (key a) k) (py_insert (before_desc key) x l)
  = List.filter (fun a => Qeq_bool (key a) k) (x :: l).
Proof.
  induction l as [|y l IH]; [reflexivity|].
  cbn [py_insert]. unfold before_desc at 1.
  destruct (Qltb (key x) (key y)) eqn:Hlt; [|reflexivity].
  apply Qltb_true in Hlt.
  cbn [List.filter] in *. rewrite IH.
  destruct (Qeq_bool (key x) k) eqn:Hx; [|reflexivity].
  destruct (Qeq_bool (key y) k) eqn:Hy; [|reflexivity].
  apply Qeq_bool_iff in Hx, Hy. lra.
Qed.

Lemma py_sorted_stable k l :
  List.filter (fun a => Qeq_bool (key a) k) (py_sorted (before_desc key) l)
  = List.filter (fun a => Qeq_bool (key a) k) l.
Proof.
  induction l as [|x l IH]; [reflexivity|].
  cbn [py_sorted fold_right]. fold (py_sorted (before_desc key) l).
  rewrite py_insert_stable. cbn [List.filter]. rewrite IH. reflexivity.
Qed.

(** A strongly sorted list, read by positions. *)
Lemma strongly_sorted_by_index (R : A -> A -> Prop) l :
  StronglySorted R l ->
  forall i j a b, (i < j)%nat -> nth_error l i = Some a -> nth_error l j = Some b -> R a b.
Proof.
  induction 1 as [|x l Hl IH Hx]; intros i j a b Hij Hi Hj.
  - destruct i; discriminate.
  - destruct j as [|j]; [lia|]. simpl in Hj. destruct i as [|i]; simpl in Hi.
    + injection Hi as <-. rewrite List.Forall_forall in Hx. apply Hx.
      eapply nth_error_In. exact Hj.
    + eapply IH; [|exact Hi|exact Hj]. lia.
Qed.

End SortedByKey.

(** ** The scanner *)

Section Scanner.

Import SMCStrategy SMCScanner ScanSpec.

Variable min_conf : Q.
Variable task : string -> reply (scan_result * list log_entry).

Lemma collect_results acc pair p :
  col_results (collect min_conf task acc pair) !! p
  = match task_opportunity task pair with
    | Some o => if decide (pair = p) then Some o else col_results acc !! p
    | None => col_results acc !! p
    end.
Proof.
  unfold collect, task_opportunity.
  destruct (task pair) as [|[[| |o] lg]]; simpl; try reflexivity.
  destruct (decide (pair = p)) as [->|Hne].
  - apply lookup_insert_eq.
  - apply lookup_insert_ne. exact Hne.
Qed.

Lemma collect_log acc pair :
  col_log (collect min_conf task acc pair) = col_log acc ++ task_log task pair.
Proof.
  unfold collect, task_log.
  destruct (task pair) as [|[[| |o] lg]]; reflexivity.
Qed.

(** The results after the collecting loop: an instrument has an entry
    exactly if it was there before or its task, among those completed,
    handed back an opportunity. *)
Lemma collected_results completed : forall acc p,
  col_results (fold_left (collect min_conf task) completed acc) !! p
  = match task_opportunity task p with
    | Some o => if decide (p ∈ completed) then Some o else col_results acc !! p
    | None => col_results acc !! p
    end.
Proof.
  induction completed as [|pair rest IH]; intros acc p.
  - simpl. destruct (task_opportunity task p); [|reflexivity].
    destruct (decide (p ∈ [])) as [Hin|]; [|reflexivity].
    apply elem_of_nil in Hin. destruct Hin.
  - cbn [fold_left]. rewrite IH, collect_results.
    destruct (task_opportunity task p) as [o|] eqn:Hp.
    + destruct (decide (p ∈ rest)) as [Hin|Hnin].
      * destruct (decide (p ∈ pair :: rest)) as [_|Hn]; [reflexivity|].
        exfalso. apply Hn. apply elem_of_cons. right. exact Hin.
      * destruct (decide (pair = p)) as [->|Hne].
        -- rewrite Hp. destruct (decide (p ∈ p :: rest)) as [_|Hn]; [reflexivity|].
           exfalso. apply Hn. apply elem_of_cons. left. reflexivity.
        -- destruct (decide (p ∈ pair :: rest)) as [Hin|_].
           ++ apply elem_of_cons in Hin. destruct Hin as [->|Hin]; contradiction.
           ++ destruct (task_opportunity task pair); reflexivity.
    + destruct (task_opportunity task pair) as [o|] eqn:Hpair; [|reflexivity].
      destruct (decide (pair = p)) as [->|Hne]; [congruence|reflexivity].
Qed.

(** The log after the collecting loop holds the lines of every task
    completed. *)
Lemma collected_log completed : forall acc p e,
  In p completed -> In e (task_log task p) ->
  In e (col_log (fold_left (collect min_conf task) completed acc)).
Proof.
  assert (Hkeep : forall l acc e,
            In e (col_log acc) ->
            In e (col_log (fold_left (collect min_conf task) l acc))).
  { induction l as [|pair rest IH]; intros acc e He; [exact He|].
    cbn [fold_left]. apply IH. rewrite collect_log. apply in_or_app. left. exact He. }
  induction completed as [|pair rest IH]; intros acc p e Hp He; [destruct Hp|].
  cbn [fold_left]. destruct Hp as [->|Hp].
  - apply Hkeep. rewrite collect_log. apply in_or_app. right. exact He.
  - eapply IH; eassumption.
Qed.

End Scanner.

Section ScanSinglePair.

Import SMCStrategy SMCScanner ScanSpec.

(** Every path of [scan_single_pair] that hands back no opportunity
    writes a warning or an error about the instrument. *)
Lemma scan_single_pair_failure_logged w pair timeframe :
  match fst (scan_single_pair w pair timeframe) with
  | ROpportunity _ => True
  | _ => exists e, In e (snd (scan_single_pair w pair timeframe)) /\ lg_subject e = pair
  end.
Proof.
  unfold scan_single_pair.
  destruct (get_ohlcv w pair) as [|rows]; simpl.
  { eexists. split; [left; reflexivity | reflexivity]. }
  destruct (length rows <? 100)%nat; simpl.
  { eexists. split; [left; reflexivity | reflexivity]. }
  unfold calculate_smc_levels.
  destruct (length rows <? min_rows)%nat; simpl.
  { eexists. split; [left; reflexivity | reflexivity]. }
  destruct (pipeline w pair rows) as [d|]; simpl.
  2:{ eexists. split; [left; reflexivity | reflexivity]. }
  unfold analyze_trading_opportunity.
  destruct (analyze w pair d timeframe); simpl; [exact I|].
  eexists. split; [left; reflexivity | reflexivity].
Qed.

End ScanSinglePair.

Section ScanAllPairs.

Import SMCStrategy SMCScanner ScanSpec.

(** The report of a scan over any tasks, also tasks whose future raises
    or times out: the count is the number of instruments submitted, an
    instrument has an entry in [results] exactly if its task handed back
    an opportunity, and that entry is the opportunity; the log holds the
    lines of every task. *)
Lemma scan_with_any_task_accounts task self pairs completed now :
  Permutation (effective_pairs pairs) completed ->
  let out := scan_all_pairs_with task self pairs completed now in
  let report := fst (fst out) in
  total_scanned report = length (effective_pairs pairs) /\
  successful_scans report = size (results report) /\
  scan_results (snd (fst out)) = results report /\
  (forall p, In p (effective_pairs pairs) ->
     results report !! p = task_opportunity task p /\
     forall e, In e (task_log task p) -> In e (snd out)) /\
  (forall p, ~ In p (effective_pairs pairs) -> results report !! p = None).
Proof.
  intros Hperm out report. subst out report. unfold scan_all_pairs_with.
  cbn [fst snd total_scanned successful_scans results scan_results].
  split; [reflexivity|]. split; [reflexivity|]. split; [reflexivity|].
  split.
  - intros p Hp.
    assert (Hin : In p completed) by (eapply Permutation_in; eassumption).
    split.
    + rewrite collected_results. cbn [col_results]. rewrite lookup_empty.
      destruct (task_opportunity task p); [|reflexivity].
      destruct (decide (p ∈ completed)) as [_|Hn]; [reflexivity|].
      exfalso. apply Hn. apply list_elem_of_In. exact Hin.
    + intros e He. eapply collected_log; eassumption.
  - intros p Hp. rewrite collected_results. cbn [col_results]. rewrite lookup_empty.
    destruct (task_opportunity task p); [|reflexivity].
    destruct (decide (p ∈ completed)) as [Hin|_]; [|reflexivity].
    exfalso. apply Hp. apply list_elem_of_In in Hin.
    eapply Permutation_in; [symmetry; exact Hperm | exact Hin].
Qed.

End ScanAllPairs.

(** C4, as the code has it.  A scan of N instruments, in whatever order
    the tasks complete, returns a report whose [total_scanned] is N and
    whose [results] hold exactly the instruments whose scan produced an
    opportunity, each with its own opportunity, whatever happened to the
    others.  An instrument whose scan failed has no entry in the report:
    it is missing from [results], and its failure is a warning or an
    error in the log. *)
Theorem scan_reports_successes_and_logs_failures
    (w : SMCScanner.World) (self : SMCScanner.t)
    (pairs completed : list string) (now : Z) :
  Permutation (SMCScanner.effective_pairs pairs) completed ->
  let out := SMCScanner.scan_all_pairs w self pairs completed now in
  let report := fst (fst out) in
  SMCScanner.total_scanned report = length (SMCScanner.effective_pairs pairs) /\
  SMCScanner.successful_scans report = size (SMCScanner.results report) /\
  (forall p, In p (SMCScanner.effective_pairs pairs) ->
     match fst (SMCScanner.scan_single_pair w p "4H") with
     | SMCScanner.ROpportunity o => SMCScanner.results report !! p = Some o
     | _ =>
         SMCScanner.results report !! p = None /\
         exists e, In e (snd out) /\ lg_subject e = p
     end) /\
  (forall p, ~ In p (SMCScanner.effective_pairs pairs) ->
     SMCScanner.results report !! p = None).
Proof.
  intros Hperm out report. subst out report. unfold SMCScanner.scan_all_pairs.
  destruct (scan_with_any_task_accounts
              (fun pair => Return (SMCScanner.scan_single_pair w pair "4H"))
              self pairs completed now Hperm) as (Htotal & Hsucc & _ & Hin & Hout).
  split; [exact Htotal|]. split; [exact Hsucc|]. split; [|exact Hout].
  intros p Hp. destruct (Hin p Hp) as (Hres & Hlog).
  rewrite Hres. unfold ScanSpec.task_opportunity, ScanSpec.task_log in *.
  pose proof (scan_single_pair_failure_logged w p "4H") as Hfail.
  destruct (SMCScanner.scan_single_pair w p "4H") as [r lg]. simpl in *.
  destruct r as [| |o]; [| |reflexivity];
    (split; [reflexivity|]); destruct Hfail as (e & He & Hsub);
    exists e; (split; [apply Hlog; exact He | exact Hsub]).
Qed.

(** C4 as amended, at a scan of BTC, which has too short a history, and
    ETH: ETH is in the results with its opportunity, BTC is not, and the
    log has a line about BTC. *)
Lemma scan_reports_successes_and_logs_failures_witness :
  let out := SMCScanner.scan_all_pairs ScanSpec.short_history ScanSpec.idle
               ["BTC-USDT-SWAP"; "ETH-USDT-SWAP"]%string
               ["ETH-USDT-SWAP"; "BTC-USDT-SWAP"]%string 7 in
  SMCScanner.results (fst (fst out)) !! "ETH-USDT-SWAP"%string
    = Some (ScanSpec.opportunity "ETH-USDT-SWAP" 0.8) /\
  SMCScanner.results (fst (fst out)) !! "BTC-USDT-SWAP"%string = None /\
  exists e, In e (snd out) /\ lg_subject e = "BTC-USDT-SWAP"%string.
Proof.
  intros out.
  assert (Hperm : Permutation
            (SMCScanner.effective_pairs ["BTC-USDT-SWAP"; "ETH-USDT-SWAP"]%string)
            ["ETH-USDT-SWAP"; "BTC-USDT-SWAP"]%string) by apply perm_swap.
  destruct (scan_reports_successes_and_logs_failures ScanSpec.short_history
              ScanSpec.idle _ _ 7 Hperm) as (_ & _ & Hin & _).
  split.
  - exact (Hin "ETH-USDT-SWAP"%string (or_intror (or_introl eq_refl))).
  - exact (Hin "BTC-USDT-SWAP"%string (or_introl eq_refl)).
Defined.

(** C4 as the specification words it fails.  In that scan of two
    instruments the report has one result slot, not two: BTC, whose scan
    failed, is neither in [results] nor in the high-confidence list, and
    the report has no other place for it. *)
Lemma failed_pair_has_no_slot :
  let report :=
    fst (fst (SMCScanner.scan_all_pairs ScanSpec.short_history ScanSpec.idle
                ["BTC-USDT-SWAP"; "ETH-USDT-SWAP"]%string
                ["ETH-USDT-SWAP"; "BTC-USDT-SWAP"]%string 7)) in
  SMCScanner.total_scanned report = 2%nat /\
  SMCScanner.successful_scans report = 1%nat /\
  size (SMCScanner.results report) = 1%nat /\
  SMCScanner.results report !! "BTC-USDT-SWAP"%string = None /\
  map SMCScanner.op_symbol (SMCScanner.rp_high_confidence_signals report)
    = ["ETH-USDT-SWAP"%string].
Proof. repeat split; vm_compute; reflexivity. Qed.

(** C5, as the code has it.  After every scan the list of
    high-confidence opportunities that the scanner keeps is sorted
    descending by signal strength: of two entries the earlier one is at
    least as strong.  It holds the same entries as the list in the
    report, and entries of equal strength stand in the order in which
    their scans completed. *)
Theorem retained_signals_sorted_by_strength
    (task : string -> reply (SMCScanner.scan_result * list log_entry))
    (self : SMCScanner.t) (pairs completed : list string) (now : Z) :
  let out := SMCScanner.scan_all_pairs_with task self pairs completed now in
  let retained := SMCScanner.high_confidence_signals (snd (fst out)) in
  let reported := SMCScanner.rp_high_confidence_signals (fst (fst out)) in
  (forall i j a b,
     (i < j)%nat -> nth_error retained i = Some a -> nth_error retained j = Some b ->
     SMCScanner.signal_strength b <= SMCScanner.signal_strength a) /\
  Permutation retained reported /\
  (forall k, ScanSpec.with_strength k retained = ScanSpec.with_strength k reported).
Proof.
  intros out retained reported. subst out retained reported.
  unfold SMCScanner.scan_all_pairs_with.
  cbn [fst snd SMCScanner.high_confidence_signals SMCScanner.rp_high_confidence_signals].
  split; [|split].
  - apply (strongly_sorted_by_index (desc SMCScanner.signal_strength)).
    apply py_sorted_sorted.
  - apply py_sorted_perm.
  - intros k. apply py_sorted_stable.
Qed.

(** C5 as amended, at a scan of ETH (0.8) and SOL (0.9) in which ETH
    completes first: the scanner keeps SOL ahead of ETH. *)
Lemma retained_signals_sorted_by_strength_witness :
  let out := SMCScanner.scan_all_pairs ScanSpec.short_history ScanSpec.idle
               ["ETH-USDT-SWAP"; "SOL-USDT-SWAP"]%string
               ["ETH-USDT-SWAP"; "SOL-USDT-SWAP"]%string 7 in
  map SMCScanner.op_symbol (SMCScanner.high_confidence_signals (snd (fst out)))
    = ["SOL-USDT-SWAP"; "ETH-USDT-SWAP"]%string /\
  SMCScanner.signal_strength (ScanSpec.opportunity "ETH-USDT-SWAP" 0.8)
    <= SMCScanner.signal_strength (ScanSpec.opportunity "SOL-USDT-SWAP" 0.9).
Proof.
  intros out. split; [vm_compute; reflexivity|].
  refine (proj1 (retained_signals_sorted_by_strength
                   (fun pair => Return (SMCScanner.scan_single_pair
                                          ScanSpec.short_history pair "4H"))
                   ScanSpec.idle
                   ["ETH-USDT-SWAP"; "SOL-USDT-SWAP"]%string
                   ["ETH-USDT-SWAP"; "SOL-USDT-SWAP"]%string 7)
                0%nat 1%nat _ _ _ _ _).
  - apply Nat.ltb_lt. reflexivity.
  - vm_compute. reflexivity.
  - vm_compute. reflexivity.
Defined.

(** C5 as the specification words it fails.  The list in the report is
    in completion order: when ETH (0.8) completes before SOL (0.9) the
    report lists the weaker signal first.  And nothing orders equal
    strengths by name: ADA and ETH, both 0.8, are kept as ADA, ETH when
    ADA completes first and as ETH, ADA when ETH does. *)
Lemma report_signals_in_completion_order :
  let scan pairs completed :=
    SMCScanner.scan_all_pairs ScanSpec.short_history ScanSpec.idle pairs completed 7 in
  let tied := ["ADA-USDT-SWAP"; "ETH-USDT-SWAP"]%string in
  map SMCScanner.signal_strength
    (SMCScanner.rp_high_confidence_signals
       (fst (fst (scan ["ETH-USDT-SWAP"; "SOL-USDT-SWAP"]%string
                       ["ETH-USDT-SWAP"; "SOL-USDT-SWAP"]%string))))
    = [0.8; 0.9] /\
  0.8 < 0.9 /\
  map SMCScanner.op_symbol
    (SMCScanner.high_confidence_signals
       (snd (fst (scan tied ["ADA-USDT-SWAP"; "ETH-USDT-SWAP"]%string))))
    = ["ADA-USDT-SWAP"; "ETH-USDT-SWAP"]%string /\
  map SMCScanner.op_symbol
    (SMCScanner.high_confidence_signals
       (snd (fst (scan tied ["ETH-USDT-SWAP"; "ADA-USDT-SWAP"]%string))))
    = ["ETH-USDT-SWAP"; "ADA-USDT-SWAP"]%string /\
  map SMCScanner.op_symbol
    (SMCScanner.rp_high_confidence_signals
       (fst (fst (scan tied ["ETH-USDT-SWAP"; "ADA-USDT-SWAP"]%string))))
    = ["ETH-USDT-SWAP"; "ADA-USDT-SWAP"]%string.
Proof. repeat split; vm_compute; reflexivity. Qed.

(** * Further properties *)

(** ** The stop engine, function by function *)

Section StopEngineMore.

Import SmartStopLoss StopTrace StopSpec.

Lemma volatility_factor_range s v :
  0.8 <= calculate_volatility_factor s v /\ calculate_volatility_factor s v <= 1.5.
Proof.
  unfold calculate_volatility_factor. destruct v as [v|]; [|split; lra].
  destruct (Qlt_le_dec v _); [split; lra|].
  destruct (Qlt_le_dec _ v); split; lra.
Qed.

(** The dynamic stop, case by case. *)
Lemma dynamic_stop_cases
    (s : SmartStopLoss.Settings) (pt : PositionType) (entry : Q)
    (d : option SmartStopLoss.market_data) :
  StopTrace.settings_ok s -> 0 <= entry -> StopTrace.frame_ok d ->
  let stop := SmartStopLoss.calculate_dynamic_stop_loss s pt entry d in
  if StopTrace.short_frame d then stop = Py.NaN
  else
    exists v, stop = Py.Num v /\
      match pt with
      | LONG => entry * (1 - StopSpec.risk_cap s d) <= v /\ v <= entry
      | SHORT => entry <= v /\ v <= entry * (1 + StopSpec.risk_cap s d)
      end.
Proof.
  intros (Hm & Hr0 & Hr1) He Hd stop. subst stop.
  destruct d as [m|].
  2:{ cbn. eexists. split; [reflexivity|].
      unfold SmartStopLoss.calculate_fixed_stop_loss, SmartStopLoss.fixed_risk.
      destruct pt; split; nra. }
  cbn [StopTrace.short_frame StopTrace.frame_ok] in Hd |- *.
  destruct (SmartStopLoss.md_atr m) as [atr|] eqn:Eatr.
  2:{ apply dynamic_stop_nan. exact Eatr. }
  rewrite (dynamic_stop_numeric s pt entry m atr Eatr). eexists. split; [reflexivity|].
  unfold StopSpec.risk_cap, StopSpec.usable. rewrite Eatr. cbn [Py.fis_zero].
  unfold SmartStopLoss.calculate_fixed_stop_loss, SmartStopLoss.fixed_risk.
  destruct (Qeq_dec atr 0); cbn [negb]; [destruct pt; split; nra|]. cbv zeta.
  pose proof (volatility_factor_pos s (SmartStopLoss.md_volatility m)) as Hv.
  assert (Hbase : 0 <= atr * SmartStopLoss.atr_multiplier s
                       * SmartStopLoss.calculate_volatility_factor s
                           (SmartStopLoss.md_volatility m))
    by (apply product_nonneg; lra).
  destruct pt.
  - split; [apply max2_ge_r|].
    destruct (max2_cases
                (entry - atr * SmartStopLoss.atr_multiplier s
                         * SmartStopLoss.calculate_volatility_factor s
                             (SmartStopLoss.md_volatility m))
                (entry * (1 - SmartStopLoss.max_risk_per_trade s))) as [-> | ->]; nra.
  - split; [|apply min2_le_r].
    destruct (min2_cases
                (entry + atr * SmartStopLoss.atr_multiplier s
                         * SmartStopLoss.calculate_volatility_factor s
                             (SmartStopLoss.md_volatility m))
                (entry * (1 + SmartStopLoss.max_risk_per_trade s))) as [-> | ->]; nra.
Qed.

End StopEngineMore.

(** X1.  When the frame has an ATR that is a number, or there is no
    frame, the dynamic stop is a number on the protective side of the
    entry price and no farther from it than the cap:
    [max_risk_per_trade] of the entry price when the ATR is not zero,
    and the fixed 2% when it is zero or there is no frame, whatever
    [max_risk_per_trade] says.  When the ATR is NaN, as it is on a frame
    of fewer rows than [atr_period], the dynamic stop is NaN: the test
    for a zero ATR does not catch it, and neither the fallback nor the
    cap applies. *)
Theorem dynamic_stop_within_risk_cap
    (s : SmartStopLoss.Settings) (pt : PositionType) (entry : Q)
    (d : option SmartStopLoss.market_data) :
  StopTrace.settings_ok s -> 0 <= entry -> StopTrace.frame_ok d ->
  let stop := SmartStopLoss.calculate_dynamic_stop_loss s pt entry d in
  if StopTrace.short_frame d then stop = Py.NaN
  else
    exists v, stop = Py.Num v /\
      match pt with
      | LONG => entry * (1 - StopSpec.risk_cap s d) <= v /\ v <= entry
      | SHORT => entry <= v /\ v <= entry * (1 + StopSpec.risk_cap s d)
      end.
Proof. apply dynamic_stop_cases. Qed.

(** X1, at a long entry of 100 with the default settings: with an ATR
    of 3 the stop is a number between 98 and 100, and on the five hours
    of a newly listed instrument it is NaN. *)
Lemma dynamic_stop_within_risk_cap_witness :
  let d := Some {| SmartStopLoss.md_atr := Py.Num 3;
                   SmartStopLoss.md_volatility := Some 0.03 |} in
  (exists v,
     SmartStopLoss.calculate_dynamic_stop_loss SmartStopLoss.default_settings LONG 100 d
     = Py.Num v /\
     100 * (1 - StopSpec.risk_cap SmartStopLoss.default_settings d) <= v /\ v <= 100) /\
  SmartStopLoss.calculate_dynamic_stop_loss SmartStopLoss.default_settings LONG 100
    (StopSpec.frame 50 (StopSpec.quiet_hours 5) (Some 0)) = Py.NaN.
Proof.
  intros d. split.
  - refine (dynamic_stop_within_risk_cap SmartStopLoss.default_settings LONG 100 d _ _ _).
    + unfold StopTrace.settings_ok. simpl. repeat split; discriminate.
    + discriminate.
    + simpl. discriminate.
  - refine (dynamic_stop_within_risk_cap SmartStopLoss.default_settings LONG 100
              (StopSpec.frame 50 (StopSpec.quiet_hours 5) (Some 0)) _ _ _).
    + unfold StopTrace.settings_ok. simpl. repeat split; discriminate.
    + discriminate.
    + exact I.
Defined.

(** X2.  With a threshold that is not negative, the volatility factor
    never decreases when the volatility grows, and it is 0.8 below the
    threshold, 1.5 above twice the threshold and 1 in between. *)
Theorem volatility_factor_is_monotone
    (s : SmartStopLoss.Settings) (v1 v2 : Q) :
  0 <= SmartStopLoss.volatility_threshold s -> v1 <= v2 ->
  SmartStopLoss.calculate_volatility_factor s (Some v1)
    <= SmartStopLoss.calculate_volatility_factor s (Some v2) /\
  (v1 < SmartStopLoss.volatility_threshold s ->
   SmartStopLoss.calculate_volatility_factor s (Some v1) = 0.8) /\
  (SmartStopLoss.volatility_threshold s * 2 < v1 ->
   SmartStopLoss.calculate_volatility_factor s (Some v1) = 1.5) /\
  (SmartStopLoss.volatility_threshold s <= v1 ->
   v1 <= SmartStopLoss.volatility_threshold s * 2 ->
   SmartStopLoss.calculate_volatility_factor s (Some v1) = 1).
Proof.
  intros Ht Hv. unfold SmartStopLoss.calculate_volatility_factor.
  repeat split.
  - destruct (Qlt_le_dec v1 _); destruct (Qlt_le_dec v2 _); try lra;
      destruct (Qlt_le_dec _ v2); try lra; destruct (Qlt_le_dec _ v1); lra.
  - intros H. destruct (Qlt_le_dec v1 _); [reflexivity|lra].
  - intros H. destruct (Qlt_le_dec v1 _); [lra|].
    destruct (Qlt_le_dec _ v1); [reflexivity|lra].
  - intros H1 H2. destruct (Qlt_le_dec v1 _); [lra|].
    destruct (Qlt_le_dec _ v1); [lra|reflexivity].
Qed.

(** X2, at the default threshold of 0.02 and the volatilities 0.01 and
    0.05. *)
Lemma volatility_factor_is_monotone_witness :
  SmartStopLoss.calculate_volatility_factor SmartStopLoss.default_settings (Some 0.01)
    <= SmartStopLoss.calculate_volatility_factor SmartStopLoss.default_settings (Some 0.05).
Proof.
  refine (proj1 (volatility_factor_is_monotone SmartStopLoss.default_settings 0.01 0.05 _ _));
    discriminate.
Defined.

(** X3.  After [update_position_stop_loss] has returned a stop for a
    position, [check_stop_loss_hit] is true exactly for the prices at or
    beyond that stop; after [remove_position_stop] it is false for every
    price and the position has no stop information, while the other
    positions have the information they had at first. *)
Theorem stop_registry_round_trip
    (self : SmartStopLoss.t) (pid sym : string) (pt : PositionType)
    (entry current : Q) (d50 d20 : option SmartStopLoss.market_data) (now : Z)
    (price_ : Q) :
  let stop := fst (SmartStopLoss.update_position_stop_loss self pid sym pt entry current
                     d50 d20 now) in
  let self' := snd (SmartStopLoss.update_position_stop_loss self pid sym pt entry current
                      d50 d20 now) in
  (SmartStopLoss.check_stop_loss_hit self' pid price_ = true
   <-> StopSpec.beyond pt stop price_) /\
  SmartStopLoss.check_stop_loss_hit
    (SmartStopLoss.remove_position_stop self' pid) pid price_ = false /\
  SmartStopLoss.get_stop_loss_info
    (SmartStopLoss.remove_position_stop self' pid) pid = None /\
  (forall other, other <> pid ->
     SmartStopLoss.get_stop_loss_info
       (SmartStopLoss.remove_position_stop self' pid) other
     = SmartStopLoss.get_stop_loss_info self other).
Proof.
  intros stop self'. subst stop self'. repeat split.
  - unfold SmartStopLoss.check_stop_loss_hit. rewrite update_stores.
    cbn [SmartStopLoss.si_position_type SmartStopLoss.current_stop].
    unfold StopSpec.beyond.
    destruct (fst (SmartStopLoss.update_position_stop_loss self pid sym pt entry current
                     d50 d20 now)) as [v|]; destruct pt; intros H;
      try discriminate H; apply fle_num in H; exact H.
  - unfold SmartStopLoss.check_stop_loss_hit. rewrite update_stores.
    cbn [SmartStopLoss.si_position_type SmartStopLoss.current_stop].
    unfold StopSpec.beyond.
    destruct (fst (SmartStopLoss.update_position_stop_loss self pid sym pt entry current
                     d50 d20 now)) as [v|]; destruct pt; intros H;
      try contradiction; apply fle_num; exact H.
  - unfold SmartStopLoss.check_stop_loss_hit, SmartStopLoss.remove_position_stop.
    cbn [SmartStopLoss.position_stops]. rewrite lookup_delete_eq. reflexivity.
  - unfold SmartStopLoss.get_stop_loss_info, SmartStopLoss.remove_position_stop.
    cbn [SmartStopLoss.position_stops]. apply lookup_delete_eq.
  - intros other Hne.
    unfold SmartStopLoss.get_stop_loss_info, SmartStopLoss.remove_position_stop.
    cbn [SmartStopLoss.position_stops]. rewrite lookup_delete_ne by congruence.
    apply update_other. congruence.
Qed.

(** Between two numbers, not strictly tighter is at most as tight. *)
Lemma not_tighter_numbers pt a b :
  StopTrace.not_tighter pt (Py.Num a) (Py.Num b) ->
  StopTrace.tighter pt (Py.Num a) (Py.Num b).
Proof.
  destruct pt; unfold StopTrace.not_tighter, StopTrace.tighter; intros H;
    apply flt_num_false in H; apply fle_num; exact H.
Qed.

(** The final stop among its candidates. *)
Lemma final_stop_candidates
    (self : SmartStopLoss.t) (pid sym : string) (pt : PositionType)
    (entry current : Q) (d50 d20 : option SmartStopLoss.market_data) (now : Z) :
  let s := SmartStopLoss.settings self in
  let dynamic := SmartStopLoss.calculate_dynamic_stop_loss s pt entry d50 in
  let trailing :=
    SmartStopLoss.calculate_trailing_stop_loss s pt entry current
      (SmartStopLoss.current_stop <$> SmartStopLoss.position_stops self !! pid) d20 in
  let break_even :=
    SmartStopLoss.calculate_break_even_stop s pt entry current
      SmartStopLoss.default_profit_threshold in
  let final := fst (SmartStopLoss.update_position_stop_loss self pid sym pt entry current
                      d50 d20 now) in
  (final = dynamic \/ trailing = Some final \/ Py.Num <$> break_even = Some final) /\
  StopTrace.not_tighter pt dynamic final /\
  (forall v, trailing = Some v -> Py.fis_zero v = false ->
     StopTrace.not_tighter pt v final) /\
  (forall v, break_even = Some v -> ~ v == 0 ->
     StopTrace.not_tighter pt (Py.Num v) final) /\
  (final = Py.NaN <-> dynamic = Py.NaN).
Proof.
  intros s dynamic trailing break_even final.
  assert (Hfinal : final =
            match pt with
            | LONG => Py.fmax2 (Py.fmax2 dynamic (Py.f_or_else trailing dynamic))
                        (Py.f_or_else (Py.Num <$> break_even) dynamic)
            | SHORT => Py.fmin2 (Py.fmin2 dynamic (Py.f_or_else trailing dynamic))
                         (Py.f_or_else (Py.Num <$> break_even) dynamic)
            end).
  { subst final. unfold SmartStopLoss.update_position_stop_loss. cbn [fst].
    destruct pt; reflexivity. }
  clearbody final dynamic trailing break_even. subst final.
  set (t' := Py.f_or_else trailing dynamic).
  set (b' := Py.f_or_else (Py.Num <$> break_even) dynamic).
  assert (Ht : t' = dynamic \/ (trailing = Some t' /\ Py.fis_zero t' = false))
    by apply f_or_else_cases.
  assert (Hb : b' = dynamic \/ (Py.Num <$> break_even = Some b' /\ Py.fis_zero b' = false))
    by apply f_or_else_cases.
  assert (Hmem : forall x, x = dynamic \/ x = t' \/ x = b' ->
                 x = dynamic \/ trailing = Some x \/ Py.Num <$> break_even = Some x).
  { intros x [-> | [-> | ->]]; [left; reflexivity | |].
    - destruct Ht as [-> | (Hv & _)]; [left; reflexivity | right; left; exact Hv].
    - destruct Hb as [-> | (Hv & _)]; [left; reflexivity | right; right; exact Hv]. }
  assert (Htv : forall v, trailing = Some v -> Py.fis_zero v = false -> t' = v).
  { intros v -> Hv. subst t'. unfold Py.f_or_else. destruct v as [q|]; [|reflexivity].
    cbn in Hv. destruct (Qeq_dec q 0); [discriminate|reflexivity]. }
  assert (Hbv : forall v, break_even = Some v -> ~ v == 0 -> b' = Py.Num v).
  { intros v -> Hv. subst b'. cbn. destruct (Qeq_dec v 0); [contradiction|reflexivity]. }
  split; [|split; [|split; [|split]]].
  - apply Hmem. destruct pt.
    + destruct (fmax2_cases (Py.fmax2 dynamic t') b') as [-> | ->]; [|auto].
      destruct (fmax2_cases dynamic t') as [-> | ->]; auto.
    + destruct (fmin2_cases (Py.fmin2 dynamic t') b') as [-> | ->]; [|auto].
      destruct (fmin2_cases dynamic t') as [-> | ->]; auto.
  - destruct pt; unfold StopTrace.not_tighter.
    + exact (flt_fmax2_mono dynamic (Py.fmax2 dynamic t') b'
               (fmax2_not_below_l dynamic t')).
    + exact (flt_fmin2_mono dynamic (Py.fmin2 dynamic t') b'
               (fmin2_not_above_l dynamic t')).
  - intros v Hv Hnz. rewrite <- (Htv v Hv Hnz).
    destruct pt; unfold StopTrace.not_tighter.
    + exact (flt_fmax2_mono t' (Py.fmax2 dynamic t') b' (fmax2_not_below_r dynamic t')).
    + exact (flt_fmin2_mono t' (Py.fmin2 dynamic t') b' (fmin2_not_above_r dynamic t')).
  - intros v Hv Hnz. rewrite <- (Hbv v Hv Hnz).
    destruct pt; unfold StopTrace.not_tighter.
    + exact (fmax2_not_below_r (Py.fmax2 dynamic t') b').
    + exact (fmin2_not_above_r (Py.fmin2 dynamic t') b').
  - split.
    + intros Hnan. destruct dynamic as [d|]; [exfalso|reflexivity].
      assert (Hnum : forall x, (exists q, Py.fmax2 (Py.Num d) x = Py.Num q) /\
                               (exists q, Py.fmin2 (Py.Num d) x = Py.Num q)).
      { intros x. unfold Py.fmax2, Py.fmin2. split.
        - destruct (Py.flt (Py.Num d) x) eqn:E; [|eauto].
          destruct (flt_true _ _ E) as (? & y & _ & -> & _). eauto.
        - destruct (Py.flt x (Py.Num d)) eqn:E; [|eauto].
          destruct (flt_true _ _ E) as (y & ? & -> & _ & _). eauto. }
      destruct pt.
      * destruct (proj1 (Hnum t')) as (q & Eq). rewrite Eq in Hnan.
        assert (Hq : forall x, exists r, Py.fmax2 (Py.Num q) x = Py.Num r).
        { intros x. unfold Py.fmax2. destruct (Py.flt (Py.Num q) x) eqn:E; [|eauto].
          destruct (flt_true _ _ E) as (? & y & _ & -> & _). eauto. }
        destruct (Hq b') as (r & Er). congruence.
      * destruct (proj2 (Hnum t')) as (q & Eq). rewrite Eq in Hnan.
        assert (Hq : forall x, exists r, Py.fmin2 (Py.Num q) x = Py.Num r).
        { intros x. unfold Py.fmin2. destruct (Py.flt x (Py.Num q)) eqn:E; [|eauto].
          destruct (flt_true _ _ E) as (y & ? & -> & _ & _). eauto. }
        destruct (Hq b') as (r & Er). congruence.
    + intros ->. destruct pt.
      * reflexivity.
      * rewrite (fmin2_nan_l t'). exact (fmin2_nan_l b').
Qed.

(** X4.  The stop [update_position_stop_loss] returns is one of its
    candidates and the tightest of them: it is the dynamic stop, the
    trailing stop or the break-even stop, and no candidate that is not
    zero is tighter.  It is NaN exactly when the dynamic stop is NaN.
    When it is a number, it is at least as tight as the dynamic stop
    and as every candidate that is a number other than zero. *)
Theorem final_stop_is_tightest_candidate
    (self : SmartStopLoss.t) (pid sym : string) (pt : PositionType)
    (entry current : Q) (d50 d20 : option SmartStopLoss.market_data) (now : Z) :
  let s := SmartStopLoss.settings self in
  let dynamic := SmartStopLoss.calculate_dynamic_stop_loss s pt entry d50 in
  let trailing :=
    SmartStopLoss.calculate_trailing_stop_loss s pt entry current
      (SmartStopLoss.current_stop <$> SmartStopLoss.position_stops self !! pid) d20 in
  let break_even :=
    SmartStopLoss.calculate_break_even_stop s pt entry current
      SmartStopLoss.default_profit_threshold in
  let final := fst (SmartStopLoss.update_position_stop_loss self pid sym pt entry current
                      d50 d20 now) in
  (final = dynamic \/ trailing = Some final \/ Py.Num <$> break_even = Some final) /\
  StopTrace.not_tighter pt dynamic final /\
  (forall v, trailing = Some v -> Py.fis_zero v = false ->
     StopTrace.not_tighter pt v final) /\
  (forall v, break_even = Some v -> ~ v == 0 ->
     StopTrace.not_tighter pt (Py.Num v) final) /\
  (final = Py.NaN <-> dynamic = Py.NaN) /\
  (forall f, final = Py.Num f ->
     StopTrace.tighter pt dynamic final /\
     (forall v, trailing = Some (Py.Num v) -> ~ v == 0 ->
        StopTrace.tighter pt (Py.Num v) final) /\
     (forall v, break_even = Some v -> ~ v == 0 ->
        StopTrace.tighter pt (Py.Num v) final)).
Proof.
  intros s dynamic trailing break_even final.
  pose proof (final_stop_candidates self pid sym pt entry current d50 d20 now)
    as (H1 & H2 & H3 & H4 & H5).
  fold s dynamic trailing break_even final in H1, H2, H3, H4, H5.
  split; [exact H1|]. split; [exact H2|]. split; [exact H3|]. split; [exact H4|].
  split; [exact H5|].
  intros f Hf. rewrite Hf in H2, H3, H4, H5 |- *.
  destruct dynamic as [dyn|]; [|discriminate (proj2 H5 eq_refl)].
  split; [apply not_tighter_numbers; exact H2|]. split.
  - intros v Hv Hnz. apply not_tighter_numbers. apply (H3 _ Hv).
    cbn. destruct (Qeq_dec v 0); [contradiction | reflexivity].
  - intros v Hv Hnz. apply not_tighter_numbers. exact (H4 v Hv Hnz).
Qed.

(** ** The average true range *)

Section AtrFacts.

Import SMCStrategy Atr StopSpec.

Lemma true_ranges_length rows : forall pc, length (true_ranges pc rows) = length rows.
Proof. induction rows as [|row rest IH]; intros pc; simpl; [reflexivity|]. f_equal. apply IH. Qed.

Lemma true_range_after_first pc row : 0 <= true_range (Some pc) row.
Proof.
  unfold true_range.
  eapply Qle_trans; [apply (abs_nonneg (c_high row - pc))|].
  eapply Qle_trans; [apply Q.le_max_l|]. apply Q.le_max_r.
Qed.

Lemma true_ranges_nonneg rows : forall pc,
  (pc = None -> well_formed rows) ->
  Forall (fun x => 0 <= x) (true_ranges pc rows).
Proof.
  induction rows as [|row rest IH]; intros pc Hwf; simpl; [constructor|].
  constructor.
  - destruct pc as [pc|]; [apply true_range_after_first|].
    specialize (Hwf eq_refl). inversion Hwf; subst. unfold true_range. lra.
  - apply IH. discriminate.
Qed.

Lemma sum_nonneg xs : Forall (fun x => 0 <= x) xs -> 0 <= Pandas.sum xs.
Proof.
  induction 1 as [|x xs Hx _ IH]; simpl; [lra|]. lra.
Qed.

Lemma tail_Forall {A : Type} (P : A -> Prop) n xs : Forall P xs -> Forall P (Pandas.tail n xs).
Proof.
  unfold Pandas.tail. generalize (length xs - n)%nat as k. intros k. revert xs.
  induction k as [|k IH]; intros xs H; simpl; [exact H|].
  destruct xs as [|x xs]; [constructor|]. apply IH. inversion H; assumption.
Qed.

Lemma of_nat_pos n : (0 < n)%nat -> 0 < inject_Z (Z.of_nat n).
Proof.
  intros H. change 0 with (inject_Z 0). rewrite <- Zlt_Qlt. lia.
Qed.

End AtrFacts.

(** X5.  On a non-empty frame with a positive period [calculate_atr] is
    NaN while the frame has fewer rows than the period; from then on it
    is a number, and that number is never negative when every row has
    its high at or above its low. *)
Theorem atr_defined_and_not_negative
    (period : nat) (rows : list SMCStrategy.candle) :
  (0 < period)%nat -> rows <> [] -> StopSpec.well_formed rows ->
  ((length rows < period)%nat -> Atr.calculate_atr period rows = None) /\
  ((period <= length rows)%nat ->
   exists atr, Atr.calculate_atr period rows = Some atr /\ 0 <= atr).
Proof.
  intros Hp Hne Hwf.
  assert (Hcalc : Atr.calculate_atr period rows
                  = Pandas.rolling_mean_last period (Atr.true_ranges None rows)).
  { destruct rows; [contradiction|reflexivity]. }
  rewrite Hcalc. unfold Pandas.rolling_mean_last. rewrite true_ranges_length.
  split; intros Hlen.
  - destruct (Nat.ltb_spec (length rows) period); [reflexivity|lia].
  - destruct (Nat.ltb_spec (length rows) period); [lia|].
    eexists. split; [reflexivity|].
    apply Qle_shift_div_l; [apply of_nat_pos; exact Hp|].
    rewrite Qmult_0_l. apply sum_nonneg, tail_Forall, true_ranges_nonneg.
    intros _. exact Hwf.
Qed.

(** X5, at a frame of 14 flat rows and the period of 14. *)
Lemma atr_defined_and_not_negative_witness :
  exists atr,
    Atr.calculate_atr Atr.atr_period (repeat Book.flat_candle 14) = Some atr /\ 0 <= atr.
Proof.
  refine (proj2 (atr_defined_and_not_negative Atr.atr_period
                   (repeat Book.flat_candle 14) _ _ _) _).
  - apply Nat.ltb_lt. reflexivity.
  - discriminate.
  - repeat constructor; discriminate.
  - apply Nat.leb_le. reflexivity.
Defined.

(** ** Opening and closing, in detail *)

Section CloseResult.

Import TradingSystem.

(** The state a successful [close_position] leaves, written out. *)
Lemma close_position_result s w pid reason :
  fst (fst (close_position s w pid reason)) = true ->
  exists position current_price,
    dict_get pid (positions s) = Some position /\
    status position = OPEN /\
    price w (symbol position) = Some current_price /\
    close_order w (symbol position) (position_type position) = Return true /\
    let v := _calculate_position_pnl (config s) position current_price in
    let s3 :=
      with_balances
        (with_daily_pnl
           (with_positions s
              (dict_set pid (mark_closed position current_price (now w) v reason)
                 (positions s)))
           (daily_pnl s + v))
        (balance s + v) (available_balance s + v) in
    snd (close_position s w pid reason)
    = _save_trade_record
        match smart_stoploss s with
        | Some engine =>
            with_smart_stoploss s3 (Some (SmartStopLoss.remove_position_stop engine pid))
        | None => s3
        end
        {| tr_id := pid; tr_symbol := symbol position; tr_action := "FUTURES_EXIT";
           tr_price := current_price; tr_quantity := quantity position;
           tr_pnl := Some v |}.
Proof.
  unfold close_position.
  destruct (dict_get pid (positions s)) as [position|] eqn:Hget; [|discriminate].
  destruct (status position) eqn:Hst; [|discriminate].
  destruct (price w (symbol position)) as [p|] eqn:Hp; [|discriminate].
  destruct (close_order w _ _) as [|[|]] eqn:Hc; try discriminate.
  intros _. exists position, p. repeat split; try assumption; reflexivity.
Qed.

End CloseResult.

(** X6.  A successful [close_position] books the profit of the position
    at the current price exactly once into the three accounts: the daily
    profit, the balance and the available balance each grow by it.  The
    position stays in the book, closed, with that profit, the price and
    the reason; its stop information is dropped; one exit record is
    written; and neither the count of positions opened nor the count of
    trades of the day moves. *)
Theorem close_position_books_the_profit
    (s : TradingSystem.t) (w : TradingSystem.World) (pid reason : string) :
  fst (fst (TradingSystem.close_position s w pid reason)) = true ->
  let s' := snd (TradingSystem.close_position s w pid reason) in
  exists position current_price,
    dict_get pid (TradingSystem.positions s) = Some position /\
    TradingSystem.price w (TradingSystem.symbol position) = Some current_price /\
    let v := TradingSystem._calculate_position_pnl (TradingSystem.config s) position
               current_price in
    TradingSystem.daily_pnl s' = TradingSystem.daily_pnl s + v /\
    TradingSystem.balance s' = TradingSystem.balance s + v /\
    TradingSystem.available_balance s' = TradingSystem.available_balance s + v /\
    dict_get pid (TradingSystem.positions s')
    = Some (TradingSystem.mark_closed position current_price (TradingSystem.now w) v reason) /\
    TradingSystem.trade_records s'
    = TradingSystem.trade_records s
      ++ [ {| TradingSystem.tr_id := pid;
              TradingSystem.tr_symbol := TradingSystem.symbol position;
              TradingSystem.tr_action := "FUTURES_EXIT";
              TradingSystem.tr_price := current_price;
              TradingSystem.tr_quantity := TradingSystem.quantity position;
              TradingSystem.tr_pnl := Some v |} ] /\
    (forall engine, TradingSystem.smart_stoploss s' = Some engine ->
                    SmartStopLoss.get_stop_loss_info engine pid = None) /\
    TradingSystem.position_count s' = TradingSystem.position_count s /\
    TradingSystem.total_trades_today s' = TradingSystem.total_trades_today s.
Proof.
  intros Hok s'.
  destruct (close_position_result s w pid reason Hok)
    as (position & p & Hget & _ & Hp & _ & Hres).
  exists position, p. split; [exact Hget|]. split; [exact Hp|].
  subst s'. cbv zeta in Hres. rewrite Hres. clear Hres.
  destruct (TradingSystem.smart_stoploss s) as [engine|] eqn:He; cbn;
    repeat split; try apply dict_get_set_eq.
  - intros engine' [= <-]. unfold SmartStopLoss.get_stop_loss_info,
      SmartStopLoss.remove_position_stop. cbn. apply lookup_delete_eq.
  - intros engine' H. congruence.
Qed.

(** X6, at the open example position closed at 104 by an exchange that
    accepts. *)
Lemma close_position_books_the_profit_witness :
  let s := Book.system TradingSystem.default_config
             [("LONG_BTC-USDT-SWAP_1"%string, Book.open_example)] 0 in
  exists position current_price,
    dict_get "LONG_BTC-USDT-SWAP_1" (TradingSystem.positions s) = Some position /\
    TradingSystem.price Book.eager (TradingSystem.symbol position) = Some current_price /\
    TradingSystem.daily_pnl
      (snd (TradingSystem.close_position s Book.eager "LONG_BTC-USDT-SWAP_1" "MANUAL"))
    = TradingSystem.daily_pnl s
      + TradingSystem._calculate_position_pnl (TradingSystem.config s) position current_price.
Proof.
  intros s.
  destruct (close_position_books_the_profit s Book.eager "LONG_BTC-USDT-SWAP_1" "MANUAL"
              eq_refl) as (position & p & Hget & Hp & Hd & _).
  exists position, p. repeat split; assumption.
Defined.

Section Targets.

Import TradingSystem.

Lemma abs_of_nonneg x : 0 <= x -> Py.abs x == x.
Proof. intros H. unfold Py.abs. destruct (Qlt_le_dec x 0); lra. Qed.

(** The stop at entry is NaN on a frame with a NaN ATR, and otherwise a
    number on the losing side of the entry price. *)
Lemma stop_loss_side s w sym pt entry :
  0 <= entry ->
  (forall engine, smart_stoploss s = Some engine ->
     StopTrace.settings_ok (SmartStopLoss.settings engine) /\
     StopTrace.frame_ok (ohlcv50 w sym)) ->
  if OpenSpec.nan_at_entry s w sym
  then _calculate_stop_loss s w sym pt entry = Py.NaN
  else
    exists v, _calculate_stop_loss s w sym pt entry = Py.Num v /\
      match pt with
      | LONG => v <= entry
      | SHORT => entry <= v
      end.
Proof.
  intros He Hengine. unfold _calculate_stop_loss, OpenSpec.nan_at_entry.
  destruct (smart_stoploss s) as [engine|].
  - destruct (Hengine engine eq_refl) as (Hs & Hf).
    pose proof (dynamic_stop_cases (SmartStopLoss.settings engine) pt entry
                  (ohlcv50 w sym) Hs He Hf) as H.
    cbv zeta in H. destruct (StopTrace.short_frame (ohlcv50 w sym)); [exact H|].
    destruct H as (v & Hv & H). exists v. split; [exact Hv|].
    destruct pt; destruct H; assumption.
  - destruct pt; eexists; (split; [reflexivity|nra]).
Qed.

End Targets.

(** X7.  When the stop at entry is a number, the target set at entry is
    twice as far from the entry price as the stop, on the other side:
    for a long position the stop is at or below the entry and the target
    above it by twice the distance, for a short position the other way
    round.  When there is a stop engine and the frame it reads has a NaN
    ATR, as on fewer rows than [atr_period], the stop is NaN and so is
    the target. *)
Theorem take_profit_is_twice_the_risk
    (s : TradingSystem.t) (w : TradingSystem.World) (sym : string)
    (pt : PositionType) (entry : Q) :
  0 <= entry ->
  (forall engine, TradingSystem.smart_stoploss s = Some engine ->
     StopTrace.settings_ok (SmartStopLoss.settings engine) /\
     StopTrace.frame_ok (TradingSystem.ohlcv50 w sym)) ->
  let stop := TradingSystem._calculate_stop_loss s w sym pt entry in
  let target := TradingSystem._calculate_take_profit s w sym pt entry in
  if OpenSpec.nan_at_entry s w sym
  then stop = Py.NaN /\ target = Py.NaN
  else
    exists v t, stop = Py.Num v /\ target = Py.Num t /\
      match pt with
      | LONG => v <= entry /\ t - entry == 2 * (entry - v)
      | SHORT => entry <= v /\ entry - t == 2 * (v - entry)
      end.
Proof.
  intros He Hengine stop target.
  pose proof (stop_loss_side s w sym pt entry He Hengine) as Hside.
  subst stop target. unfold TradingSystem._calculate_take_profit.
  destruct (OpenSpec.nan_at_entry s w sym).
  - rewrite Hside. split; [reflexivity | destruct pt; reflexivity].
  - destruct Hside as (v & -> & Hv). exists v.
    destruct pt; eexists; (split; [reflexivity|]); (split; [reflexivity|]);
      (split; [exact Hv|]).
    + rewrite abs_of_nonneg by lra. ring.
    + unfold Py.abs. destruct (Qlt_le_dec _ 0); [ring|].
      assert (E : v == entry) by lra. rewrite E. ring.
Qed.

(** X7, at a long entry of 100: without a stop engine the stop is 98
    and the target 104; with the engine and the five hours of a newly
    listed instrument both are NaN. *)
Lemma take_profit_is_twice_the_risk_witness :
  (exists v t,
     TradingSystem._calculate_stop_loss SizingSpec.fresh SizingSpec.silent
       "BTC-USDT-SWAP" LONG 100 = Py.Num v /\
     TradingSystem._calculate_take_profit SizingSpec.fresh SizingSpec.silent
       "BTC-USDT-SWAP" LONG 100 = Py.Num t /\
     v <= 100 /\ t - 100 == 2 * (100 - v)) /\
  TradingSystem._calculate_take_profit OpenSpec.guarded OpenSpec.newly_listed
    "BTC-USDT-SWAP" LONG 100 = Py.NaN.
Proof.
  split.
  - destruct (take_profit_is_twice_the_risk SizingSpec.fresh SizingSpec.silent
                "BTC-USDT-SWAP" LONG 100) as (v & t & Hv & Ht & H).
    + discriminate.
    + intros engine H. discriminate H.
    + exists v, t. split; [exact Hv|]. split; [exact Ht | exact H].
  - refine (proj2 (take_profit_is_twice_the_risk OpenSpec.guarded OpenSpec.newly_listed
                     "BTC-USDT-SWAP" LONG 100 _ _)).
    + discriminate.
    + intros engine [= <-]. split; [|exact I].
      unfold StopTrace.settings_ok. simpl. repeat split; discriminate.
Defined.

(** X8.  The profit of a position of a quantity and leverage that are
    not negative moves with the price in the direction of the position:
    it never falls when the price rises for a long position, never
    rises for a short one; and at the entry price it is the loss of the
    two fees, times the leverage. *)
Theorem position_pnl_follows_the_price
    (c : TradingSystem.Config) (position : TradingSystem.TradingPosition) (p1 p2 : Q) :
  0 <= TradingSystem.quantity position ->
  (0 <= TradingSystem.leverage position)%Z ->
  p1 <= p2 ->
  match TradingSystem.position_type position with
  | LONG => TradingSystem._calculate_position_pnl c position p1
            <= TradingSystem._calculate_position_pnl c position p2
  | SHORT => TradingSystem._calculate_position_pnl c position p2
             <= TradingSystem._calculate_position_pnl c position p1
  end /\
  TradingSystem._calculate_position_pnl c position (TradingSystem.entry_price position)
  == - (2 * TradingSystem.quantity position * TradingSystem.entry_price position
        * TradingSystem.futures_trading_fee c)
     * inject_Z (TradingSystem.leverage position).
Proof.
  intros Hq Hl Hp. unfold TradingSystem._calculate_position_pnl.
  assert (Hlev : 0 <= inject_Z (TradingSystem.leverage position)).
  { change 0 with (inject_Z 0). rewrite <- Zle_Qle. exact Hl. }
  split.
  - destruct (TradingSystem.position_type position);
      apply Qmult_le_compat_r; try exact Hlev; nra.
  - destruct (TradingSystem.position_type position); ring.
Qed.

(** X8, at the open example position between the prices 90 and 110. *)
Lemma position_pnl_follows_the_price_witness :
  TradingSystem._calculate_position_pnl TradingSystem.default_config Book.open_example 90
  <= TradingSystem._calculate_position_pnl TradingSystem.default_config Book.open_example 110.
Proof.
  refine (proj1 (position_pnl_follows_the_price TradingSystem.default_config
                   Book.open_example 90 110 _ _ _)); discriminate.
Defined.

Section OpenResult.

Import TradingSystem OpenSpec.

(** The state a successful [open_position] leaves, written out. *)
Lemma open_position_result pt s w sym price_ qty :
  fst (open_position pt s w sym price_ qty) = true ->
  exists oid,
    0 < chosen_quantity s price_ qty /\
    create_order w sym pt (chosen_quantity s price_ qty) = Return (Some oid) /\
    let pid := make_position_id pt sym (now w) in
    let position := opened pt s w sym price_ (chosen_quantity s price_ qty) oid in
    let s2 :=
      with_position_count
        (with_positions s (dict_set pid position (positions s)))
        (S (position_count s)) in
    snd (open_position pt s w sym price_ qty)
    = _save_trade_record
        match smart_stoploss s with
        | Some engine =>
            with_smart_stoploss s2
              (Some (snd (SmartStopLoss.update_position_stop_loss engine pid sym pt
                            price_ price_ (ohlcv50 w sym) (ohlcv20 w sym) (now w))))
        | None => s2
        end
        {| tr_id := pid; tr_symbol := sym;
           tr_action := ("FUTURES_ENTRY_" +:+ type_name pt)%string;
           tr_price := price_; tr_quantity := chosen_quantity s price_ qty;
           tr_pnl := None |}.
Proof.
  unfold open_position. fold (chosen_quantity s price_ qty).
  destruct (Qlt_le_dec 0 (chosen_quantity s price_ qty)) as [Hq|]; [|discriminate].
  destruct (set_leverage w sym); [discriminate|].
  destruct (create_order w sym pt _) as [|[oid|]] eqn:Ho; try discriminate.
  intros _. exists oid. split; [exact Hq|]. split; [reflexivity|]. reflexivity.
Qed.

End OpenResult.

(** What a call of [open_position] leaves, by its success flag. *)
Lemma open_position_outcome
    (pt : PositionType) (s : TradingSystem.t) (w : TradingSystem.World)
    (sym : string) (price_ : Q) (qty : option Q) :
  let pid := TradingSystem.make_position_id pt sym (TradingSystem.now w) in
  let s' := snd (TradingSystem.open_position pt s w sym price_ qty) in
  (fst (TradingSystem.open_position pt s w sym price_ qty) = true ->
   (exists position,
      dict_get pid (TradingSystem.positions s') = Some position /\
      TradingSystem.position_id position = pid /\
      TradingSystem.status position = TradingSystem.OPEN /\
      TradingSystem.position_type position = pt /\
      TradingSystem.symbol position = sym /\
      TradingSystem.entry_price position = price_ /\
      0 < TradingSystem.quantity position) /\
   (forall other, other <> pid ->
      dict_get other (TradingSystem.positions s') = dict_get other (TradingSystem.positions s)) /\
   TradingSystem.position_count s' = S (TradingSystem.position_count s) /\
   length (TradingSystem.trade_records s') = S (length (TradingSystem.trade_records s)) /\
   (forall engine, TradingSystem.smart_stoploss s' = Some engine ->
      SmartStopLoss.get_stop_loss_info engine pid <> None) /\
   TradingSystem.balance s' = TradingSystem.balance s /\
   TradingSystem.available_balance s' = TradingSystem.available_balance s /\
   TradingSystem.daily_pnl s' = TradingSystem.daily_pnl s) /\
  (fst (TradingSystem.open_position pt s w sym price_ qty) = false -> s' = s).
Proof.
  intros pid s'. split; [|apply open_position_failed].
  intros Hok.
  destruct (open_position_result pt s w sym price_ qty Hok) as (oid & Hq & _ & Hres).
  subst s' pid. cbv zeta in Hres. rewrite Hres. clear Hres.
  destruct (TradingSystem.smart_stoploss s) as [engine|] eqn:He; cbn.
  - split; [eexists; split; [apply dict_get_set_eq|repeat split; exact Hq]|].
    split; [intros other Hne; apply dict_get_set_ne; congruence|].
    split; [reflexivity|]. split; [rewrite length_app; simpl; lia|].
    split; [|repeat split].
    intros engine' [= <-]. unfold SmartStopLoss.get_stop_loss_info.
    cbn. rewrite lookup_insert_eq. discriminate.
  - split; [eexists; split; [apply dict_get_set_eq|repeat split; exact Hq]|].
    split; [intros other Hne; apply dict_get_set_ne; congruence|].
    split; [reflexivity|]. split; [rewrite length_app; simpl; lia|].
    split; [|repeat split].
    intros engine' H. congruence.
Qed.

(** X9.  A successful [open_position] puts one open position into the
    book under the id made of the side, the instrument and the second of
    the clock, with the price passed as entry price and a positive
    quantity; it counts one position opened, writes one entry record and
    gives the stop engine, if there is one, stop information for the id.
    It leaves the balance, the available balance and the daily profit
    as they were.  A call that reports failure changes nothing. *)
Theorem open_position_registers_one_position
    (pt : PositionType) (s : TradingSystem.t) (w : TradingSystem.World)
    (sym : string) (price_ : Q) (qty : option Q) :
  let pid := TradingSystem.make_position_id pt sym (TradingSystem.now w) in
  let s' := snd (TradingSystem.open_position pt s w sym price_ qty) in
  (fst (TradingSystem.open_position pt s w sym price_ qty) = true ->
   (exists position,
      dict_get pid (TradingSystem.positions s') = Some position /\
      TradingSystem.position_id position = pid /\
      TradingSystem.status position = TradingSystem.OPEN /\
      TradingSystem.position_type position = pt /\
      TradingSystem.symbol position = sym /\
      TradingSystem.entry_price position = price_ /\
      0 < TradingSystem.quantity position) /\
   (forall other, other <> pid ->
      dict_get other (TradingSystem.positions s') = dict_get other (TradingSystem.positions s)) /\
   TradingSystem.position_count s' = S (TradingSystem.position_count s) /\
   length (TradingSystem.trade_records s') = S (length (TradingSystem.trade_records s)) /\
   (forall engine, TradingSystem.smart_stoploss s' = Some engine ->
      SmartStopLoss.get_stop_loss_info engine pid <> None) /\
   TradingSystem.balance s' = TradingSystem.balance s /\
   TradingSystem.available_balance s' = TradingSystem.available_balance s /\
   TradingSystem.daily_pnl s' = TradingSystem.daily_pnl s) /\
  (fst (TradingSystem.open_position pt s w sym price_ qty) = false -> s' = s).
Proof. exact (open_position_outcome pt s w sym price_ qty). Qed.

(** X9, at a long position opened at 100 on a fresh system by an
    exchange that accepts. *)
Lemma open_position_registers_one_position_witness :
  TradingSystem.position_count
    (snd (TradingSystem.open_position LONG SizingSpec.fresh Book.eager
            "BTC-USDT-SWAP" 100 None)) = 1%nat.
Proof.
  refine (proj1 (proj2 (proj2 (proj1
            (open_position_registers_one_position LONG SizingSpec.fresh Book.eager
               "BTC-USDT-SWAP" 100 None) _)))).
  reflexivity.
Defined.

(** X10.  Two successful calls of [open_position] for the same side and
    instrument within the same second of the clock make the same id: the
    second position takes the place of the first in the book, which does
    not grow, while the count of positions opened grows by two. *)
Theorem same_second_opens_share_an_id
    (pt : PositionType) (s : TradingSystem.t) (w : TradingSystem.World)
    (sym : string) (price1 price2 : Q) (qty1 qty2 : option Q) :
  let s1 := snd (TradingSystem.open_position pt s w sym price1 qty1) in
  let s2 := snd (TradingSystem.open_position pt s1 w sym price2 qty2) in
  fst (TradingSystem.open_position pt s w sym price1 qty1) = true ->
  fst (TradingSystem.open_position pt s1 w sym price2 qty2) = true ->
  length (TradingSystem.positions s2) = length (TradingSystem.positions s1) /\
  TradingSystem.position_count s2 = S (S (TradingSystem.position_count s)) /\
  exists position,
    dict_get (TradingSystem.make_position_id pt sym (TradingSystem.now w))
      (TradingSystem.positions s2) = Some position /\
    TradingSystem.entry_price position = price2.
Proof.
  intros s1 s2 H1 H2.
  destruct (open_position_outcome pt s w sym price1 qty1) as (Hs1 & _).
  destruct (Hs1 H1) as ((p1 & Hget1 & _) & _ & Hc1 & _). fold s1 in Hget1, Hc1.
  destruct (open_position_result pt s1 w sym price2 qty2 H2) as (oid & _ & _ & Hres).
  destruct (open_position_outcome pt s1 w sym price2 qty2) as (Hs2 & _).
  destruct (Hs2 H2) as ((p2 & Hget2 & _ & _ & _ & _ & Hp2 & _) & _ & Hc2 & _).
  fold s2 in Hget2, Hc2.
  split; [|split; [rewrite Hc2, Hc1; reflexivity | exists p2; split; assumption]].
  subst s2. cbv zeta in Hres. rewrite Hres.
  destruct (TradingSystem.smart_stoploss s1); cbn;
    eapply dict_set_length_present; exact Hget1.
Qed.

(** X10, at two long positions opened on BTC within one second, at 100
    and at 101. *)
Lemma same_second_opens_share_an_id_witness :
  let s1 := snd (TradingSystem.open_position LONG SizingSpec.fresh Book.eager
                   "BTC-USDT-SWAP" 100 None) in
  let s2 := snd (TradingSystem.open_position LONG s1 Book.eager "BTC-USDT-SWAP" 101 None) in
  length (TradingSystem.positions s2) = length (TradingSystem.positions s1) /\
  TradingSystem.position_count s2 = 2%nat.
Proof.
  intros s1 s2.
  destruct (same_second_opens_share_an_id LONG SizingSpec.fresh Book.eager
              "BTC-USDT-SWAP" 100 101 None None eq_refl eq_refl) as (Hl & Hc & _).
  split; [exact Hl | exact Hc].
Defined.

(** ** The book as a dictionary keyed by position id *)

Section DictKeys.

Context {V : Type}.

Lemma dict_get_In (k : string) (v : V) d : dict_get k d = Some v -> In (k, v) d.
Proof.
  induction d as [|[k' v'] d IH]; simpl; [discriminate|].
  destruct (decide (k = k')) as [->|]; [intros [= ->]; left; reflexivity | right; auto].
Qed.

Lemma dict_get_None (k : string) (d : list (string * V)) :
  dict_get k d = None <-> k ∉ map fst d.
Proof.
  induction d as [|[k' v'] d IH]; simpl.
  - split; [intros _; apply not_elem_of_nil | reflexivity].
  - rewrite not_elem_of_cons. destruct (decide (k = k')) as [->|Hne].
    + split; [discriminate | intros [H _]; contradiction].
    + rewrite IH. tauto.
Qed.

Lemma In_dict_get (k : string) (v : V) d :
  NoDup (map fst d) -> In (k, v) d -> dict_get k d = Some v.
Proof.
  induction d as [|[k' v'] d IH]; simpl; [contradiction|].
  intros Hnd [Heq|Hin].
  - injection Heq as -> ->. destruct (decide (k = k)); [reflexivity|contradiction].
  - apply NoDup_cons in Hnd. destruct Hnd as (Hnotin & Hnd').
    destruct (decide (k = k')) as [->|]; [|auto].
    exfalso. apply Hnotin. apply list_elem_of_In.
    apply (in_map fst) in Hin. exact Hin.
Qed.

Lemma dict_set_keys_present (k : string) (v : V) d :
  k ∈ map fst d -> map fst (dict_set k v d) = map fst d.
Proof.
  induction d as [|[k' v'] d IH]; simpl; intros Hin.
  - apply elem_of_nil in Hin. destruct Hin.
  - destruct (decide (k = k')) as [->|Hne]; simpl; [reflexivity|].
    apply elem_of_cons in Hin. destruct Hin as [Heq|Hin]; [contradiction|].
    f_equal. auto.
Qed.

Lemma dict_set_keys_absent (k : string) (v : V) d :
  k ∉ map fst d -> map fst (dict_set k v d) = map fst d ++ [k].
Proof.
  induction d as [|[k' v'] d IH]; simpl; intros Hnin; [reflexivity|].
  apply not_elem_of_cons in Hnin. destruct Hnin as (Hne & Hnin).
  destruct (decide (k = k')); [contradiction|]. simpl. f_equal. auto.
Qed.

Lemma dict_set_NoDup (k : string) (v : V) d :
  NoDup (map fst d) -> NoDup (map fst (dict_set k v d)).
Proof.
  intros Hnd. destruct (decide (k ∈ map fst d)) as [Hin|Hnin].
  - rewrite dict_set_keys_present by exact Hin. exact Hnd.
  - rewrite dict_set_keys_absent by exact Hnin.
    apply NoDup_app. split; [exact Hnd|]. split.
    + intros x Hx Hx'. apply list_elem_of_singleton in Hx'. subst. contradiction.
    + apply NoDup_singleton.
Qed.

Lemma dict_set_Forall (P : string * V -> Prop) (k : string) (v : V) d :
  P (k, v) -> Forall P d -> Forall P (dict_set k v d).
Proof.
  intros Hk. induction 1 as [|[k' v'] d Hx Hd IH]; simpl; [repeat constructor; exact Hk|].
  destruct (decide (k = k')); constructor; assumption.
Qed.

Lemma dict_del_In (k : string) (d : list (string * V)) x :
  In x (dict_del k d) -> In x d.
Proof.
  induction d as [|[k' v'] d IH]; simpl; [tauto|].
  destruct (decide (k = k')); simpl; [right; assumption|].
  intros [H|H]; [left; exact H | right; auto].
Qed.

Lemma dict_del_keys (k k' : string) (d : list (string * V)) :
  k' ∈ map fst (dict_del k d) -> k' ∈ map fst d.
Proof.
  intros H. apply list_elem_of_In, in_map_iff in H. destruct H as (x & <- & Hin).
  apply list_elem_of_In, in_map, (dict_del_In k). exact Hin.
Qed.

Lemma dict_del_NoDup (k : string) (d : list (string * V)) :
  NoDup (map fst d) -> NoDup (map fst (dict_del k d)).
Proof.
  induction d as [|[k' v'] d IH]; simpl; [intros; constructor|].
  intros Hnd. apply NoDup_cons in Hnd. destruct Hnd as (Hnotin & Hnd').
  destruct (decide (k = k')); [exact Hnd'|]. simpl. apply NoDup_cons.
  split; [|auto]. intros Hin. apply Hnotin. eapply dict_del_keys. exact Hin.
Qed.

Lemma dict_del_Forall (P : string * V -> Prop) (k : string) d :
  Forall P d -> Forall P (dict_del k d).
Proof.
  induction 1 as [|[k' v'] d Hx Hd IH]; simpl; [constructor|].
  destruct (decide (k = k')); [assumption | constructor; assumption].
Qed.

Lemma dict_get_del_ne (k k' : string) (d : list (string * V)) :
  k <> k' -> dict_get k' (dict_del k d) = dict_get k' d.
Proof.
  intros Hne. induction d as [|[k0 v0] d IH]; simpl; [reflexivity|].
  destruct (decide (k = k0)) as [->|Hne0]; simpl.
  - destruct (decide (k' = k0)); [congruence|reflexivity].
  - destruct (decide (k' = k0)); [reflexivity|exact IH].
Qed.

Lemma dict_get_del_eq (k : string) (d : list (string * V)) :
  NoDup (map fst d) -> dict_get k (dict_del k d) = None.
Proof.
  induction d as [|[k0 v0] d IH]; simpl; [reflexivity|].
  intros Hnd. apply NoDup_cons in Hnd. destruct Hnd as (Hnotin & Hnd').
  destruct (decide (k = k0)) as [->|Hne]; simpl.
  - apply dict_get_None. exact Hnotin.
  - destruct (decide (k = k0)); [contradiction|auto].
Qed.

End DictKeys.

Section BookKeys.

Import TradingSystem Desk.

Lemma book_ok_id book pid position :
  book_ok book -> dict_get pid book = Some position -> position_id position = pid.
Proof.
  intros (_ & Hall) Hget. apply dict_get_In in Hget.
  rewrite List.Forall_forall in Hall. exact (Hall _ Hget).
Qed.

Lemma book_ok_set book pid position :
  book_ok book -> position_id position = pid -> book_ok (dict_set pid position book).
Proof.
  intros (Hnd & Hall) Hid. split; [apply dict_set_NoDup; exact Hnd|].
  apply dict_set_Forall; assumption.
Qed.

Lemma book_ok_del book pid : book_ok book -> book_ok (dict_del pid book).
Proof.
  intros (Hnd & Hall). split; [apply dict_del_NoDup; exact Hnd|].
  apply dict_del_Forall; assumption.
Qed.

Lemma close_position_book_ok s w pid reason :
  book_ok (positions s) -> book_ok (positions (snd (close_position s w pid reason))).
Proof.
  intros Hok.
  destruct (close_position_cases s w pid reason) as [Hs | (_ & ->)]; [|exact Hok].
  assert (Htrue : fst (fst (close_position s w pid reason)) = true) by (rewrite Hs; reflexivity).
  destruct (close_position_result s w pid reason Htrue)
    as (position & p & Hget & _ & _ & _ & Hres).
  cbv zeta in Hres. rewrite Hres.
  assert (Hbook : book_ok (dict_set pid
                    (mark_closed position p (now w)
                       (_calculate_position_pnl (config s) position p) reason)
                    (positions s))).
  { apply book_ok_set; [exact Hok|]. cbn. eapply book_ok_id; eassumption. }
  destruct (smart_stoploss s); exact Hbook.
Qed.

Lemma open_position_book_ok pt s w sym p q :
  book_ok (positions s) -> book_ok (positions (snd (open_position pt s w sym p q))).
Proof.
  intros Hok. destruct (fst (open_position pt s w sym p q)) eqn:Hres.
  - destruct (open_position_result pt s w sym p q Hres) as (oid & _ & _ & Hs).
    cbv zeta in Hs. rewrite Hs.
    assert (Hbook : book_ok (dict_set (make_position_id pt sym (now w))
                      (OpenSpec.opened pt s w sym p (OpenSpec.chosen_quantity s p q) oid)
                      (positions s)))
      by (apply book_ok_set; [exact Hok | reflexivity]).
    destruct (smart_stoploss s); exact Hbook.
  - rewrite (open_position_failed pt s w sym p q Hres). exact Hok.
Qed.

Lemma close_many_book_ok s w reason (ids : list string) :
  book_ok (positions s) ->
  book_ok (positions (fold_left (fun acc pid => snd (close_position acc w pid reason)) ids s)).
Proof.
  revert s. induction ids as [|pid ids IH]; intros s Hok; [exact Hok|].
  simpl. apply IH. apply close_position_book_ok. exact Hok.
Qed.

Lemma close_all_book_ok s w reason :
  book_ok (positions s) -> book_ok (positions (close_all_positions s w reason)).
Proof.
  unfold close_all_positions. generalize (get_open_positions s) as ps. intros ps. revert s.
  induction ps as [|p ps IH]; intros s Hok; [exact Hok|].
  simpl. apply IH. apply close_position_book_ok. exact Hok.
Qed.

(** The pass over the positions keeps every key and every position id. *)
Lemma watch_positions_keys c w engine items :
  map fst (fst (fst (watch_positions c w engine items))) = map fst items /\
  (Forall (fun '(k, position) => position_id position = k) items ->
   Forall (fun '(k, position) => position_id position = k)
     (fst (fst (watch_positions c w engine items)))).
Proof.
  revert engine. induction items as [|[pid position] rest IH]; intros engine;
    [split; [reflexivity | intros; constructor]|].
  cbn [watch_positions].
  destruct (status position).
  - destruct (price w (symbol position)) as [p|].
    + destruct engine as [e|].
      * destruct (SmartStopLoss.update_position_stop_loss e pid _ _ _ p _ _ _)
          as [stop e'] eqn:Hup.
        specialize (IH (Some e')).
        destruct (watch_positions c w (Some e') rest) as [[rest' engine''] ids].
        simpl in *. destruct IH as (Hk & Hf). split; [f_equal; exact Hk|].
        intros H. apply Forall_cons in H. destruct H as (Hhd & Htl). constructor; [exact Hhd | auto].
      * specialize (IH None).
        destruct (watch_positions c w None rest) as [[rest' engine''] ids].
        simpl in *. destruct IH as (Hk & Hf). split; [f_equal; exact Hk|].
        intros H. apply Forall_cons in H. destruct H as (Hhd & Htl). constructor; [exact Hhd | auto].
    + specialize (IH engine).
      destruct (watch_positions c w engine rest) as [[rest' engine'] ids].
      simpl in *. destruct IH as (Hk & Hf). split; [f_equal; exact Hk|].
      intros H. apply Forall_cons in H. destruct H as (Hhd & Htl). constructor; [exact Hhd | auto].
  - specialize (IH engine).
    destruct (watch_positions c w engine rest) as [[rest' engine'] ids].
    simpl in *. destruct IH as (Hk & Hf). split; [f_equal; exact Hk|].
    intros H. apply Forall_cons in H. destruct H as (Hhd & Htl). constructor; [exact Hhd | auto].
Qed.

Lemma check_position_stops_book_ok s w :
  book_ok (positions s) -> book_ok (positions (_check_position_stops s w)).
Proof.
  intros (Hnd & Hall). unfold _check_position_stops.
  destruct (watch_positions_keys (config s) w (smart_stoploss s) (positions s)) as (Hk & Hf).
  destruct (watch_positions (config s) w (smart_stoploss s) (positions s))
    as [[items engine] ids]. simpl in Hk, Hf.
  apply close_many_book_ok. cbn. split; [rewrite Hk; exact Hnd | auto].
Qed.

Lemma futures_loop_book_ok w symbols : forall s,
  book_ok (positions s) -> book_ok (positions (futures_loop w symbols s)).
Proof.
  induction symbols as [|sym rest IH]; intros s Hok; [exact Hok|].
  cbn [futures_loop]. destruct (_can_execute_trade w s); simpl; [|exact Hok].
  apply IH. destruct (futures_signal w sym); [| |exact Hok];
    (destruct (truthy (price w sym)) as [p|]; [|exact Hok]).
  - unfold open_long_position.
    pose proof (open_position_book_ok LONG s w sym p None Hok) as H.
    destruct (open_position LONG s w sym p None) as [[|] s1]; exact H.
  - unfold open_short_position.
    pose proof (open_position_book_ok SHORT s w sym p None Hok) as H.
    destruct (open_position SHORT s w sym p None) as [[|] s1]; exact H.
Qed.

Lemma trading_strategy_book_ok s w :
  book_ok (positions s) -> book_ok (positions (_execute_trading_strategy s w)).
Proof.
  intros Hok. unfold _execute_trading_strategy.
  set (s1 := match trading_mode (config s) with
             | ModeBoth | ModeFutures => _ | _ => s end).
  assert (H1 : book_ok (positions s1)).
  { subst s1. unfold _execute_futures_strategy.
    destruct (trading_mode (config s)); try exact Hok;
      destruct (futures_enabled (config s)); try exact Hok;
      apply futures_loop_book_ok; exact Hok. }
  destruct (spot_strategy_book s1 w) as (_ & Hp).
  destruct (trading_mode (config s)); try exact H1;
    destruct (spot_enabled (config s)); try exact H1; rewrite Hp; exact H1.
Qed.

Lemma refreshed_book_ok c w (d : list (string * TradingPosition)) :
  book_ok d ->
  book_ok
    (map (fun '(pid, position) =>
            match status position, truthy (price w (symbol position)) with
            | OPEN, Some current_price =>
                (pid, set_pnl position (_calculate_position_pnl c position current_price))
            | _, _ => (pid, position)
            end) d).
Proof.
  intros (Hnd & Hall). split.
  - rewrite map_map. erewrite map_ext; [exact Hnd|].
    intros [k p]. destruct (status p); [|reflexivity].
    destruct (truthy (price w (symbol p))); reflexivity.
  - clear Hnd. induction Hall as [|[k p] d Hx _ IH]; simpl; [constructor|].
    constructor; [|exact IH].
    destruct (status p); [|exact Hx]. destruct (truthy (price w (symbol p))); exact Hx.
Qed.

Lemma update_account_info_book_ok s w :
  book_ok (positions s) -> book_ok (positions (_update_account_info s w)).
Proof.
  intros Hok. unfold _update_account_info, _update_positions_pnl.
  set (s1 := match spot_balance w with Some _ => _ | None => s end).
  assert (H1 : positions s1 = positions s) by (subst s1; destruct (spot_balance w); reflexivity).
  destruct (check_daily_reset_book s1 w) as (_ & Hp2 & _).
  cbn [positions with_positions]. rewrite Hp2, H1.
  apply refreshed_book_ok. exact Hok.
Qed.

Lemma cleanup_book_ok s : book_ok (positions s) -> book_ok (positions (_cleanup_old_data s)).
Proof.
  intros Hok. unfold _cleanup_old_data.
  destruct (retained_closed <? _)%nat; [|exact Hok]. cbn [positions with_positions].
  generalize (firstn
    (length (py_sorted (fun y x => closed_before (snd y) (snd x))
       (map (fun '(pid, position) => (pid, closed_at position))
          (List.filter (fun '(_, position) => is_closed position) (positions s))))
     - retained_closed)
    (py_sorted (fun y x => closed_before (snd y) (snd x))
       (map (fun '(pid, position) => (pid, closed_at position))
          (List.filter (fun '(_, position) => is_closed position) (positions s))))) as stale.
  intros stale. revert Hok. generalize (positions s) as d. intros d. revert d.
  induction stale as [|[pid ?] stale IH]; intros d Hok; [exact Hok|].
  simpl. apply IH. apply book_ok_del. exact Hok.
Qed.

Lemma loop_body_book_ok w n s :
  book_ok (positions s) -> book_ok (positions (loop_body w n s)).
Proof.
  intros Hok. unfold loop_body.
  set (s1 := if (n mod 10 =? 0)%nat then _update_account_info s w else s).
  assert (H1 : book_ok (positions s1)).
  { subst s1. destruct (n mod 10 =? 0)%nat; [apply update_account_info_book_ok|]; exact Hok. }
  destruct (_check_risk_limits s1).
  { unfold stop_auto_trading. destruct (auto_trading s1); exact H1. }
  pose proof (check_position_stops_book_ok s1 w H1) as H2.
  set (s2 := _check_position_stops s1 w) in *.
  assert (H3 : book_ok (positions
                 (if _can_execute_trade w s2 then _execute_trading_strategy s2 w else s2))).
  { destruct (_can_execute_trade w s2); [apply trading_strategy_book_ok|]; exact H2. }
  destruct (n mod 30 =? 0)%nat; [apply cleanup_book_ok|]; exact H3.
Qed.

End BookKeys.

(** X11.  The book is keyed by position id throughout: if no key occurs
    twice and every position stands under its own id, this is still so
    after any sequence of loop passes, closes, close-alls and direct
    opens, whatever the exchange answers. *)
Theorem book_stays_keyed_by_position_id
    (s : TradingSystem.t) (ops : list TradingSystem.Op) :
  Desk.book_ok (TradingSystem.positions s) ->
  Desk.book_ok (TradingSystem.positions (fold_left TradingSystem.apply_op ops s)).
Proof.
  revert s. induction ops as [|o ops IH]; intros s Hok; [exact Hok|].
  simpl. apply IH. destruct o; simpl.
  - apply loop_body_book_ok. exact Hok.
  - apply close_position_book_ok. exact Hok.
  - apply close_all_book_ok. exact Hok.
  - apply open_position_book_ok. exact Hok.
  - apply open_position_book_ok. exact Hok.
Qed.

(** X11, at an empty book, after two direct opens and a pass of the
    loop. *)
Lemma book_stays_keyed_by_position_id_witness :
  Desk.book_ok
    (TradingSystem.positions
       (fold_left TradingSystem.apply_op
          [TradingSystem.OpOpenLong Book.eager "BTC-USDT-SWAP" 100 None;
           TradingSystem.OpOpenShort Book.eager "ETH-USDT-SWAP" 100 None;
           TradingSystem.OpLoopPass Book.falling 1]
          (Book.system TradingSystem.default_config [] 0))).
Proof.
  apply (book_stays_keyed_by_position_id (Book.system TradingSystem.default_config [] 0)).
  split; constructor.
Defined.

(** ** Pruning the closed positions *)

Section GenericSort.

Context {A : Type} (before : A -> A -> bool) (R : A -> A -> Prop).

Hypothesis R_trans : forall a b c, R a b -> R b c -> R a c.
Hypothesis before_true : forall y x, before y x = true -> R y x.
Hypothesis before_false : forall y x, before y x = false -> R x y.

Lemma py_insert_sorted_by x l :
  StronglySorted R l -> StronglySorted R (py_insert before x l).
Proof.
  induction l as [|y l IH]; intros Hs; simpl; [repeat constructor|].
  apply StronglySorted_inv in Hs. destruct Hs as (Hl & Hy).
  destruct (before y x) eqn:Hb.
  - constructor; [apply IH; exact Hl|].
    eapply Permutation_Forall; [symmetry; apply py_insert_perm|].
    constructor; [apply before_true; exact Hb | exact Hy].
  - constructor; [constructor; assumption|].
    constructor; [apply before_false; exact Hb|].
    eapply Forall_impl; [exact Hy|]. intros z Hz. simpl in Hz.
    eapply R_trans; [apply before_false; exact Hb | exact Hz].
Qed.

Lemma py_sorted_sorted_by l : StronglySorted R (py_sorted before l).
Proof.
  induction l as [|x l IH]; simpl; [constructor|]. apply py_insert_sorted_by, IH.
Qed.

(** In a sorted list everything in a prefix stands before everything in
    the rest. *)
Lemma sorted_prefix_before_rest l : forall n a b,
  StronglySorted R l -> In a (firstn n l) -> In b (skipn n l) -> R a b.
Proof.
  induction l as [|x l IH]; intros n a b Hs Ha Hb.
  - destruct n; simpl in Ha; contradiction.
  - destruct n as [|n]; simpl in Ha, Hb; [contradiction|].
    apply StronglySorted_inv in Hs. destruct Hs as (Hl & Hx).
    destruct Ha as [<-|Ha].
    + rewrite List.Forall_forall in Hx. apply Hx.
      rewrite <- (firstn_skipn n l). apply in_or_app. right. exact Hb.
    + eapply IH; eassumption.
Qed.

End GenericSort.

Section Cleanup.

Import TradingSystem.

Lemma is_open_not_closed p : is_open p = negb (is_closed p).
Proof. unfold is_open, is_closed. destruct (status p); reflexivity. Qed.

Lemma filter_keys_NoDup (f : string * TradingPosition -> bool) d :
  NoDup (map fst d) -> NoDup (map fst (List.filter f d)).
Proof.
  induction d as [|[k p] d IH]; simpl; [intros; constructor|].
  intros Hnd. apply NoDup_cons in Hnd. destruct Hnd as (Hnotin & Hnd).
  destruct (f (k, p)); [|auto]. simpl. apply NoDup_cons. split; [|auto].
  intros Hin. apply Hnotin. apply list_elem_of_In, in_map_iff in Hin.
  destruct Hin as (x & <- & Hx). apply List.filter_In in Hx.
  apply list_elem_of_In, in_map. tauto.
Qed.

Lemma firstn_incl {A : Type} n (l : list A) x : In x (firstn n l) -> In x l.
Proof.
  intros H. rewrite <- (firstn_skipn n l). apply in_or_app. left. exact H.
Qed.

Lemma firstn_NoDup {A : Type} n (l : list A) : NoDup l -> NoDup (firstn n l).
Proof.
  intros H. rewrite <- (firstn_skipn n l) in H. apply NoDup_app in H. tauto.
Qed.

(** Deleting the key of a closed position takes one closed position out
    of the book and leaves the open ones as they are. *)
Lemma delete_closed_step d k p :
  NoDup (map fst d) -> In (k, p) d -> is_closed p = true ->
  S (length (List.filter (fun '(_, position) => is_closed position) (dict_del k d)))
  = length (List.filter (fun '(_, position) => is_closed position) d) /\
  List.filter is_open (map snd (dict_del k d)) = List.filter is_open (map snd d).
Proof.
  induction d as [|[k' p'] d IH]; simpl; [contradiction|].
  intros Hnd Hin Hcl. apply NoDup_cons in Hnd. destruct Hnd as (Hnotin & Hnd).
  destruct (decide (k = k')) as [->|Hne].
  - assert (p' = p) as ->.
    { destruct Hin as [Heq|Hin]; [congruence|]. exfalso. apply Hnotin.
      apply list_elem_of_In. apply (in_map fst) in Hin. exact Hin. }
    rewrite Hcl, is_open_not_closed, Hcl. simpl. split; reflexivity.
  - destruct Hin as [Heq|Hin]; [congruence|].
    destruct (IH Hnd Hin Hcl) as (Hlen & Hopen). simpl.
    rewrite Hopen. destruct (is_closed p'); simpl; rewrite <- ?Hlen; split; reflexivity.
Qed.

Lemma dict_del_keeps_others {V : Type} (k : string) (d : list (string * V)) x :
  In x d -> fst x <> k -> In x (dict_del k d).
Proof.
  induction d as [|[k' v'] d IH]; simpl; [tauto|].
  intros [<-|Hin] Hne; simpl in *.
  - destruct (decide (k = k')); [congruence | left; reflexivity].
  - destruct (decide (k = k')); [exact Hin | right; auto].
Qed.

Lemma delete_closed_many (stale : list (string * option Z)) : forall d,
  NoDup (map fst d) -> NoDup (map fst stale) ->
  (forall k t, In (k, t) stale -> exists p, In (k, p) d /\ is_closed p = true) ->
  let d' := fold_left (fun d '(pid, _) => dict_del pid d) stale d in
  (length (List.filter (fun '(_, position) => is_closed position) d') + length stale)%nat
  = length (List.filter (fun '(_, position) => is_closed position) d) /\
  List.filter is_open (map snd d') = List.filter is_open (map snd d) /\
  (forall k, k ∉ map fst stale -> dict_get k d' = dict_get k d) /\
  (forall k, k ∈ map fst stale -> dict_get k d' = None).
Proof.
  induction stale as [|[k t] stale IH]; intros d Hd Hst Hcl; simpl.
  - split; [lia|]. split; [reflexivity|]. split; [intros; reflexivity|].
    intros k Hk. apply elem_of_nil in Hk. destruct Hk.
  - simpl in Hst. apply NoDup_cons in Hst. destruct Hst as (Hk & Hst).
    destruct (Hcl k t (or_introl eq_refl)) as (p & Hin & Hp).
    destruct (delete_closed_step d k p Hd Hin Hp) as (Hlen & Hopen).
    destruct (IH (dict_del k d)) as (Hlen' & Hopen' & Hother & Hgone).
    + apply dict_del_NoDup. exact Hd.
    + exact Hst.
    + intros k' t' Hin'. destruct (Hcl k' t' (or_intror Hin')) as (p' & Hp' & Hc').
      exists p'. split; [|exact Hc']. apply dict_del_keeps_others; [exact Hp'|].
      simpl. intros ->. apply Hk. apply list_elem_of_In.
      apply (in_map fst) in Hin'. exact Hin'.
    + simpl in *. split; [|split; [|split]].
      * lia.
      * rewrite Hopen'. exact Hopen.
      * intros k' Hk'. apply not_elem_of_cons in Hk'. destruct Hk' as (Hne & Hk').
        rewrite Hother by exact Hk'. apply dict_get_del_ne. congruence.
      * intros k' Hk'. apply elem_of_cons in Hk'. destruct Hk' as [->|Hk'].
        -- rewrite Hother by exact Hk. apply dict_get_del_eq. exact Hd.
        -- apply Hgone. exact Hk'.
Qed.

Lemma closed_order_trans (a b c : option Z) :
  closed_before b a = false -> closed_before c b = false -> closed_before c a = false.
Proof.
  unfold closed_before. destruct a, b, c; try reflexivity; try discriminate.
  intros H1 H2. apply Z.ltb_ge in H1, H2. apply Z.ltb_ge. lia.
Qed.

Lemma closed_order_asym (a b : option Z) :
  closed_before a b = true -> closed_before b a = false.
Proof.
  unfold closed_before. destruct a, b; try reflexivity; try discriminate.
  intros H. apply Z.ltb_lt in H. apply Z.ltb_ge. lia.
Qed.


Lemma cleanup_stale_facts (d : list (string * TradingPosition)) (n : nat) :
  NoDup (map fst d) ->
  let closed := List.filter (fun '(_, position) => is_closed position) d in
  let closed_with_time :=
    py_sorted (fun y x => closed_before (snd y) (snd x))
      (map (fun '(pid, position) => (pid, closed_at position)) closed) in
  let stale := firstn n closed_with_time in
  NoDup (map fst stale) /\
  (forall k t, In (k, t) closed_with_time ->
     exists p, In (k, p) d /\ is_closed p = true /\ t = closed_at p) /\
  (forall k p, In (k, p) d -> is_closed p = true -> In (k, closed_at p) closed_with_time) /\
  length closed_with_time = length closed.
Proof.
  intros Hd closed cwt stale.
  assert (Hperm : Permutation cwt
            (map (fun '(pid, position) => (pid, closed_at position)) closed))
    by apply py_sorted_perm.
  assert (Hkeys : map fst (map (fun '(pid, position) => (pid, closed_at position)) closed)
                  = map fst closed).
  { rewrite map_map. apply map_ext. intros [k p]. reflexivity. }
  split; [|split; [|split]].
  - subst stale. rewrite <- firstn_map. apply firstn_NoDup.
    rewrite (Permutation_map fst Hperm), Hkeys. apply filter_keys_NoDup. exact Hd.
  - intros k t Hin. eapply Permutation_in in Hin; [|exact Hperm].
    apply in_map_iff in Hin. destruct Hin as ([k0 p] & Heq & Hin).
    injection Heq as -> <-. apply List.filter_In in Hin. exists p. tauto.
  - intros k p Hin Hp. eapply Permutation_in; [symmetry; exact Hperm|].
    apply in_map_iff. exists (k, p). split; [reflexivity|].
    apply List.filter_In. split; assumption.
  - rewrite (Permutation_length Hperm). apply length_map.
Qed.

End Cleanup.

(** X12.  On a book with unique keys, [_cleanup_old_data] keeps every
    open position, never adds or changes an entry, leaves
    [min (closed, 100)] closed positions, and each closed position it
    removes was closed no later than each closed position it keeps. *)
Theorem cleanup_keeps_the_latest_closed (s : TradingSystem.t) :
  NoDup (map fst (TradingSystem.positions s)) ->
  let s' := TradingSystem._cleanup_old_data s in
  TradingSystem.get_open_positions s' = TradingSystem.get_open_positions s /\
  Book.closed_count s' = Nat.min (Book.closed_count s) 100 /\
  (forall k p, dict_get k (TradingSystem.positions s') = Some p ->
     dict_get k (TradingSystem.positions s) = Some p) /\
  (forall k p k' q,
     dict_get k (TradingSystem.positions s') = Some p ->
     TradingSystem.is_closed p = true ->
     dict_get k' (TradingSystem.positions s) = Some q ->
     TradingSystem.is_closed q = true ->
     dict_get k' (TradingSystem.positions s') = None ->
     TradingSystem.closed_before (TradingSystem.closed_at p) (TradingSystem.closed_at q)
     = false).
Proof.
  intros Hd s'. subst s'. unfold TradingSystem._cleanup_old_data.
  unfold Book.closed_count, TradingSystem.get_open_positions.
  set (closed := List.filter (fun '(_, position) => TradingSystem.is_closed position)
                   (TradingSystem.positions s)).
  destruct (Nat.ltb_spec TradingSystem.retained_closed (length closed)) as [Hlt|Hle].
  2:{ fold closed. unfold TradingSystem.retained_closed in Hle.
      split; [reflexivity|]. split; [lia|]. split; [auto|].
      intros k p k' q Hk _ Hk' _ Hnone. congruence. }
  cbn [TradingSystem.positions TradingSystem.with_positions].
  set (cwt := py_sorted (fun y x => TradingSystem.closed_before (snd y) (snd x))
                (map (fun '(pid, position) => (pid, TradingSystem.closed_at position)) closed)).
  set (n := (length cwt - TradingSystem.retained_closed)%nat).
  destruct (cleanup_stale_facts (TradingSystem.positions s) n Hd)
    as (Hnd & Hfrom & Hto & Hlen).
  fold closed in Hnd, Hfrom, Hto, Hlen. fold cwt in Hnd, Hfrom, Hto, Hlen.
  destruct (delete_closed_many (firstn n cwt) (TradingSystem.positions s) Hd Hnd)
    as (Hcount & Hopen & Hother & Hgone).
  { intros k t Hin. apply firstn_incl in Hin.
    destruct (Hfrom k t Hin) as (p & H1 & H2 & _). exists p. tauto. }
  fold closed in Hcount.
  assert (Hn : length (firstn n cwt) = n).
  { rewrite length_firstn. subst n. lia. }
  unfold TradingSystem.retained_closed in *.
  split; [exact Hopen|]. split; [subst n; lia|]. split.
  - intros k p Hk. destruct (decide (k ∈ map fst (firstn n cwt))) as [Hin|Hout].
    + rewrite (Hgone k Hin) in Hk. discriminate.
    + rewrite <- (Hother k Hout). exact Hk.
  - intros k p k' q Hk Hp Hk' Hq Hnone.
    assert (Hkout : k ∉ map fst (firstn n cwt)).
    { intros Hin. rewrite (Hgone k Hin) in Hk. discriminate. }
    assert (Hk'in : k' ∈ map fst (firstn n cwt)).
    { destruct (decide (k' ∈ map fst (firstn n cwt))) as [Hin|Hout]; [exact Hin|].
      rewrite (Hother k' Hout) in Hnone. congruence. }
    rewrite (Hother k Hkout) in Hk.
    apply list_elem_of_In, in_map_iff in Hk'in. destruct Hk'in as ([k0 t'] & Hfst & Hin').
    simpl in Hfst. subst k0.
    destruct (Hfrom k' t' (firstn_incl n _ _ Hin')) as (q' & Hq'in & _ & Ht').
    assert (q' = q) as ->.
    { pose proof (In_dict_get k' q' _ Hd Hq'in) as E. congruence. }
    pose proof (Hto k p (dict_get_In k p _ Hk) Hp) as Hin.
    rewrite <- (firstn_skipn n cwt) in Hin. apply in_app_or in Hin.
    destruct Hin as [Hin|Hin].
    { exfalso. apply Hkout. apply list_elem_of_In.
      apply (in_map fst) in Hin. exact Hin. }
    pose proof (sorted_prefix_before_rest
      (fun a b : string * option Z =>
         TradingSystem.closed_before (snd b) (snd a) = false)
      cwt n (k', t') (k, TradingSystem.closed_at p)) as Hsorted.
    simpl in Hsorted. subst t'. apply Hsorted; [|exact Hin'|exact Hin].
    apply (py_sorted_sorted_by (fun y x => TradingSystem.closed_before (snd y) (snd x))).
    + intros a b c H1 H2. exact (closed_order_trans (snd a) (snd b) (snd c) H1 H2).
    + intros y x H. apply closed_order_asym. exact H.
    + intros y x H. exact H.
Qed.

Lemma cleanup_keeps_the_latest_closed_witness :
  let s := Book.system TradingSystem.default_config Ledger.crowded 0 in
  let s' := TradingSystem._cleanup_old_data s in
  TradingSystem.get_open_positions s' = [Book.open_example] /\
  Book.closed_count s = 101%nat /\
  Book.closed_count s' = 100%nat /\
  dict_get "LONG_BTC-USDT-SWAP_2" (TradingSystem.positions s') = None.
Proof.
  intros s s'.
  destruct (cleanup_keeps_the_latest_closed s) as (Hopen & Hcount & _).
  { apply (bool_decide_unpack _). vm_compute. reflexivity. }
  fold s' in Hopen, Hcount.
  split; [rewrite Hopen; reflexivity|].
  split; [vm_compute; reflexivity|].
  split; [rewrite Hcount; vm_compute; reflexivity|].
  vm_compute. reflexivity.
Defined.

(** ** Spot trades *)

Section Spot.

Import TradingSystem.

Lemma spot_buy_result s w sym price_ qty :
  let q := SpotSpec.bought s price_ qty in
  let fee := q * price_ * spot_trading_fee (config s) in
  fst (spot_buy s w sym price_ qty) = true ->
  q * price_ <= available_balance s /\
  min_spot_amount (config s) <= q * price_ /\
  spot_buy_order w sym q price_ = Return true /\
  exists holding,
    spot_holdings (snd (spot_buy s w sym price_ qty)) = <[sym := holding]> (spot_holdings s) /\
    sh_quantity holding
    = match spot_holdings s !! sym with Some h => sh_quantity h | None => 0 end + q /\
    sh_total_cost holding
    = match spot_holdings s !! sym with Some h => sh_total_cost h | None => 0 end
      + q * price_ /\
    sh_avg_price holding
    = (if Qlt_le_dec 0 (sh_quantity holding)
       then sh_total_cost holding / sh_quantity holding else 0) /\
    available_balance (snd (spot_buy s w sym price_ qty))
    = available_balance s - (q * price_ + fee) /\
    balance (snd (spot_buy s w sym price_ qty)) = balance s /\
    daily_pnl (snd (spot_buy s w sym price_ qty)) = daily_pnl s /\
    config (snd (spot_buy s w sym price_ qty)) = config s /\
    length (trade_records (snd (spot_buy s w sym price_ qty)))
    = S (length (trade_records s)).
Proof.
  intros q fee. subst fee. unfold spot_buy. fold (SpotSpec.bought s price_ qty). fold q.
  cbv zeta.
  destruct (Qlt_le_dec (available_balance s) (q * price_)) as [|Hfunds]; [discriminate|].
  destruct (Qlt_le_dec (q * price_) (min_spot_amount (config s))) as [|Hmin]; [discriminate|].
  destruct (spot_buy_order w sym q price_) as [|[|]] eqn:Ho; try discriminate.
  intros _. split; [exact Hfunds|]. split; [exact Hmin|]. split; [reflexivity|].
  eexists. split; [reflexivity|]. cbn.
  destruct (spot_holdings s !! sym); cbn; rewrite length_app; cbn;
    repeat split; try reflexivity; lia.
Qed.

Lemma spot_sell_result s w sym price_ :
  fst (spot_sell s w sym price_ None) = true ->
  exists h holding,
    spot_holdings s !! sym = Some h /\ 0 < sh_quantity h /\
    spot_sell_order w sym (sh_quantity h) price_ = Return true /\
    spot_holdings (snd (spot_sell s w sym price_ None)) = <[sym := holding]> (spot_holdings s) /\
    sh_quantity holding = sh_quantity h - sh_quantity h /\
    sh_total_cost holding
    = sh_total_cost h * ((sh_quantity h - sh_quantity h) / sh_quantity h) /\
    available_balance (snd (spot_sell s w sym price_ None))
    = available_balance s
      + (sh_quantity h * price_
         - sh_quantity h * price_ * spot_trading_fee (config s)) /\
    balance (snd (spot_sell s w sym price_ None))
    = available_balance (snd (spot_sell s w sym price_ None)) /\
    daily_pnl (snd (spot_sell s w sym price_ None))
    = daily_pnl s
      + ((price_ - sh_avg_price h) * sh_quantity h
         - sh_quantity h * price_ * spot_trading_fee (config s)).
Proof.
  unfold spot_sell. destruct (spot_holdings s !! sym) as [h|] eqn:Hh; [|discriminate].
  destruct (Qlt_le_dec 0 (sh_quantity h)) as [Hpos|]; [|discriminate].
  destruct (Qlt_le_dec (sh_quantity h) (sh_quantity h)) as [|_]; [discriminate|].
  destruct (spot_sell_order w sym (sh_quantity h) price_) as [|[|]] eqn:Ho; try discriminate.
  intros _. exists h. eexists. split; [reflexivity|]. split; [exact Hpos|].
  split; [exact Ho|]. cbn. repeat split; reflexivity.
Qed.

End Spot.

(** X14.  A spot round trip from a flat holding: after a successful
    [spot_buy] of a quantity at one price and a successful [spot_sell]
    of the whole holding at another, the holding is flat again, the
    available balance has changed by the price difference on the
    quantity less both fees, and the balance is set to the available
    balance.  The daily profit has changed by the price difference less
    the selling fee only: the buying fee is taken from the available
    balance and never booked as a loss of the day. *)
Theorem spot_round_trip_books_one_fee
    (s : TradingSystem.t) (w1 w2 : TradingSystem.World) (sym : string)
    (p1 p2 : Q) (qty : option Q) :
  SpotSpec.flat s sym ->
  let s1 := snd (TradingSystem.spot_buy s w1 sym p1 qty) in
  let s2 := snd (TradingSystem.spot_sell s1 w2 sym p2 None) in
  let q := SpotSpec.bought s p1 qty in
  let fee := TradingSystem.spot_trading_fee (TradingSystem.config s) in
  fst (TradingSystem.spot_buy s w1 sym p1 qty) = true ->
  fst (TradingSystem.spot_sell s1 w2 sym p2 None) = true ->
  0 < q /\
  SpotSpec.flat s2 sym /\
  TradingSystem.available_balance s2
  == TradingSystem.available_balance s + (p2 - p1) * q - q * p1 * fee - q * p2 * fee /\
  TradingSystem.balance s2 = TradingSystem.available_balance s2 /\
  TradingSystem.daily_pnl s2
  == TradingSystem.daily_pnl s + (p2 - p1) * q - q * p2 * fee.
Proof.
  intros Hflat s1 s2 q fee Hbuy Hsell.
  destruct (spot_buy_result s w1 sym p1 qty Hbuy)
    as (_ & _ & _ & h1 & Hh1 & Hq1 & Hc1 & Ha1 & Hav1 & _ & Hd1 & Hcfg1 & _).
  fold s1 in Hh1, Hav1, Hd1, Hcfg1. fold q in Hq1, Hc1, Hav1.
  destruct (spot_sell_result s1 w2 sym p2 Hsell)
    as (h & h2 & Hh & Hpos & _ & Hh2 & Hq2 & Hc2 & Hav2 & Hb2 & Hd2).
  fold s2 in Hh2, Hav2, Hb2, Hd2.
  rewrite Hh1, lookup_insert_eq in Hh. injection Hh as <-.
  assert (Hq0 : TradingSystem.sh_quantity h1 == q /\
                TradingSystem.sh_total_cost h1 == q * p1).
  { unfold SpotSpec.flat in Hflat. rewrite Hq1, Hc1.
    destruct (TradingSystem.spot_holdings s !! sym) as [h0|].
    - destruct Hflat as (E1 & E2). rewrite E1, E2. split; ring.
    - split; ring. }
  destruct Hq0 as (Eq & Ec).
  assert (Hqpos : 0 < q) by (rewrite <- Eq; exact Hpos).
  assert (Havg : TradingSystem.sh_avg_price h1 * TradingSystem.sh_quantity h1 == q * p1).
  { rewrite Ha1. destruct (Qlt_le_dec 0 (TradingSystem.sh_quantity h1)) as [_|Hle]; [|lra].
    rewrite <- Ec. field. lra. }
  split; [exact Hqpos|]. split; [|split; [|split]].
  - unfold SpotSpec.flat. rewrite Hh2, lookup_insert_eq. rewrite Hq2, Hc2.
    split; [ring|].
    field. lra.
  - rewrite Hav2, Hav1, Hcfg1. fold fee. rewrite Eq. ring.
  - exact Hb2.
  - rewrite Hd2, Hd1, Hcfg1. fold fee.
    assert (E : (p2 - TradingSystem.sh_avg_price h1) * TradingSystem.sh_quantity h1
                == p2 * TradingSystem.sh_quantity h1
                   - TradingSystem.sh_avg_price h1 * TradingSystem.sh_quantity h1) by ring.
    rewrite E, Havg, Eq. ring.
Qed.

Lemma spot_round_trip_books_one_fee_witness :
  let s := Book.system TradingSystem.default_config [] 0 in
  let s1 := snd (TradingSystem.spot_buy s SpotSpec.open_market "BTC-USDT" 50 None) in
  let s2 := snd (TradingSystem.spot_sell s1 SpotSpec.open_market "BTC-USDT" 50 None) in
  TradingSystem.available_balance s2 == 100 - 0.04 /\
  TradingSystem.daily_pnl s2 == - 0.02.
Proof.
  intros s s1 s2.
  destruct (spot_round_trip_books_one_fee s SpotSpec.open_market SpotSpec.open_market
              "BTC-USDT" 50 50 None) as (_ & _ & Ha & _ & Hd).
  - exact I.
  - reflexivity.
  - reflexivity.
  - fold s1 in Ha, Hd. fold s2 in Ha, Hd. split.
    + rewrite Ha. vm_compute. reflexivity.
    + rewrite Hd. vm_compute. reflexivity.
Defined.

(** X15.  [spot_buy] compares the available balance with the cost of
    the order without the fee.  A buy the exchange accepts whose cost
    fits into the available balance, while cost plus fee does not,
    succeeds and leaves a negative available balance. *)
Theorem spot_buy_can_overdraw_by_the_fee
    (s : TradingSystem.t) (w : TradingSystem.World) (sym : string)
    (price_ : Q) (qty : option Q) :
  let q := SpotSpec.bought s price_ qty in
  let cost := q * price_ in
  let fee := cost * TradingSystem.spot_trading_fee (TradingSystem.config s) in
  let s' := snd (TradingSystem.spot_buy s w sym price_ qty) in
  TradingSystem.min_spot_amount (TradingSystem.config s) <= cost ->
  cost <= TradingSystem.available_balance s ->
  TradingSystem.available_balance s < cost + fee ->
  TradingSystem.spot_buy_order w sym q price_ = Return true ->
  fst (TradingSystem.spot_buy s w sym price_ qty) = true /\
  TradingSystem.available_balance s' = TradingSystem.available_balance s - (cost + fee) /\
  TradingSystem.available_balance s' < 0.
Proof.
  intros q cost fee s' Hmin Hfunds Hfee Ho.
  assert (Hs : fst (TradingSystem.spot_buy s w sym price_ qty) = true).
  { unfold TradingSystem.spot_buy. fold (SpotSpec.bought s price_ qty). fold q.
    cbv zeta. fold cost.
    destruct (Qlt_le_dec (TradingSystem.available_balance s) cost); [lra|].
    destruct (Qlt_le_dec cost (TradingSystem.min_spot_amount (TradingSystem.config s)));
      [lra|].
    rewrite Ho. reflexivity. }
  destruct (spot_buy_result s w sym price_ qty Hs)
    as (_ & _ & _ & h1 & _ & _ & _ & _ & Hav & _).
  fold s' in Hav. fold q in Hav. fold cost in Hav. fold fee in Hav.
  split; [exact Hs|]. split; [exact Hav|]. rewrite Hav. lra.
Qed.

Lemma spot_buy_can_overdraw_by_the_fee_witness :
  let s := Book.system TradingSystem.default_config [] 0 in
  TradingSystem.available_balance
    (snd (TradingSystem.spot_buy s SpotSpec.open_market "BTC-USDT" 50 (Some 2))) < 0.
Proof.
  intros s.
  destruct (spot_buy_can_overdraw_by_the_fee s SpotSpec.open_market "BTC-USDT" 50 (Some 2))
    as (_ & _ & H); [vm_compute; discriminate | vm_compute; discriminate
                    | reflexivity | reflexivity | exact H].
Defined.

(** ** Closing every position *)

Section CloseEverything.

Import TradingSystem Desk.

Lemma close_position_keys s w pid reason :
  map fst (positions (snd (close_position s w pid reason))) = map fst (positions s).
Proof.
  destruct (close_position_cases s w pid reason) as [Hs|(_ & ->)]; [|reflexivity].
  assert (Ht : fst (fst (close_position s w pid reason)) = true) by (rewrite Hs; reflexivity).
  destruct (close_position_result s w pid reason Ht) as (position & p & Hget & _ & _ & _ & Hres).
  cbv zeta in Hres. rewrite Hres.
  destruct (smart_stoploss s); cbn; apply dict_set_keys_present;
    apply list_elem_of_In; apply (in_map fst) with (x := (pid, position));
    apply dict_get_In; exact Hget.
Qed.

Lemma close_position_other s w pid reason k :
  k <> pid ->
  dict_get k (positions (snd (close_position s w pid reason))) = dict_get k (positions s).
Proof.
  intros Hne.
  destruct (close_position_cases s w pid reason) as [Hs|(_ & ->)]; [|reflexivity].
  assert (Ht : fst (fst (close_position s w pid reason)) = true) by (rewrite Hs; reflexivity).
  destruct (close_position_result s w pid reason Ht) as (position & p & _ & _ & _ & _ & Hres).
  cbv zeta in Hres. rewrite Hres.
  destruct (smart_stoploss s); cbn; apply dict_get_set_ne; congruence.
Qed.

Lemma close_position_stays_closed s w pid reason k p :
  dict_get k (positions s) = Some p -> is_closed p = true ->
  dict_get k (positions (snd (close_position s w pid reason))) = Some p.
Proof.
  intros Hget Hp. destruct (decide (k = pid)) as [->|Hne].
  - rewrite (close_position_closed s w pid reason p Hget); [exact Hget|].
    unfold is_closed in Hp. destruct (status p); [discriminate|reflexivity].
  - rewrite close_position_other by exact Hne. exact Hget.
Qed.

Lemma close_position_accepted s w pid reason p :
  accepts_all w -> dict_get pid (positions s) = Some p -> status p = OPEN ->
  exists p', dict_get pid (positions (snd (close_position s w pid reason))) = Some p' /\
             is_closed p' = true.
Proof.
  intros Hw Hget Hopen.
  assert (Ht : fst (fst (close_position s w pid reason)) = true).
  { unfold close_position. rewrite Hget, Hopen.
    destruct (Hw (symbol p) (position_type p)) as (Hprice & Horder).
    destruct (price w (symbol p)); [|contradiction]. rewrite Horder. reflexivity. }
  destruct (close_position_success s w pid reason Ht) as (_ & p' & _ & _ & Hget' & Hst & _).
  exists p'. split; [exact Hget'|]. unfold is_closed. rewrite Hst. reflexivity.
Qed.

Lemma close_position_refused s w pid reason :
  (forall sym pt, close_order w sym pt <> Return true) ->
  close_position s w pid reason = (fst (close_position s w pid reason), s) /\
  fst (fst (close_position s w pid reason)) = false.
Proof.
  intros Hw. unfold close_position.
  destruct (dict_get pid (positions s)) as [p|]; [|split; reflexivity].
  destruct (status p); [|split; reflexivity].
  destruct (price w (symbol p)); [|split; reflexivity].
  pose proof (Hw (symbol p) (position_type p)) as Hne.
  destruct (close_order w (symbol p) (position_type p)) as [|[|]];
    [split; reflexivity | congruence | split; reflexivity].
Qed.

(** The loop over the positions that were open at the start, as both
    [close_all_positions] and [emergency_stop] run it. *)
Lemma close_each_state s w l :
  snd (close_each s w l)
  = fold_left (fun acc position =>
                 snd (close_position acc w (position_id position) "EMERGENCY_STOP")) l s.
Proof.
  revert s. induction l as [|a l IH]; intros s; [reflexivity|].
  cbn [close_each fold_left].
  destruct (close_position s w (position_id a) "EMERGENCY_STOP") as [[success message] s1].
  specialize (IH s1). destruct (close_each s1 w l) as [results s2]. exact IH.
Qed.

Lemma close_each_length s w l : length (fst (close_each s w l)) = length l.
Proof.
  revert s. induction l as [|a l IH]; intros s; [reflexivity|].
  cbn [close_each].
  destruct (close_position s w (position_id a) "EMERGENCY_STOP") as [[success message] s1].
  specialize (IH s1). destruct (close_each s1 w l) as [results s2].
  cbn in *. rewrite IH. reflexivity.
Qed.

Lemma close_loop_keys w reason (l : list TradingPosition) : forall s,
  map fst (positions
    (fold_left (fun acc position => snd (close_position acc w (position_id position) reason))
       l s)) = map fst (positions s).
Proof.
  induction l as [|a l IH]; intros s; [reflexivity|].
  cbn [fold_left]. rewrite IH. apply close_position_keys.
Qed.

Lemma close_loop_auto_trading w reason (l : list TradingPosition) : forall s,
  auto_trading
    (fold_left (fun acc position => snd (close_position acc w (position_id position) reason))
       l s) = auto_trading s.
Proof.
  induction l as [|a l IH]; intros s; [reflexivity|].
  cbn [fold_left]. rewrite IH.
  destruct (close_position_cases s w (position_id a) reason) as [Hs|(_ & ->)]; [|reflexivity].
  assert (Ht : fst (fst (close_position s w (position_id a) reason)) = true)
    by (rewrite Hs; reflexivity).
  destruct (close_position_result s w _ reason Ht) as (position & p & _ & _ & _ & _ & Hres).
  cbv zeta in Hres. rewrite Hres. destruct (smart_stoploss s); reflexivity.
Qed.

Lemma close_loop_closes w reason (l : list TradingPosition) : forall s k,
  accepts_all w ->
  k ∈ map position_id l \/
    (exists p, dict_get k (positions s) = Some p /\ is_closed p = true) ->
  k ∈ map fst (positions s) ->
  exists p',
    dict_get k (positions
      (fold_left (fun acc position => snd (close_position acc w (position_id position) reason))
         l s)) = Some p' /\ is_closed p' = true.
Proof.
  induction l as [|a l IH]; intros s k Hw Hk Hin.
  - destruct Hk as [Hk|Hk]; [apply elem_of_nil in Hk; destruct Hk | exact Hk].
  - cbn [fold_left]. apply IH; [exact Hw| |rewrite close_position_keys; exact Hin].
    destruct (dict_get k (positions s)) as [p|] eqn:Hget.
    2:{ apply dict_get_None in Hget. contradiction. }
    destruct (is_closed p) eqn:Hp.
    { right. exists p. split; [|exact Hp].
      apply close_position_stays_closed; assumption. }
    destruct Hk as [Hk|(p0 & Hp0 & Hc0)]; [|congruence].
    cbn [map] in Hk. apply elem_of_cons in Hk. destruct Hk as [->|Hk]; [|left; exact Hk].
    right. apply (close_position_accepted s w (position_id a) reason p Hw Hget).
    unfold is_closed in Hp. destruct (status p); [reflexivity|discriminate].
Qed.

Lemma close_loop_refused w reason (l : list TradingPosition) : forall s,
  (forall sym pt, close_order w sym pt <> Return true) ->
  fold_left (fun acc position => snd (close_position acc w (position_id position) reason))
    l s = s.
Proof.
  induction l as [|a l IH]; intros s Hw; [reflexivity|].
  cbn [fold_left]. destruct (close_position_refused s w (position_id a) reason Hw) as (E & _).
  rewrite E. cbn [snd]. apply IH. exact Hw.
Qed.

Lemma open_positions_ids book k p :
  book_ok book -> dict_get k book = Some p -> is_open p = true ->
  k ∈ map position_id (List.filter is_open (map snd book)).
Proof.
  intros Hok Hget Hp. rewrite <- (book_ok_id book k p Hok Hget).
  apply list_elem_of_In. apply in_map. apply List.filter_In. split; [|exact Hp].
  apply (in_map snd) with (x := (k, p)). apply dict_get_In. exact Hget.
Qed.

Lemma no_open_left book :
  NoDup (map fst book) ->
  (forall k, k ∈ map fst book ->
     exists p, dict_get k book = Some p /\ is_closed p = true) ->
  List.filter is_open (map snd book) = [] /\
  length (List.filter (fun '(_, position) => is_closed position) book) = length book.
Proof.
  intros Hnd Hall.
  assert (Hc : forall k p, In (k, p) book -> is_closed p = true).
  { intros k p Hin. destruct (Hall k) as (p' & Hget & Hp').
    - apply list_elem_of_In. apply (in_map fst) with (x := (k, p)). exact Hin.
    - rewrite (In_dict_get k p book Hnd Hin) in Hget. congruence. }
  clear Hnd Hall. induction book as [|[k p] book IH]; [split; reflexivity|].
  cbn. rewrite is_open_not_closed, (Hc k p (or_introl eq_refl)). cbn.
  destruct IH as (IH1 & IH2); [intros k' p' Hin; eapply Hc; right; exact Hin|].
  rewrite IH1, IH2. split; reflexivity.
Qed.

Lemma close_position_accepted_flag s w pid reason p :
  accepts_all w -> dict_get pid (positions s) = Some p -> status p = OPEN ->
  fst (fst (close_position s w pid reason)) = true.
Proof.
  intros Hw Hget Hopen. unfold close_position. rewrite Hget, Hopen.
  destruct (Hw (symbol p) (position_type p)) as (Hprice & Horder).
  destruct (price w (symbol p)); [|contradiction]. rewrite Horder. reflexivity.
Qed.

Lemma open_ids_in_keys (book : list (string * TradingPosition)) k :
  Forall (fun '(k, position) => position_id position = k) book ->
  k ∈ map position_id (List.filter is_open (map snd book)) -> k ∈ map fst book.
Proof.
  induction book as [|[k0 p0] book IH]; intros Hid Hin; [exact Hin|].
  apply Forall_cons in Hid. destruct Hid as (Hid0 & Hid).
  cbn in Hin |- *. destruct (is_open p0); cbn in Hin.
  - apply elem_of_cons in Hin. apply elem_of_cons. destruct Hin as [->|Hin]; [left; exact Hid0|].
    right. apply IH; assumption.
  - apply elem_of_cons. right. apply IH; assumption.
Qed.

Lemma open_ids_NoDup (book : list (string * TradingPosition)) :
  book_ok book -> NoDup (map position_id (List.filter is_open (map snd book))).
Proof.
  intros (Hnd & Hid). induction book as [|[k0 p0] book IH]; [constructor|].
  apply NoDup_cons in Hnd. destruct Hnd as (Hnotin & Hnd).
  apply Forall_cons in Hid. destruct Hid as (Hid0 & Hid).
  cbn. destruct (is_open p0); cbn; [|apply IH; assumption].
  apply NoDup_cons. split; [|apply IH; assumption].
  intros Hin. apply Hnotin. rewrite <- Hid0. apply open_ids_in_keys; assumption.
Qed.

Lemma close_each_all_succeed w (l : list TradingPosition) : forall s,
  accepts_all w -> NoDup (map position_id l) ->
  (forall a, In a l ->
     exists p, dict_get (position_id a) (positions s) = Some p /\ status p = OPEN) ->
  Forall (fun r => cr_success r = true) (fst (close_each s w l)).
Proof.
  induction l as [|a l IH]; intros s Hw Hnd Hopen; [constructor|].
  cbn [close_each]. cbn [map] in Hnd. apply NoDup_cons in Hnd. destruct Hnd as (Hnotin & Hnd).
  destruct (Hopen a (or_introl eq_refl)) as (p & Hget & Hst).
  pose proof (close_position_accepted_flag s w (position_id a) "EMERGENCY_STOP" p Hw Hget Hst)
    as Hflag.
  pose proof (fun k => close_position_other s w (position_id a) "EMERGENCY_STOP" k) as Hother.
  destruct (close_position s w (position_id a) "EMERGENCY_STOP") as [[success message] s1].
  cbn in Hflag, Hother. subst success.
  specialize (IH s1 Hw Hnd).
  destruct (close_each s1 w l) as [results s2]. cbn in IH |- *.
  constructor; [reflexivity|]. apply IH.
  intros b Hb. destruct (Hopen b (or_intror Hb)) as (q & Hq & Hqs).
  exists q. split; [|exact Hqs]. rewrite Hother; [exact Hq|].
  intros E. apply Hnotin. rewrite <- E. apply list_elem_of_In. apply in_map. exact Hb.
Qed.

End CloseEverything.

(** X16.  With a book keyed by position id and an exchange that has a
    price for every instrument and accepts every close, no open position
    is left after [close_all_positions] or [emergency_stop]: every
    position of the book is closed, the book has the keys it had, every
    close of [emergency_stop] reports success, and automatic trading is
    off after [emergency_stop]. *)
Theorem closing_everything_leaves_no_open_position
    (s : TradingSystem.t) (w : TradingSystem.World) (reason : string) :
  Desk.book_ok (TradingSystem.positions s) -> Desk.accepts_all w ->
  let s1 := TradingSystem.close_all_positions s w reason in
  let s2 := snd (Desk.emergency_stop s w) in
  (TradingSystem.get_open_positions s1 = [] /\
   Book.closed_count s1 = length (TradingSystem.positions s) /\
   map fst (TradingSystem.positions s1) = map fst (TradingSystem.positions s)) /\
  (TradingSystem.get_open_positions s2 = [] /\
   Book.closed_count s2 = length (TradingSystem.positions s) /\
   map fst (TradingSystem.positions s2) = map fst (TradingSystem.positions s) /\
   TradingSystem.auto_trading s2 = false /\
   Forall (fun r => Desk.cr_success r = true)
     (Desk.closed_positions (fst (Desk.emergency_stop s w)))).
Proof.
  intros Hok Hw s1 s2.
  assert (Hloop : forall (s0 : TradingSystem.t) reason0,
    Desk.book_ok (TradingSystem.positions s0) ->
    let s' := fold_left (fun acc position =>
                snd (TradingSystem.close_position acc w
                       (TradingSystem.position_id position) reason0))
                (TradingSystem.get_open_positions s0) s0 in
    TradingSystem.get_open_positions s' = [] /\
    Book.closed_count s' = length (TradingSystem.positions s0) /\
    map fst (TradingSystem.positions s') = map fst (TradingSystem.positions s0)).
  { intros s0 reason0 Hok0 s'.
    pose proof (close_loop_keys w reason0 (TradingSystem.get_open_positions s0) s0) as Hkeys.
    fold s' in Hkeys.
    destruct (no_open_left (TradingSystem.positions s')) as (H1 & H2).
    - rewrite Hkeys. apply Hok0.
    - intros k Hk. rewrite Hkeys in Hk. subst s'.
      apply close_loop_closes; [exact Hw| |exact Hk].
      destruct (dict_get k (TradingSystem.positions s0)) as [p|] eqn:Hget.
      2:{ apply dict_get_None in Hget. contradiction. }
      destruct (TradingSystem.is_open p) eqn:Hp.
      + left. eapply open_positions_ids; eassumption.
      + right. exists p. split; [reflexivity|].
        rewrite is_open_not_closed in Hp. destruct (TradingSystem.is_closed p);
          [reflexivity|discriminate].
    - split; [exact H1|]. split; [|exact Hkeys].
      unfold Book.closed_count. rewrite H2.
      rewrite <- (length_map fst), Hkeys, length_map. reflexivity. }
  split; [exact (Hloop s reason Hok)|].
  subst s2. unfold Desk.emergency_stop.
  set (s0 := if TradingSystem.auto_trading s
             then snd (Desk.stop_auto_trading_outside s) else s).
  assert (Hp0 : TradingSystem.positions s0 = TradingSystem.positions s).
  { subst s0. unfold Desk.stop_auto_trading_outside.
    destruct (TradingSystem.auto_trading s); reflexivity. }
  assert (Ha0 : TradingSystem.auto_trading s0 = false).
  { subst s0. unfold Desk.stop_auto_trading_outside.
    destruct (TradingSystem.auto_trading s) eqn:E; [reflexivity|exact E]. }
  assert (Hok0 : Desk.book_ok (TradingSystem.positions s0)) by (rewrite Hp0; exact Hok).
  pose proof (close_each_state s0 w (TradingSystem.get_open_positions s0)) as Hstate.
  pose proof (close_each_all_succeed w (TradingSystem.get_open_positions s0) s0 Hw
                (open_ids_NoDup _ Hok0)) as Hall.
  destruct (Desk.close_each s0 w (TradingSystem.get_open_positions s0)) as [results s3].
  cbn [fst snd Desk.closed_positions] in *. subst s3.
  destruct (Hloop s0 "EMERGENCY_STOP"%string Hok0) as (H1 & H2 & H3).
  rewrite Hp0 in H2, H3.
  split; [exact H1|]. split; [exact H2|]. split; [exact H3|]. split.
  - rewrite close_loop_auto_trading. exact Ha0.
  - apply Hall. intros a Ha. unfold TradingSystem.get_open_positions in Ha.
    apply List.filter_In in Ha. destruct Ha as (Ha & Hopen).
    apply in_map_iff in Ha. destruct Ha as ([k p] & E & Hin). cbn in E. subst p.
    destruct Hok0 as (Hnd & Hid).
    pose proof (In_dict_get k a _ Hnd Hin) as Hget.
    rewrite List.Forall_forall in Hid. specialize (Hid (k, a) Hin). cbn in Hid.
    exists a. rewrite Hid. split; [exact Hget|].
    unfold TradingSystem.is_open in Hopen. destruct (TradingSystem.status a);
      [reflexivity|discriminate].
Qed.

Lemma closing_everything_leaves_no_open_position_witness :
  let s := Book.system TradingSystem.default_config Ledger.crowded 0 in
  TradingSystem.get_open_positions (snd (Desk.emergency_stop s Book.eager)) = [] /\
  Book.closed_count (snd (Desk.emergency_stop s Book.eager)) = 102%nat.
Proof.
  intros s.
  destruct (closing_everything_leaves_no_open_position s Book.eager "MANUAL")
    as (_ & H1 & H2 & _).
  - split; [apply (bool_decide_unpack _); vm_compute; reflexivity|].
    apply (bool_decide_unpack _). vm_compute. reflexivity.
  - intros sym pt. split; [discriminate|reflexivity].
  - split; [exact H1|]. rewrite H2. vm_compute. reflexivity.
Defined.

(** X17.  The report of [emergency_stop] counts the positions that were
    open when it started, not the closes that succeeded.  When the
    exchange accepts no close, the book is left exactly as it was and
    no entry of the report is a success, yet the report says success and
    gives the number of open positions as [positions_closed]; automatic
    trading is off all the same. *)
Theorem emergency_stop_reports_attempts
    (s : TradingSystem.t) (w : TradingSystem.World) :
  (forall sym pt, TradingSystem.close_order w sym pt <> Return true) ->
  let report := fst (Desk.emergency_stop s w) in
  let s' := snd (Desk.emergency_stop s w) in
  Desk.er_success report = true /\
  Desk.positions_closed report = Book.open_count s /\
  length (Desk.closed_positions report) = Book.open_count s /\
  Forall (fun r => Desk.cr_success r = false) (Desk.closed_positions report) /\
  TradingSystem.positions s' = TradingSystem.positions s /\
  Book.open_count s' = Book.open_count s /\
  TradingSystem.auto_trading s' = false.
Proof.
  intros Hw report s'. subst report s'. unfold Desk.emergency_stop.
  set (s0 := if TradingSystem.auto_trading s
             then snd (Desk.stop_auto_trading_outside s) else s).
  assert (Hp0 : TradingSystem.positions s0 = TradingSystem.positions s).
  { subst s0. unfold Desk.stop_auto_trading_outside.
    destruct (TradingSystem.auto_trading s); reflexivity. }
  assert (Ha0 : TradingSystem.auto_trading s0 = false).
  { subst s0. unfold Desk.stop_auto_trading_outside.
    destruct (TradingSystem.auto_trading s) eqn:E; [reflexivity|exact E]. }
  assert (Hopen0 : TradingSystem.get_open_positions s0 = TradingSystem.get_open_positions s).
  { unfold TradingSystem.get_open_positions. rewrite Hp0. reflexivity. }
  pose proof (close_each_state s0 w (TradingSystem.get_open_positions s0)) as Hstate.
  pose proof (close_each_length s0 w (TradingSystem.get_open_positions s0)) as Hlen.
  assert (Hfail : Forall (fun r => Desk.cr_success r = false)
                    (fst (Desk.close_each s0 w (TradingSystem.get_open_positions s0)))).
  { generalize (TradingSystem.get_open_positions s0) as l. intros l. generalize s0 as s1.
    induction l as [|a l IH]; intros s1; [constructor|].
    cbn [Desk.close_each].
    destruct (close_position_refused s1 w (TradingSystem.position_id a) "EMERGENCY_STOP" Hw)
      as (E & Hf).
    destruct (TradingSystem.close_position s1 w (TradingSystem.position_id a) "EMERGENCY_STOP")
      as [[success message] s2].
    cbn in Hf. subst success. specialize (IH s2).
    destruct (Desk.close_each s2 w l) as [results s3]. cbn in *.
    constructor; [reflexivity|exact IH]. }
  destruct (Desk.close_each s0 w (TradingSystem.get_open_positions s0)) as [results s3].
  cbn [fst snd Desk.closed_positions Desk.positions_closed Desk.er_success] in *.
  rewrite close_loop_refused in Hstate by exact Hw. subst s3.
  unfold Book.open_count. rewrite Hopen0 in *.
  repeat split; assumption.
Qed.

Lemma emergency_stop_reports_attempts_witness :
  let s := Book.system TradingSystem.default_config Ledger.crowded 0 in
  let w := Markets.closed_market in
  Desk.positions_closed (fst (Desk.emergency_stop s w)) = 1%nat /\
  TradingSystem.positions (snd (Desk.emergency_stop s w)) = TradingSystem.positions s.
Proof.
  intros s w.
  destruct (emergency_stop_reports_attempts s w) as (_ & H1 & _ & _ & H2 & _).
  - intros sym pt. discriminate.
  - split; [rewrite H1; vm_compute; reflexivity | exact H2].
Defined.

(** ** The signals of the SMC analysis *)

Section Signals.

Import Analysis.

Lemma nan_lt_true a b : Nan.lt a b = true -> exists x y, a = Some x /\ b = Some y /\ x < y.
Proof.
  destruct a as [x|], b as [y|]; try discriminate. cbn. intros H.
  apply Qltb_true in H. exists x, y. repeat split. exact H.
Qed.

Lemma nan_lt_asym a b : Nan.lt a b = true -> Nan.lt b a = false.
Proof.
  intros H. destruct (nan_lt_true a b H) as (x & y & -> & -> & Hlt).
  cbn. apply Qltb_false. lra.
Qed.

Lemma rsi_votes_once rsi : Nan.lt rsi (Some 35) = true -> Nan.lt (Some 65) rsi = false.
Proof.
  intros H. destruct (nan_lt_true _ _ H) as (x & y & -> & [= <-] & Hlt).
  cbn. apply Qltb_false. lra.
Qed.

Lemma signal_count current_price rsi macd macd_signal support_levels resistance_levels :
  let signals :=
    generate_trading_signals current_price rsi macd macd_signal
      support_levels resistance_levels in
  (length (buy_signals signals) + length (sell_signals signals) <= 4)%nat.
Proof.
  cbv zeta. unfold generate_trading_signals. cbn [buy_signals sell_signals].
  pose proof (rsi_votes_once rsi) as Hrsi.
  pose proof (nan_lt_asym macd_signal macd) as Hmacd.
  rewrite !length_app.
  destruct (Nan.lt rsi (Some 35)); [rewrite (Hrsi eq_refl)|];
    (destruct (Nan.lt macd_signal macd); [rewrite (Hmacd eq_refl)|]);
    repeat match goal with
           | |- context [match ?x with Some _ => _ | None => _ end] => destruct x
           | |- context [if ?b then _ else _] => destruct b
           end; cbn; lia.
Qed.

Lemma of_nat_le n m : (n <= m)%nat -> of_nat n <= of_nat m.
Proof. intros H. unfold of_nat. rewrite <- Zle_Qle. lia. Qed.

Lemma signal_confidence_bound current_price rsi macd macd_signal support_levels
    resistance_levels :
  sg_confidence
    (generate_trading_signals current_price rsi macd macd_signal
       support_levels resistance_levels) <= 2 / 3.
Proof.
  pose proof (signal_count current_price rsi macd macd_signal support_levels
                resistance_levels) as H.
  cbv zeta in H. apply of_nat_le in H. change (of_nat 4) with (4 : Q) in H.
  set (signals := generate_trading_signals current_price rsi macd macd_signal
                    support_levels resistance_levels) in *.
  assert (E : sg_confidence signals
              = of_nat (length (buy_signals signals) + length (sell_signals signals)) / 6)
    by reflexivity.
  rewrite E. apply Qle_shift_div_r; [reflexivity|].
  apply Qle_trans with 4; [exact H | discriminate].
Qed.

Lemma min_by_spec {A : Type} (key : A -> Q) (xs : list A) : forall x0,
  In (min_by key x0 xs) (x0 :: xs) /\
  forall x, In x (x0 :: xs) -> key (min_by key x0 xs) <= key x.
Proof.
  unfold min_by. induction xs as [|y xs IH]; intros x0.
  - cbn. split; [left; reflexivity|]. intros x [<-|[]]. lra.
  - cbn [fold_left]. destruct (Qltb (key y) (key x0)) eqn:Hlt.
    + apply Qltb_true in Hlt. destruct (IH y) as (Hin & Hmin). split.
      * destruct Hin as [<-|Hin]; [right; left; reflexivity | right; right; exact Hin].
      * intros x [<-|[<-|Hx]].
        -- pose proof (Hmin y (or_introl eq_refl)). lra.
        -- apply Hmin. left. reflexivity.
        -- apply Hmin. right. exact Hx.
    + apply Qltb_false in Hlt. destruct (IH x0) as (Hin & Hmin). split.
      * destruct Hin as [<-|Hin]; [left; reflexivity | right; right; exact Hin].
      * intros x [<-|[<-|Hx]].
        -- apply Hmin. left. reflexivity.
        -- pose proof (Hmin x0 (or_introl eq_refl)). lra.
        -- apply Hmin. right. exact Hx.
Qed.

End Signals.

(** X18.  [generate_trading_signals] never gives more than four signals:
    the two RSI signals exclude each other and so do the two MACD
    signals.  Its confidence, the number of signals over six, is
    therefore at most 2/3, and with a threshold above 2/3, as the default
    0.7 is, [_get_trading_signal_with_confidence] never returns the
    signal of such an analysis: it always falls back to the technical
    signal. *)
Theorem generated_signals_stay_below_the_threshold
    (current_price : Q) (rsi macd macd_signal : option Q)
    (support_levels resistance_levels : list Analysis.Level)
    (c : Desk.SmcSwitch) (technical : TradingSystem.Signal * Q) :
  2 / 3 < Desk.smc_confidence_threshold c ->
  let signals :=
    Analysis.generate_trading_signals current_price rsi macd macd_signal
      support_levels resistance_levels in
  (length (Analysis.buy_signals signals) + length (Analysis.sell_signals signals) <= 4)%nat /\
  Analysis.sg_confidence signals <= 2 / 3 /\
  Desk._get_trading_signal_with_confidence c (Some signals) technical = technical.
Proof.
  intros Hc signals.
  pose proof (signal_count current_price rsi macd macd_signal support_levels
                resistance_levels) as Hn.
  pose proof (signal_confidence_bound current_price rsi macd macd_signal support_levels
                resistance_levels) as Hb.
  cbv zeta in Hn. fold signals in Hn, Hb.
  split; [exact Hn|]. split; [exact Hb|].
  unfold Desk._get_trading_signal_with_confidence, Desk._get_smc_trading_signal.
  destruct (Desk.smc_enabled c && Desk.has_smc_strategy c && Desk.use_smc_signals c);
    [|reflexivity].
  assert (Hlt : Qltb (Analysis.sg_confidence signals) (Desk.smc_confidence_threshold c) = true)
    by (apply Qltb_true; lra).
  clearbody signals.
  destruct (Analysis.action signals); try reflexivity; rewrite Hlt; reflexivity.
Qed.

Lemma generated_signals_stay_below_the_threshold_witness :
  let signals :=
    Analysis.generate_trading_signals 100 (Some 20) (Some 2) (Some 1)
      [{| Analysis.lv_price := 99; Analysis.lv_strength := None |}]
      [{| Analysis.lv_price := 101; Analysis.lv_strength := None |}] in
  Analysis.action signals = Analysis.ConsiderBuy /\
  Analysis.sg_confidence signals == 2 / 3 /\
  Desk._get_trading_signal_with_confidence Desk.default_switch (Some signals)
    (TradingSystem.SigHold, 0) = (TradingSystem.SigHold, 0).
Proof.
  intros signals.
  destruct (generated_signals_stay_below_the_threshold 100 (Some 20) (Some 2) (Some 1)
              [{| Analysis.lv_price := 99; Analysis.lv_strength := None |}]
              [{| Analysis.lv_price := 101; Analysis.lv_strength := None |}]
              Desk.default_switch (TradingSystem.SigHold, 0)) as (_ & _ & H).
  - reflexivity.
  - split; [vm_compute; reflexivity|]. split; [vm_compute; reflexivity | exact H].
Defined.

(** X19.  At a positive price [_find_nearest_level] returns a level only
    if it is one of the levels passed, no other level is nearer to the
    price, and it is less than 5% of the price away; it returns none
    only if every level is at least 5% of the price away. *)
Theorem nearest_level_is_within_five_percent
    (current_price : Q) (levels : list Analysis.Level) :
  0 < current_price ->
  match Analysis._find_nearest_level current_price levels with
  | Some nearest =>
      In nearest levels /\
      (forall l, In l levels ->
         Py.abs (Analysis.lv_price nearest - current_price)
         <= Py.abs (Analysis.lv_price l - current_price)) /\
      Py.abs (Analysis.lv_price nearest - current_price) < 0.05 * current_price
  | None =>
      forall l, In l levels ->
        0.05 * current_price <= Py.abs (Analysis.lv_price l - current_price)
  end.
Proof.
  intros Hp. unfold Analysis._find_nearest_level.
  destruct levels as [|l0 rest]; [intros l []|].
  destruct (min_by_spec (fun x => Py.abs (Analysis.lv_price x - current_price)) rest l0)
    as (Hin & Hmin).
  set (nearest := Analysis.min_by _ l0 rest) in *. cbv zeta.
  destruct (Qeq_dec current_price 0) as [H0|_]; [lra|].
  destruct (Qltb (Py.abs (Analysis.lv_price nearest - current_price) / current_price) 0.05)
    eqn:Hlt.
  - apply Qltb_true in Hlt. split; [exact Hin|]. split; [exact Hmin|].
    assert (E : Py.abs (Analysis.lv_price nearest - current_price)
                == Py.abs (Analysis.lv_price nearest - current_price) / current_price
                   * current_price) by (field; lra).
    rewrite E. apply Qmult_lt_compat_r; assumption.
  - apply Qltb_false in Hlt. intros l Hl. specialize (Hmin l Hl). cbn beta in Hmin.
    assert (E : Py.abs (Analysis.lv_price nearest - current_price)
                == Py.abs (Analysis.lv_price nearest - current_price) / current_price
                   * current_price) by (field; lra).
    apply Qle_trans with (Py.abs (Analysis.lv_price nearest - current_price));
      [|exact Hmin].
    rewrite E. apply Qmult_le_compat_r; [exact Hlt|lra].
Qed.

Lemma nearest_level_is_within_five_percent_witness :
  Analysis._find_nearest_level 100
    [{| Analysis.lv_price := 90; Analysis.lv_strength := None |};
     {| Analysis.lv_price := 103; Analysis.lv_strength := None |};
     {| Analysis.lv_price := 97; Analysis.lv_strength := None |}]
  = Some {| Analysis.lv_price := 103; Analysis.lv_strength := None |} /\
  Py.abs (103 - 100) < 0.05 * 100.
Proof.
  pose proof (nearest_level_is_within_five_percent 100
    [{| Analysis.lv_price := 90; Analysis.lv_strength := None |};
     {| Analysis.lv_price := 103; Analysis.lv_strength := None |};
     {| Analysis.lv_price := 97; Analysis.lv_strength := None |}] eq_refl) as H.
  split; [vm_compute; reflexivity|].
  change (Analysis._find_nearest_level 100
    [{| Analysis.lv_price := 90; Analysis.lv_strength := None |};
     {| Analysis.lv_price := 103; Analysis.lv_strength := None |};
     {| Analysis.lv_price := 97; Analysis.lv_strength := None |}])
    with (Some {| Analysis.lv_price := 103; Analysis.lv_strength := None |}) in H.
  destruct H as (_ & _ & H). exact H.
Defined.

(** ** The largest drawdown *)

Section MaxDrawdown.

Import Desk.

Lemma sum_app (a b : list Q) : Pandas.sum (a ++ b) == Pandas.sum a + Pandas.sum b.
Proof.
  unfold Pandas.sum. induction a as [|x a IH]; cbn; [ring|]. rewrite IH. ring.
Qed.


Lemma snoc_split {A : Type} (post : list A) : forall (l pre : list A) (x : A),
  l ++ [x] = pre ++ post ->
  (post = [] /\ pre = l ++ [x]) \/ (exists post', post = post' ++ [x] /\ l = pre ++ post').
Proof.
  induction post as [|y post IH] using rev_ind; intros l pre x E.
  - left. rewrite app_nil_r in E. split; [reflexivity | symmetry; exact E].
  - right. rewrite app_assoc in E. apply app_inj_tail in E. destruct E as (E1 & E2).
    subst y. exists post. split; [reflexivity | exact E1].
Qed.

Lemma drawdown_inv_start :
  DrawdownSpec.drawdown_inv {| cumulative_pnl := 0; peak := 0; max_drawdown := 0 |} [].
Proof.
  unfold DrawdownSpec.drawdown_inv. cbn. split; [reflexivity|]. split; [|split; [|split]].
  - intros pre post E. symmetry in E. apply app_eq_nil in E. destruct E as (-> & _).
    cbn. lra.
  - exists [], []. split; reflexivity.
  - intros pre mid post E. symmetry in E. apply app_eq_nil in E. destruct E as (_ & E).
    apply app_eq_nil in E. destruct E as (-> & _). cbn. lra.
  - exists [], [], []. split; reflexivity.
Qed.

Lemma drawdown_inv_step d l x :
  DrawdownSpec.drawdown_inv d l -> DrawdownSpec.drawdown_inv (drawdown_step d x) (l ++ [x]).
Proof.
  intros (Hc & Hpu & (ppre & ppost & Hpe & Hpeak) & Hdu & (dpre & dmid & dpost & Hde & Hdd)).
  assert (Hsum : Pandas.sum (l ++ [x]) == cumulative_pnl d + x).
  { rewrite sum_app, Hc. cbn. ring. }
  assert (Hdd0 : 0 <= max_drawdown d).
  { specialize (Hdu l [] []). rewrite app_nil_r in Hdu. specialize (Hdu eq_refl).
    cbn in Hdu. lra. }
  unfold drawdown_step. cbv zeta.
  set (cumulative := cumulative_pnl d + x) in *.
  set (peak' := if Qltb (peak d) cumulative then cumulative else peak d).
  assert (Hpk : peak d <= peak' /\ cumulative <= peak' /\
                 (peak' = cumulative \/ peak' = peak d)).
  { subst peak'. destruct (Qltb (peak d) cumulative) eqn:E.
    - apply Qltb_true in E. repeat split; try lra. left. reflexivity.
    - apply Qltb_false in E. repeat split; try lra. right. reflexivity. }
  destruct Hpk as (Hpk1 & Hpk2 & Hpk3).
  set (dd' := if Qltb (max_drawdown d) (peak' - cumulative)
              then peak' - cumulative else max_drawdown d).
  assert (Hm : max_drawdown d <= dd' /\ peak' - cumulative <= dd' /\
               (dd' = peak' - cumulative \/ dd' = max_drawdown d)).
  { subst dd'. destruct (Qltb (max_drawdown d) (peak' - cumulative)) eqn:E.
    - apply Qltb_true in E. repeat split; try lra. left. reflexivity.
    - apply Qltb_false in E. repeat split; try lra. right. reflexivity. }
  destruct Hm as (Hm1 & Hm2 & Hm3).
  assert (Hpe' : exists pre post, l ++ [x] = pre ++ post /\ peak' == Pandas.sum pre).
  { destruct Hpk3 as [E|E]; rewrite E.
    - exists (l ++ [x]), []. split; [rewrite app_nil_r; reflexivity|].
      rewrite Hsum. reflexivity.
    - exists ppre, (ppost ++ [x]). split; [|exact Hpeak].
      rewrite Hpe, <- app_assoc. reflexivity. }
  unfold DrawdownSpec.drawdown_inv. cbn [cumulative_pnl peak max_drawdown].
  split; [rewrite Hsum; reflexivity|]. split; [|split; [exact Hpe'|split]].
  - intros pre post E. apply snoc_split in E. destruct E as [(_ & ->)|(post' & _ & E)].
    + rewrite Hsum. exact Hpk2.
    + specialize (Hpu pre post' E). lra.
  - intros pre mid post E. rewrite app_assoc in E. apply snoc_split in E.
    destruct E as [(_ & E)|(post' & _ & E)].
    + symmetry in E. apply snoc_split in E. destruct E as [(-> & _)|(mid' & -> & E)].
      * cbn. lra.
      * specialize (Hpu pre mid' E). rewrite E in Hc.
        rewrite sum_app in Hc |- *. cbn. cbn in Hc.
        assert (cumulative == Pandas.sum pre + Pandas.sum mid' + x)
          by (subst cumulative; rewrite Hc; ring).
        lra.
    + rewrite <- app_assoc in E. specialize (Hdu pre mid post' E). lra.
  - destruct Hm3 as [E|E]; rewrite E.
    + destruct Hpe' as (pre & post & Hsplit & Hpre).
      exists pre, post, []. split; [rewrite app_nil_r; exact Hsplit|].
      assert (Pandas.sum (l ++ [x]) == Pandas.sum pre + Pandas.sum post)
        by (rewrite Hsplit; apply sum_app).
      rewrite Hsum in H. rewrite Hpre. fold cumulative in H. lra.
    + exists dpre, dmid, (dpost ++ [x]). split; [|exact Hdd].
      rewrite Hde, <- !app_assoc. reflexivity.
Qed.

Lemma drawdown_inv_fold (trades : list Q) : forall d l,
  DrawdownSpec.drawdown_inv d l -> DrawdownSpec.drawdown_inv (fold_left drawdown_step trades d) (l ++ trades).
Proof.
  induction trades as [|x trades IH]; intros d l H.
  - rewrite app_nil_r. exact H.
  - cbn [fold_left]. replace (l ++ x :: trades) with ((l ++ [x]) ++ trades)
      by (rewrite <- app_assoc; reflexivity).
    apply IH. apply drawdown_inv_step. exact H.
Qed.

End MaxDrawdown.

(** X20.  [_calculate_max_drawdown] is the largest loss over a run of
    consecutive trades: it is never negative, no run of consecutive
    trades loses more than it, and some run (possibly the empty one)
    loses exactly it.  It is zero when no trade has a loss. *)
Theorem max_drawdown_is_the_largest_run_of_losses (trades : list Q) :
  0 <= Desk._calculate_max_drawdown trades /\
  (forall pre mid post, trades = pre ++ mid ++ post ->
     - Pandas.sum mid <= Desk._calculate_max_drawdown trades) /\
  (exists pre mid post, trades = pre ++ mid ++ post /\
     Desk._calculate_max_drawdown trades == - Pandas.sum mid) /\
  (Forall (fun x => 0 <= x) trades -> Desk._calculate_max_drawdown trades == 0).
Proof.
  pose proof (drawdown_inv_fold trades _ [] drawdown_inv_start) as H.
  cbn [app] in H. destruct H as (_ & _ & _ & Hu & (pre & mid & post & Hsplit & Hdd)).
  fold (Desk._calculate_max_drawdown trades) in Hu, Hdd.
  assert (H0 : 0 <= Desk._calculate_max_drawdown trades).
  { specialize (Hu trades [] []). rewrite app_nil_r in Hu. specialize (Hu eq_refl).
    cbn in Hu. lra. }
  split; [exact H0|]. split; [exact Hu|]. split; [exists pre, mid, post; split; assumption|].
  intros Hpos. assert (Hmid : 0 <= Pandas.sum mid).
  { apply sum_nonneg. rewrite Hsplit in Hpos.
    apply Forall_app in Hpos. destruct Hpos as (_ & Hpos).
    apply Forall_app in Hpos. destruct Hpos as (Hpos & _). exact Hpos. }
  lra.
Qed.

(** ** Trend and confidence *)

Section Trend.

Import Analysis.

Lemma rolling_mean_short window xs :
  (length xs < window)%nat -> Pandas.rolling_mean_last window xs = None.
Proof.
  intros H. unfold Pandas.rolling_mean_last.
  destruct (Nat.ltb_spec (length xs) window); [reflexivity|lia].
Qed.

Lemma vote_nan close : vote close None = Down.
Proof. reflexivity. Qed.

Lemma last_nonempty {A : Type} (xs : list A) : xs <> [] -> exists x, last xs = Some x.
Proof.
  intros H. destruct (last xs) as [x|] eqn:E; [exists x; reflexivity|].
  apply last_None in E. contradiction.
Qed.

Lemma vote_score_cases v : vote_score v = 1%Z \/ vote_score v = (-1)%Z.
Proof. destruct v; [left|right]; reflexivity. Qed.

Lemma of_nat_nonneg n : 0 <= of_nat n.
Proof. unfold of_nat. change 0 with (inject_Z 0). rewrite <- Zle_Qle. lia. Qed.

Lemma min2_unit x : 0 <= x -> 0 <= Py.min2 x 1 /\ Py.min2 x 1 <= 1.
Proof. intros H. unfold Py.min2. destruct (Qlt_le_dec 1 x); split; lra. Qed.

End Trend.

(** The score of [determine_trend] and what it needs of the history. *)
Lemma determine_trend_facts (closes : list Q) :
  closes <> [] ->
  let trend := Analysis.determine_trend closes in
  (Analysis.score trend = 3 \/ Analysis.score trend = 1 \/
   Analysis.score trend = -1 \/ Analysis.score trend = -3)%Z /\
  (Analysis.overall trend = Analysis.StrongUp <-> Analysis.score trend = 3%Z) /\
  (Analysis.overall trend = Analysis.MildUp <-> Analysis.score trend = 1%Z) /\
  (Analysis.overall trend = Analysis.MildDown <-> Analysis.score trend = (-1)%Z) /\
  (Analysis.overall trend = Analysis.StrongDown <-> Analysis.score trend = (-3)%Z) /\
  ((length closes < 200)%nat ->
   Analysis.long_term trend = Some Analysis.Down /\
   Analysis.overall trend <> Analysis.StrongUp) /\
  ((length closes < 20)%nat ->
   Analysis.overall trend = Analysis.StrongDown /\ Analysis.score trend = (-3)%Z).
Proof.
  intros Hne trend. subst trend. unfold Analysis.determine_trend.
  destruct (last_nonempty closes Hne) as (close & ->). cbv zeta.
  cbn [Analysis.score Analysis.overall Analysis.long_term].
  split; [|split; [|split; [|split; [|split; [|split]]]]].
  1-5: destruct (Analysis.vote close (Pandas.rolling_mean_last 20 closes)),
         (Analysis.vote close (Pandas.rolling_mean_last 50 closes)),
         (Analysis.vote close (Pandas.rolling_mean_last 200 closes)); cbn;
       try (split; intros; (discriminate || reflexivity || lia)); lia.
  - intros Hlen. rewrite (rolling_mean_short 200 closes Hlen), vote_nan.
    split; [reflexivity|].
    destruct (Analysis.vote close (Pandas.rolling_mean_last 20 closes)),
      (Analysis.vote close (Pandas.rolling_mean_last 50 closes)); cbn; discriminate.
  - intros Hlen.
    rewrite (rolling_mean_short 20), (rolling_mean_short 50), (rolling_mean_short 200)
      by lia.
    split; reflexivity.
Qed.

(** X21.  On a frame with at least one row [determine_trend] has an odd
    score, 3, 1, -1 or -3, and the overall trend names exactly that
    score, so it follows the majority of the three votes.  A moving
    average over more rows than the frame has is NaN and votes down:
    with fewer than 200 rows the long-term vote is down and the trend is
    never a strong rise, and with fewer than 20 rows the trend is a
    strong fall whatever the prices are. *)
Theorem trend_needs_enough_history (closes : list Q) :
  closes <> [] ->
  let trend := Analysis.determine_trend closes in
  (Analysis.score trend = 3 \/ Analysis.score trend = 1 \/
   Analysis.score trend = -1 \/ Analysis.score trend = -3)%Z /\
  (Analysis.overall trend = Analysis.StrongUp <-> Analysis.score trend = 3%Z) /\
  (Analysis.overall trend = Analysis.MildUp <-> Analysis.score trend = 1%Z) /\
  (Analysis.overall trend = Analysis.MildDown <-> Analysis.score trend = (-1)%Z) /\
  (Analysis.overall trend = Analysis.StrongDown <-> Analysis.score trend = (-3)%Z) /\
  ((length closes < 200)%nat ->
   Analysis.long_term trend = Some Analysis.Down /\
   Analysis.overall trend <> Analysis.StrongUp) /\
  ((length closes < 20)%nat ->
   Analysis.overall trend = Analysis.StrongDown /\ Analysis.score trend = (-3)%Z).
Proof. exact (determine_trend_facts closes). Qed.

Lemma trend_needs_enough_history_witness :
  Analysis.overall (Analysis.determine_trend [1; 2; 3; 4; 5]) = Analysis.StrongDown.
Proof.
  destruct (trend_needs_enough_history [1; 2; 3; 4; 5]) as (_ & _ & _ & _ & _ & _ & H);
    [discriminate|].
  destruct H as (H & _); [cbn; lia | exact H].
Defined.

(** X22.  [calculate_confidence] is the plain mean of three factors
    between 0 and 1, so it lies between 0 and 1 and its final [min]
    with 1 never takes effect.  On a frame with at least one row it is
    above 1/9, and it is below 1 while the frame has fewer than 200
    rows. *)
Theorem confidence_is_a_mean_of_three_factors
    (closes : list Q) (supports resistances : nat) :
  let confidence := Analysis.calculate_confidence closes supports resistances in
  confidence
  == (Py.min2 (Analysis.of_nat (length closes) / 200) 1
      + Py.min2 (Analysis.of_nat (supports + resistances) / 8) 1
      + inject_Z (Z.abs (Analysis.score (Analysis.determine_trend closes))) / 3) / 3 /\
  0 <= confidence /\ confidence <= 1 /\
  (closes <> [] -> 1 / 9 < confidence) /\
  ((length closes < 200)%nat -> confidence < 1).
Proof.
  cbv zeta. unfold Analysis.calculate_confidence. cbv zeta.
  set (n := Analysis.of_nat (length closes)).
  set (m := Analysis.of_nat (supports + resistances)).
  set (k := inject_Z (Z.abs (Analysis.score (Analysis.determine_trend closes)))).
  assert (Hn : 0 <= n) by apply of_nat_nonneg.
  assert (Hm : 0 <= m) by apply of_nat_nonneg.
  assert (Hdq : 0 <= Py.min2 (n / 200) 1 /\ Py.min2 (n / 200) 1 <= 1)
    by (apply min2_unit; apply Qle_shift_div_l; [reflexivity|lra]).
  assert (Hlc : 0 <= Py.min2 (m / 8) 1 /\ Py.min2 (m / 8) 1 <= 1)
    by (apply min2_unit; apply Qle_shift_div_l; [reflexivity|lra]).
  assert (Hk : 0 <= k /\ k <= 3 /\ (closes <> [] -> 1 <= k)).
  { subst k. destruct closes as [|c0 cs].
    - cbn. repeat split; try discriminate. intros H. contradiction.
    - destruct (determine_trend_facts (c0 :: cs)) as (Hs & _); [discriminate|].
      cbv zeta in Hs.
      destruct Hs as [-> | [-> | [-> | ->]]]; cbn; repeat split; intros; discriminate. }
  destruct Hk as (Hk0 & Hk3 & Hk1).
  set (dq := Py.min2 (n / 200) 1) in *. set (lc := Py.min2 (m / 8) 1) in *.
  assert (Htc : 0 <= k / 3 /\ k / 3 <= 1 /\ (closes <> [] -> 1 / 3 <= k / 3)).
  { repeat split.
    - apply Qle_shift_div_l; [reflexivity|lra].
    - apply Qle_shift_div_r; [reflexivity|lra].
    - intros H. specialize (Hk1 H). apply Qle_shift_div_l; [reflexivity|].
      apply Qle_trans with 1; [discriminate | exact Hk1]. }
  destruct Htc as (Ht0 & Ht1 & Ht3). set (tc := k / 3) in *.
  assert (Hmean : (dq + lc + tc) / 3 <= 1).
  { apply Qle_shift_div_r; [reflexivity|lra]. }
  assert (Hmin : Py.min2 ((dq + lc + tc) / 3) 1 = (dq + lc + tc) / 3).
  { unfold Py.min2. destruct (Qlt_le_dec 1 ((dq + lc + tc) / 3)); [lra|reflexivity]. }
  rewrite Hmin. split; [reflexivity|]. split; [|split; [exact Hmean|split]].
  - apply Qle_shift_div_l; [reflexivity|lra].
  - intros Hne. specialize (Ht3 Hne). apply Qlt_shift_div_l; [reflexivity|].
    assert (0 < dq).
    { subst dq. unfold Py.min2. destruct (Qlt_le_dec 1 (n / 200)); [lra|].
      apply Qlt_shift_div_l; [reflexivity|]. subst n. unfold Analysis.of_nat.
      apply Qle_lt_trans with (inject_Z 0); [discriminate|]. rewrite <- Zlt_Qlt.
      destruct closes; [contradiction|cbn; lia]. }
    apply Qle_lt_trans with (1 / 3); [discriminate | lra].
  - intros Hlen. apply Qlt_shift_div_r; [reflexivity|].
    assert (dq < 1).
    { subst dq. unfold Py.min2.
      assert (n / 200 < 1).
      { apply Qlt_shift_div_r; [reflexivity|]. subst n. unfold Analysis.of_nat.
        apply Qlt_le_trans with (inject_Z 200); [rewrite <- Zlt_Qlt; lia | discriminate]. }
      destruct (Qlt_le_dec 1 (n / 200)); lra. }
    lra.
Qed.

(** ** Entry, stop and target candidates *)

Section TopOfSorted.

Context {A B : Type} (before : B -> B -> bool) (R : B -> B -> Prop).

Hypothesis R_refl : forall a, R a a.
Hypothesis R_trans : forall a b c, R a b -> R b c -> R a c.
Hypothesis before_true : forall y x, before y x = true -> R y x.
Hypothesis before_false : forall y x, before y x = false -> R x y.

Lemma firstn_sorted n (l : list B) : StronglySorted R l -> StronglySorted R (firstn n l).
Proof.
  revert n. induction l as [|x l IH]; intros n Hs; [destruct n; constructor|].
  destruct n as [|n]; [constructor|]. cbn.
  apply StronglySorted_inv in Hs. destruct Hs as (Hl & Hx).
  constructor; [apply IH; exact Hl|].
  rewrite List.Forall_forall in Hx |- *. intros y Hy. apply Hx.
  eapply firstn_incl. exact Hy.
Qed.

(** The first [k] of the candidates built by [f] from the levels that
    pass [q], in the order of [before]. *)
Lemma top_of_sorted k (f : A -> B) (q : A -> bool) (levels : list A) :
  let pts := firstn k (py_sorted before (map f (List.filter q levels))) in
  (length pts <= k)%nat /\
  StronglySorted R pts /\
  (forall p, In p pts -> exists l, In l levels /\ q l = true /\ p = f l) /\
  ((0 < k)%nat ->
   match pts with
   | p :: _ => forall l, In l levels -> q l = true -> R p (f l)
   | [] => forall l, In l levels -> q l = false
   end).
Proof.
  intros pts. subst pts.
  pose proof (py_sorted_perm before (map f (List.filter q levels))) as Hperm.
  pose proof (py_sorted_sorted_by before R R_trans before_true before_false
                (map f (List.filter q levels))) as Hsorted.
  set (sorted := py_sorted before (map f (List.filter q levels))) in *.
  split; [rewrite length_firstn; lia|]. split; [apply firstn_sorted; exact Hsorted|]. split.
  - intros p Hp. apply firstn_incl in Hp. eapply Permutation_in in Hp; [|exact Hperm].
    apply in_map_iff in Hp. destruct Hp as (l & <- & Hl). apply List.filter_In in Hl.
    exists l. tauto.
  - intros Hk. destruct k as [|k]; [lia|]. destruct sorted as [|p rest] eqn:E; cbn.
    + intros l Hl. destruct (q l) eqn:Hq; [|reflexivity]. exfalso.
      apply Permutation_nil in Hperm.
      assert (Hin : In (f l) (map f (List.filter q levels))).
      { apply in_map. apply List.filter_In. split; assumption. }
      rewrite Hperm in Hin. exact Hin.
    + intros l Hl Hq.
      assert (Hin : In (f l) (p :: rest)).
      { eapply Permutation_in; [symmetry; exact Hperm|].
        apply in_map. apply List.filter_In. split; assumption. }
      apply StronglySorted_inv in Hsorted. destruct Hsorted as (_ & Hp).
      destruct Hin as [<-|Hin]; [apply R_refl|].
      rewrite List.Forall_forall in Hp. apply Hp. exact Hin.
Qed.

End TopOfSorted.

Section Candidates.

Import SMCScanner Analysis Derive.

Lemma asc_top {A : Type} k (f : A -> Point) (q : A -> bool) (levels : list A) :
  let pts := firstn k (py_sorted (before_asc pt_pct) (map f (List.filter q levels))) in
  (length pts <= k)%nat /\
  StronglySorted (fun a b => pt_pct a <= pt_pct b) pts /\
  (forall p, In p pts -> exists l, In l levels /\ q l = true /\ p = f l) /\
  ((0 < k)%nat ->
   match pts with
   | p :: _ => forall l, In l levels -> q l = true -> pt_pct p <= pt_pct (f l)
   | [] => forall l, In l levels -> q l = false
   end).
Proof.
  apply (top_of_sorted (before_asc pt_pct) (fun a b => pt_pct a <= pt_pct b)).
  - intros a. lra.
  - intros a b c. lra.
  - intros y x H. unfold before_asc in H. apply Qltb_true in H. lra.
  - intros y x H. unfold before_asc in H. apply Qltb_false in H. exact H.
Qed.

Lemma desc_top {A : Type} (key : Point -> Q) k (f : A -> Point) (q : A -> bool)
    (levels : list A) :
  let pts := firstn k (py_sorted (before_desc key) (map f (List.filter q levels))) in
  (length pts <= k)%nat /\
  StronglySorted (desc key) pts /\
  (forall p, In p pts -> exists l, In l levels /\ q l = true /\ p = f l) /\
  ((0 < k)%nat ->
   match pts with
   | p :: _ => forall l, In l levels -> q l = true -> key (f l) <= key p
   | [] => forall l, In l levels -> q l = false
   end).
Proof.
  apply (top_of_sorted (before_desc key) (desc key)); unfold desc.
  - intros a. lra.
  - intros a b c. lra.
  - intros y x H. unfold before_desc in H. apply Qltb_true in H. lra.
  - intros y x H. unfold before_desc in H. apply Qltb_false in H. exact H.
Qed.

Lemma quotient_pos a b : 0 < b -> 0 < a -> 0 < a / b.
Proof. intros Hb Ha. apply Qlt_shift_div_l; [exact Hb|lra]. Qed.

End Candidates.

(** X23.  At a positive price the stop candidates of
    [find_stop_loss_points] lie on the losing side of the price, 1%
    beyond a level on that side, with a positive risk: below the price
    for a long trade, above it for a short one.  There are at most two,
    in the order of rising risk, and the first has the smallest risk of
    all levels on that side; there is none only if no level lies on that
    side.  Without a direction there is none. *)
Theorem stop_candidates_nearest_first
    (current_price : Q) (support_levels resistance_levels : list Analysis.Level)
    (direction : SMCScanner.Direction) :
  0 < current_price ->
  let points :=
    Derive.find_stop_loss_points current_price support_levels resistance_levels direction in
  (length points <= 2)%nat /\
  StronglySorted (fun a b => Derive.pt_pct a <= Derive.pt_pct b) points /\
  match direction with
  | SMCScanner.GoLong =>
      Forall (fun p => Derive.pt_price p < current_price /\ 0 < Derive.pt_pct p /\
                       exists l, In l support_levels /\
                                 Analysis.lv_price l < current_price /\
                                 Derive.pt_price p == Analysis.lv_price l * 0.99) points /\
      match points with
      | p :: _ =>
          forall l, In l support_levels -> Analysis.lv_price l < current_price ->
            Derive.pt_pct p <= (current_price - Analysis.lv_price l * 0.99) / current_price
      | [] => forall l, In l support_levels -> current_price <= Analysis.lv_price l
      end
  | SMCScanner.GoShort =>
      Forall (fun p => current_price < Derive.pt_price p /\ 0 < Derive.pt_pct p /\
                       exists l, In l resistance_levels /\
                                 current_price < Analysis.lv_price l /\
                                 Derive.pt_price p == Analysis.lv_price l * 1.01) points /\
      match points with
      | p :: _ =>
          forall l, In l resistance_levels -> current_price < Analysis.lv_price l ->
            Derive.pt_pct p <= (Analysis.lv_price l * 1.01 - current_price) / current_price
      | [] => forall l, In l resistance_levels -> Analysis.lv_price l <= current_price
      end
  | SMCScanner.Wait => points = []
  end.
Proof.
  intros Hp points. subst points. unfold Derive.find_stop_loss_points.
  destruct direction.
  - match goal with
    | |- context [map ?f (List.filter ?q ?levels)] =>
        destruct (asc_top 2 f q levels) as (Hlen & Hsorted & Hfrom & Hhead)
    end.
    specialize (Hhead ltac:(lia)).
    split; [exact Hlen|]. split; [exact Hsorted|]. split.
    + apply List.Forall_forall. intros p Hin.
      destruct (Hfrom p Hin) as (l & Hl & Hq & ->). apply Qltb_true in Hq. cbn.
      split; [lra|]. split; [apply quotient_pos; lra|].
      exists l. split; [exact Hl|]. split; [exact Hq|reflexivity].
    + match goal with |- match ?pts with _ => _ end => destruct pts as [|p rest] end.
      * intros l Hl. specialize (Hhead l Hl). apply Qltb_false in Hhead. exact Hhead.
      * intros l Hl Hlt. apply (Hhead l Hl). apply Qltb_true. exact Hlt.
  - match goal with
    | |- context [map ?f (List.filter ?q ?levels)] =>
        destruct (asc_top 2 f q levels) as (Hlen & Hsorted & Hfrom & Hhead)
    end.
    specialize (Hhead ltac:(lia)).
    split; [exact Hlen|]. split; [exact Hsorted|]. split.
    + apply List.Forall_forall. intros p Hin.
      destruct (Hfrom p Hin) as (l & Hl & Hq & ->). apply Qltb_true in Hq. cbn.
      split; [lra|]. split; [apply quotient_pos; lra|].
      exists l. split; [exact Hl|]. split; [exact Hq|reflexivity].
    + match goal with |- match ?pts with _ => _ end => destruct pts as [|p rest] end.
      * intros l Hl. specialize (Hhead l Hl). apply Qltb_false in Hhead. exact Hhead.
      * intros l Hl Hlt. apply (Hhead l Hl). apply Qltb_true. exact Hlt.
  - cbn. split; [lia|]. split; [constructor|reflexivity].
Qed.

Lemma stop_candidates_nearest_first_witness :
  map Derive.pt_price
    (Derive.find_stop_loss_points 100
       [{| Analysis.lv_price := 90; Analysis.lv_strength := None |};
        {| Analysis.lv_price := 98; Analysis.lv_strength := None |};
        {| Analysis.lv_price := 95; Analysis.lv_strength := None |};
        {| Analysis.lv_price := 105; Analysis.lv_strength := None |}] []
       SMCScanner.GoLong)
  = [98 * 0.99; 95 * 0.99] /\
  (length
     (Derive.find_stop_loss_points 100
        [{| Analysis.lv_price := 90; Analysis.lv_strength := None |};
         {| Analysis.lv_price := 98; Analysis.lv_strength := None |};
         {| Analysis.lv_price := 95; Analysis.lv_strength := None |};
         {| Analysis.lv_price := 105; Analysis.lv_strength := None |}] []
        SMCScanner.GoLong) <= 2)%nat.
Proof.
  split; [vm_compute; reflexivity|].
  apply (stop_candidates_nearest_first 100
           [{| Analysis.lv_price := 90; Analysis.lv_strength := None |};
            {| Analysis.lv_price := 98; Analysis.lv_strength := None |};
            {| Analysis.lv_price := 95; Analysis.lv_strength := None |};
            {| Analysis.lv_price := 105; Analysis.lv_strength := None |}] []
           SMCScanner.GoLong eq_refl).
Defined.

(** X24.  At a positive price the target candidates of
    [find_take_profit_points] are levels on the winning side of the
    price with a positive reward: resistance levels above the price for
    a long trade, support levels below it for a short one.  There are at
    most three, in the order of falling reward, so the first is the
    level farthest from the price on that side; there is none only if no
    level lies on that side.  Without a direction there is none. *)
Theorem target_candidates_farthest_first
    (current_price : Q) (support_levels resistance_levels : list Analysis.Level)
    (direction : SMCScanner.Direction) :
  0 < current_price ->
  let points :=
    Derive.find_take_profit_points current_price support_levels resistance_levels
      direction in
  (length points <= 3)%nat /\
  StronglySorted (desc Derive.pt_pct) points /\
  match direction with
  | SMCScanner.GoLong =>
      Forall (fun p => current_price < Derive.pt_price p /\ 0 < Derive.pt_pct p /\
                       exists l, In l resistance_levels /\
                                 Derive.pt_price p = Analysis.lv_price l) points /\
      match points with
      | p :: _ =>
          forall l, In l resistance_levels -> current_price < Analysis.lv_price l ->
            Analysis.lv_price l <= Derive.pt_price p
      | [] => forall l, In l resistance_levels -> Analysis.lv_price l <= current_price
      end
  | SMCScanner.GoShort =>
      Forall (fun p => Derive.pt_price p < current_price /\ 0 < Derive.pt_pct p /\
                       exists l, In l support_levels /\
                                 Derive.pt_price p = Analysis.lv_price l) points /\
      match points with
      | p :: _ =>
          forall l, In l support_levels -> Analysis.lv_price l < current_price ->
            Derive.pt_price p <= Analysis.lv_price l
      | [] => forall l, In l support_levels -> current_price <= Analysis.lv_price l
      end
  | SMCScanner.Wait => points = []
  end.
Proof.
  intros Hp points. subst points. unfold Derive.find_take_profit_points.
  assert (Hdiv : forall a b, a / current_price <= b / current_price -> a <= b).
  { intros a b H. apply (Qmult_le_compat_r _ _ current_price) in H; [|lra].
    assert (Ea : a / current_price * current_price == a) by (field; lra).
    assert (Eb : b / current_price * current_price == b) by (field; lra).
    lra. }
  destruct direction.
  - match goal with
    | |- context [map ?f (List.filter ?q ?levels)] =>
        destruct (desc_top Derive.pt_pct 3 f q levels) as (Hlen & Hsorted & Hfrom & Hhead)
    end.
    specialize (Hhead ltac:(lia)).
    split; [exact Hlen|]. split; [exact Hsorted|]. split.
    + apply List.Forall_forall. intros p Hin.
      destruct (Hfrom p Hin) as (l & Hl & Hq & ->). apply Qltb_true in Hq. cbn.
      split; [lra|]. split; [apply quotient_pos; lra|].
      exists l. split; [exact Hl|reflexivity].
    + match goal with
      | |- match ?pts with _ => _ end => destruct pts as [|p rest] eqn:Epts
      end.
      * intros l Hl. specialize (Hhead l Hl). apply Qltb_false in Hhead. exact Hhead.
      * intros l Hl Hlt.
        assert (Hq := Hlt). apply Qltb_true in Hq. specialize (Hhead l Hl Hq).
        destruct (Hfrom p ltac:(left; reflexivity)) as (l' & _ & _ & ->).
        cbn in Hhead |- *. apply Hdiv in Hhead. lra.
  - match goal with
    | |- context [map ?f (List.filter ?q ?levels)] =>
        destruct (desc_top Derive.pt_pct 3 f q levels) as (Hlen & Hsorted & Hfrom & Hhead)
    end.
    specialize (Hhead ltac:(lia)).
    split; [exact Hlen|]. split; [exact Hsorted|]. split.
    + apply List.Forall_forall. intros p Hin.
      destruct (Hfrom p Hin) as (l & Hl & Hq & ->). apply Qltb_true in Hq. cbn.
      split; [lra|]. split; [apply quotient_pos; lra|].
      exists l. split; [exact Hl|reflexivity].
    + match goal with
      | |- match ?pts with _ => _ end => destruct pts as [|p rest] eqn:Epts
      end.
      * intros l Hl. specialize (Hhead l Hl). apply Qltb_false in Hhead. exact Hhead.
      * intros l Hl Hlt.
        assert (Hq := Hlt). apply Qltb_true in Hq. specialize (Hhead l Hl Hq).
        destruct (Hfrom p ltac:(left; reflexivity)) as (l' & _ & _ & ->).
        cbn in Hhead |- *. apply Hdiv in Hhead. lra.
  - cbn. split; [lia|]. split; [constructor|reflexivity].
Qed.

Lemma target_candidates_farthest_first_witness :
  map Derive.pt_price
    (Derive.find_take_profit_points 100 []
       [{| Analysis.lv_price := 103; Analysis.lv_strength := None |};
        {| Analysis.lv_price := 120; Analysis.lv_strength := None |};
        {| Analysis.lv_price := 99; Analysis.lv_strength := None |};
        {| Analysis.lv_price := 110; Analysis.lv_strength := None |};
        {| Analysis.lv_price := 101; Analysis.lv_strength := None |}]
       SMCScanner.GoLong)
  = [120; 110; 103] /\
  (length
     (Derive.find_take_profit_points 100 []
        [{| Analysis.lv_price := 103; Analysis.lv_strength := None |};
         {| Analysis.lv_price := 120; Analysis.lv_strength := None |};
         {| Analysis.lv_price := 99; Analysis.lv_strength := None |};
         {| Analysis.lv_price := 110; Analysis.lv_strength := None |};
         {| Analysis.lv_price := 101; Analysis.lv_strength := None |}]
        SMCScanner.GoLong) <= 3)%nat.
Proof.
  split; [vm_compute; reflexivity|].
  apply (target_candidates_farthest_first 100 []
           [{| Analysis.lv_price := 103; Analysis.lv_strength := None |};
            {| Analysis.lv_price := 120; Analysis.lv_strength := None |};
            {| Analysis.lv_price := 99; Analysis.lv_strength := None |};
            {| Analysis.lv_price := 110; Analysis.lv_strength := None |};
            {| Analysis.lv_price := 101; Analysis.lv_strength := None |}]
           SMCScanner.GoLong eq_refl).
Defined.

(** X25.  The entry candidates of [find_entry_points] are taken from the
    first three levels of the side only: support levels the price is not
    more than 2% above for a long trade, resistance levels the price is
    not more than 2% below for a short one, however far the price is on
    the other side of the level.  There are at most two, in the order
    of falling strength with 0.5 for a level without strength, and the
    first is the strongest of those levels.  Without a direction there
    is none. *)
Theorem entry_candidates_strongest_first
    (current_price : Q) (support_levels resistance_levels : list Analysis.Level)
    (direction : SMCScanner.Direction) :
  let points :=
    Derive.find_entry_points current_price support_levels resistance_levels direction in
  (length points <= 2)%nat /\
  StronglySorted (desc Derive.pt_strength) points /\
  match direction with
  | SMCScanner.GoLong =>
      Forall (fun p => exists l, In l (firstn 3 support_levels) /\
                                 current_price <= Analysis.lv_price l * 1.02 /\
                                 Derive.pt_price p = Analysis.lv_price l /\
                                 Derive.pt_strength p = Derive.strength_of l) points /\
      match points with
      | p :: _ =>
          forall l, In l (firstn 3 support_levels) ->
            current_price <= Analysis.lv_price l * 1.02 ->
            Derive.strength_of l <= Derive.pt_strength p
      | [] =>
          forall l, In l (firstn 3 support_levels) ->
            Analysis.lv_price l * 1.02 < current_price
      end
  | SMCScanner.GoShort =>
      Forall (fun p => exists l, In l (firstn 3 resistance_levels) /\
                                 Analysis.lv_price l * 0.98 <= current_price /\
                                 Derive.pt_price p = Analysis.lv_price l /\
                                 Derive.pt_strength p = Derive.strength_of l) points /\
      match points with
      | p :: _ =>
          forall l, In l (firstn 3 resistance_levels) ->
            Analysis.lv_price l * 0.98 <= current_price ->
            Derive.strength_of l <= Derive.pt_strength p
      | [] =>
          forall l, In l (firstn 3 resistance_levels) ->
            current_price < Analysis.lv_price l * 0.98
      end
  | SMCScanner.Wait => points = []
  end.
Proof.
  intros points. subst points. unfold Derive.find_entry_points.
  destruct direction.
  - match goal with
    | |- context [map ?f (List.filter ?q ?levels)] =>
        destruct (desc_top Derive.pt_strength 2 f q levels)
          as (Hlen & Hsorted & Hfrom & Hhead)
    end.
    specialize (Hhead ltac:(lia)).
    split; [exact Hlen|]. split; [exact Hsorted|]. split.
    + apply List.Forall_forall. intros p Hin.
      destruct (Hfrom p Hin) as (l & Hl & Hq & ->).
      apply negb_true_iff, Qltb_false in Hq. cbn.
      exists l. split; [exact Hl|]. split; [exact Hq|]. split; reflexivity.
    + match goal with
      | |- match ?pts with _ => _ end => destruct pts as [|p rest] eqn:Epts
      end.
      * intros l Hl. specialize (Hhead l Hl).
        apply negb_false_iff, Qltb_true in Hhead. exact Hhead.
      * intros l Hl Hle. apply (Hhead l Hl).
        apply negb_true_iff, Qltb_false. exact Hle.
  - match goal with
    | |- context [map ?f (List.filter ?q ?levels)] =>
        destruct (desc_top Derive.pt_strength 2 f q levels)
          as (Hlen & Hsorted & Hfrom & Hhead)
    end.
    specialize (Hhead ltac:(lia)).
    split; [exact Hlen|]. split; [exact Hsorted|]. split.
    + apply List.Forall_forall. intros p Hin.
      destruct (Hfrom p Hin) as (l & Hl & Hq & ->).
      apply negb_true_iff, Qltb_false in Hq. cbn.
      exists l. split; [exact Hl|]. split; [exact Hq|]. split; reflexivity.
    + match goal with
      | |- match ?pts with _ => _ end => destruct pts as [|p rest] eqn:Epts
      end.
      * intros l Hl. specialize (Hhead l Hl).
        apply negb_false_iff, Qltb_true in Hhead. exact Hhead.
      * intros l Hl Hle. apply (Hhead l Hl).
        apply negb_true_iff, Qltb_false. exact Hle.
  - cbn. split; [lia|]. split; [constructor|reflexivity].
Qed.

(** ** Entries of one pass *)

Section OnePass.

Import TradingSystem.

Lemma futures_loop_blocked w symbols s :
  _can_execute_trade w s = false -> futures_loop w symbols s = s.
Proof.
  intros H. destruct symbols as [|sym rest]; [reflexivity|].
  cbn [futures_loop]. rewrite H. reflexivity.
Qed.

Lemma cooldown_blocks w s :
  (0 < cooldown_period (config s))%Z -> now w <> 0%Z ->
  _can_execute_trade w (note_trade s (now w)) = false.
Proof.
  intros Hc Hn. unfold _can_execute_trade. cbn [config note_trade positions
    total_trades_today last_trade_time].
  destruct (max_positions (config s) <=? length (positions s))%nat; [reflexivity|].
  destruct (max_daily_trades (config s) <=? S (total_trades_today s))%nat; [reflexivity|].
  destruct (Z.eqb_spec (now w) 0) as [E|_]; [contradiction|].
  rewrite Z.sub_diag. destruct (Z.ltb_spec 0 (cooldown_period (config s))); [reflexivity|lia].
Qed.

Lemma open_position_counts pt s w sym price_ qty :
  fst (open_position pt s w sym price_ qty) = true ->
  position_count (snd (open_position pt s w sym price_ qty)) = S (position_count s) /\
  total_trades_today (snd (open_position pt s w sym price_ qty)) = total_trades_today s /\
  config (snd (open_position pt s w sym price_ qty)) = config s.
Proof.
  intros H. destruct (open_position_result pt s w sym price_ qty H) as (oid & _ & _ & Hres).
  cbv zeta in Hres. rewrite Hres. destruct (smart_stoploss s); repeat split.
Qed.

Lemma one_entry_mono s w sym rest s' :
  PassSpec.one_entry s w rest s' -> PassSpec.one_entry s w (sym :: rest) s'.
Proof.
  intros (pt & sym0 & p & Hin & H). exists pt, sym0, p. split; [right; exact Hin | exact H].
Qed.

Lemma futures_loop_one_entry w symbols s :
  (0 < cooldown_period (config s))%Z -> now w <> 0%Z ->
  futures_loop w symbols s = s \/ PassSpec.one_entry s w symbols (futures_loop w symbols s).
Proof.
  intros Hc Hn. induction symbols as [|sym rest IH]; [left; reflexivity|].
  cbn [futures_loop].
  destruct (_can_execute_trade w s); [|left; reflexivity]. cbn [negb].
  assert (Hskip : futures_loop w rest s = s \/
                  PassSpec.one_entry s w (sym :: rest) (futures_loop w rest s)).
  { destruct IH as [IH|IH]; [left; exact IH | right; apply one_entry_mono; exact IH]. }
  assert (Hstep : forall pt current_price,
    price w sym = Some current_price ->
    let r := open_position pt s w sym current_price None in
    let s1 := if fst r then note_trade (snd r) (now w) else snd r in
    futures_loop w rest s1 = s \/
    PassSpec.one_entry s w (sym :: rest) (futures_loop w rest s1)).
  { intros pt current_price Hprice r s1. subst s1 r.
    destruct (fst (open_position pt s w sym current_price None)) eqn:Hs.
    - destruct (open_position_counts pt s w sym current_price None Hs) as (_ & _ & Hcfg).
      pose proof (cooldown_blocks w (snd (open_position pt s w sym current_price None)))
        as Hblock.
      rewrite Hcfg in Hblock. specialize (Hblock Hc Hn).
      rewrite (futures_loop_blocked w rest _ Hblock).
      right. exists pt, sym, current_price. split; [left; reflexivity|].
      split; [exact Hprice|]. split; [exact Hs | reflexivity].
    - rewrite (open_position_failed pt s w sym current_price None Hs). exact Hskip. }
  destruct (futures_signal w sym); [| |exact Hskip].
  - destruct (price w sym) as [p|] eqn:Hprice; [|exact Hskip].
    cbn [truthy]. destruct (Qeq_dec p 0); [exact Hskip|].
    specialize (Hstep LONG p eq_refl). cbv zeta in Hstep.
    unfold open_long_position.
    destruct (open_position LONG s w sym p None) as [success s1]. exact Hstep.
  - destruct (price w sym) as [p|] eqn:Hprice; [|exact Hskip].
    cbn [truthy]. destruct (Qeq_dec p 0); [exact Hskip|].
    specialize (Hstep SHORT p eq_refl). cbv zeta in Hstep.
    unfold open_short_position.
    destruct (open_position SHORT s w sym p None) as [success s1]. exact Hstep.
Qed.

End OnePass.

(** X26.  With a positive cooldown and a clock that is read as one
    instant, not zero, for the whole pass, [_execute_futures_strategy]
    opens at most one position per pass: either nothing changes, or one
    entry succeeds, for one of the first three futures pairs, and ends
    the loop, because the trade it notes starts the cooldown: one
    position and one trade more are counted, the book grows by one
    position at most, and [_can_execute_trade] is false afterwards. *)
Theorem cooldown_allows_one_entry_per_pass
    (s : TradingSystem.t) (w : TradingSystem.World) :
  (0 < TradingSystem.cooldown_period (TradingSystem.config s))%Z ->
  TradingSystem.now w <> 0%Z ->
  let s' := TradingSystem._execute_futures_strategy s w in
  s' = s \/
  (PassSpec.one_entry s w
     (firstn 3 (TradingSystem.futures_pairs (TradingSystem.config s))) s' /\
   TradingSystem.position_count s' = S (TradingSystem.position_count s) /\
   TradingSystem.total_trades_today s' = S (TradingSystem.total_trades_today s) /\
   (length (TradingSystem.positions s') <= S (length (TradingSystem.positions s)))%nat /\
   TradingSystem._can_execute_trade w s' = false).
Proof.
  intros Hc Hn s'. subst s'. unfold TradingSystem._execute_futures_strategy.
  destruct (futures_loop_one_entry w
              (firstn 3 (TradingSystem.futures_pairs (TradingSystem.config s))) s Hc Hn)
    as [H|H]; [left; exact H|].
  right. split; [exact H|].
  destruct H as (pt & sym & p & _ & _ & Hs & ->).
  destruct (open_position_counts pt s w sym p None Hs) as (Hpc & Htt & Hcfg).
  cbn [TradingSystem.position_count TradingSystem.total_trades_today
       TradingSystem.positions TradingSystem.note_trade].
  split; [exact Hpc|]. split; [rewrite Htt; reflexivity|].
  split; [apply open_position_book|].
  apply cooldown_blocks; [rewrite Hcfg; exact Hc | exact Hn].
Qed.

Lemma cooldown_allows_one_entry_per_pass_witness :
  let s := Book.system TradingSystem.default_config [] 0 in
  TradingSystem.position_count (TradingSystem._execute_futures_strategy s Book.eager)
  = 1%nat.
Proof.
  intros s.
  destruct (cooldown_allows_one_entry_per_pass s Book.eager) as [H|(_ & H & _)].
  - reflexivity.
  - discriminate.
  - exfalso. apply (f_equal TradingSystem.position_count) in H.
    vm_compute in H. discriminate H.
  - exact H.
Defined.

(** ** Positions that reach their stop or target *)

Section Watch.

Import TradingSystem.

Lemma should_close_reached engine position v current_price :
  WatchSpec.reached position current_price ->
  _should_close_position engine (set_pnl position v) current_price = true.
Proof.
  unfold WatchSpec.reached, _should_close_position. cbn [stop_loss take_profit
    position_type set_pnl]. intros [(stop & -> & Hpos & Hhit)|(target & -> & Hpos & Hhit)].
  - assert (H0 : Py.flt (Py.Num 0) (Py.Num stop) = true) by (apply flt_num; exact Hpos).
    rewrite H0. destruct (position_type position); apply fle_num in Hhit; rewrite Hhit;
      reflexivity.
  - assert (H0 : Py.flt (Py.Num 0) (Py.Num target) = true) by (apply flt_num; exact Hpos).
    rewrite H0.
    assert (Ht : match position_type position with
                 | LONG => Py.fle (Py.Num target) (Py.Num current_price)
                 | SHORT => Py.fle (Py.Num current_price) (Py.Num target)
                 end = true).
    { destruct (position_type position); apply fle_num; exact Hhit. }
    rewrite Ht. destruct (if Py.flt (Py.Num 0) (stop_loss position) then _ else false);
      reflexivity.
Qed.

(** One step of the first loop of [_check_position_stops]. *)
Lemma watch_positions_cons c w engine k q rest :
  exists engine' q' (hit : bool),
    watch_positions c w engine ((k, q) :: rest)
    = ((k, q') :: fst (fst (watch_positions c w engine' rest)),
       snd (fst (watch_positions c w engine' rest)),
       if hit then k :: snd (watch_positions c w engine' rest)
       else snd (watch_positions c w engine' rest)) /\
    (forall current_price,
       status q = OPEN -> price w (symbol q) = Some current_price ->
       hit = _should_close_position engine
               (set_pnl q (_calculate_position_pnl c q current_price)) current_price /\
       status q' = OPEN /\ symbol q' = symbol q /\ position_type q' = position_type q).
Proof.
  cbn [watch_positions]. destruct (status q) eqn:Hst.
  - destruct (price w (symbol q)) as [p|] eqn:Hp.
    + destruct engine as [e|].
      * destruct (SmartStopLoss.update_position_stop_loss e k _ _ _ p _ _ _)
          as [stop e'] eqn:Hup.
        exists (Some e'). eexists. eexists. split.
        -- destruct (watch_positions c w (Some e') rest) as [[rest' engine''] ids].
           reflexivity.
        -- intros cp _ [= <-]. cbn. rewrite Hst. repeat split.
      * exists None. eexists. eexists. split.
        -- destruct (watch_positions c w None rest) as [[rest' engine''] ids]. reflexivity.
        -- intros cp _ [= <-]. cbn. rewrite Hst. repeat split.
    + exists engine, q, false. split.
      * destruct (watch_positions c w engine rest) as [[rest' engine'] ids]. reflexivity.
      * intros cp _ H. discriminate H.
  - exists engine, q, false. split.
    + destruct (watch_positions c w engine rest) as [[rest' engine'] ids]. reflexivity.
    + intros cp H. discriminate H.
Qed.

Lemma watch_positions_hit c w items pid p current_price : forall engine,
  dict_get pid items = Some p -> status p = OPEN ->
  price w (symbol p) = Some current_price ->
  WatchSpec.reached p current_price ->
  In pid (snd (watch_positions c w engine items)) /\
  exists p2,
    dict_get pid (fst (fst (watch_positions c w engine items))) = Some p2 /\
    status p2 = OPEN /\ symbol p2 = symbol p /\ position_type p2 = position_type p.
Proof.
  induction items as [|[k q] rest IH]; intros engine Hget Hst Hprice Hhit; [discriminate|].
  destruct (watch_positions_cons c w engine k q rest) as (engine' & q' & hit & -> & Hq).
  cbn [fst snd]. cbn [dict_get] in Hget |- *.
  destruct (decide (pid = k)) as [->|Hne].
  - injection Hget as ->. destruct (Hq current_price Hst Hprice) as (-> & Hst' & Hsym & Hpt).
    rewrite should_close_reached by exact Hhit.
    split; [left; reflexivity|]. exists q'. repeat split; assumption.
  - destruct (IH engine' Hget Hst Hprice Hhit) as (Hin & Hp2).
    split; [|exact Hp2]. destruct hit; [right; exact Hin | exact Hin].
Qed.

Lemma close_ids_stays_closed w reason (ids : list string) : forall s k p,
  dict_get k (positions s) = Some p -> is_closed p = true ->
  dict_get k (positions
    (fold_left (fun acc pid => snd (close_position acc w pid reason)) ids s)) = Some p.
Proof.
  induction ids as [|h ids IH]; intros s k p Hget Hp; [exact Hget|].
  cbn [fold_left]. apply IH; [|exact Hp]. apply close_position_stays_closed; assumption.
Qed.

Lemma close_ids_closes w reason (ids : list string) : forall s pid p current_price,
  In pid ids -> dict_get pid (positions s) = Some p -> status p = OPEN ->
  price w (symbol p) = Some current_price ->
  close_order w (symbol p) (position_type p) = Return true ->
  exists p',
    dict_get pid (positions
      (fold_left (fun acc pid => snd (close_position acc w pid reason)) ids s)) = Some p' /\
    status p' = CLOSED /\ close_reason p' = reason /\ exit_price p' = current_price.
Proof.
  induction ids as [|h ids IH]; intros s pid p cp Hin Hget Hst Hprice Horder; [destruct Hin|].
  cbn [fold_left]. destruct (decide (h = pid)) as [->|Hne].
  - assert (Ht : fst (fst (close_position s w pid reason)) = true).
    { unfold close_position. rewrite Hget, Hst, Hprice, Horder. reflexivity. }
    destruct (close_position_result s w pid reason Ht)
      as (p0 & cp0 & Hget0 & _ & Hprice0 & _ & Hres).
    rewrite Hget in Hget0. injection Hget0 as <-.
    rewrite Hprice in Hprice0. injection Hprice0 as <-.
    cbv zeta in Hres.
    set (p' := mark_closed p cp (now w) (_calculate_position_pnl (config s) p cp) reason)
      in *.
    exists p'. split; [|repeat split].
    apply close_ids_stays_closed; [|reflexivity].
    rewrite Hres. destruct (smart_stoploss s); cbn; apply dict_get_set_eq.
  - destruct Hin as [E|Hin]; [contradiction|].
    apply (IH _ pid p cp Hin); try assumption.
    rewrite close_position_other by congruence. exact Hget.
Qed.

(** A pass of [_check_position_stops] closes what has reached its stop
    or its target, when there is a price and the exchange accepts. *)
Lemma check_position_stops_closes s w pid position current_price :
  dict_get pid (positions s) = Some position ->
  status position = OPEN ->
  price w (symbol position) = Some current_price ->
  close_order w (symbol position) (position_type position) = Return true ->
  WatchSpec.reached position current_price ->
  exists position',
    dict_get pid (positions (_check_position_stops s w)) = Some position' /\
    status position' = CLOSED /\
    close_reason position' = "STOP_LOSS"%string /\
    exit_price position' = current_price.
Proof.
  intros Hget Hst Hprice Horder Hhit. unfold _check_position_stops.
  destruct (watch_positions_hit (config s) w (positions s)
              pid position current_price (smart_stoploss s)
              Hget Hst Hprice Hhit) as (Hin & p2 & Hget2 & Hst2 & Hsym2 & Hpt2).
  destruct (watch_positions (config s) w (smart_stoploss s) (positions s))
    as [[items engine] ids].
  cbn [fst snd] in Hin, Hget2.
  apply (close_ids_closes w "STOP_LOSS" ids _ pid p2 current_price Hin).
  - exact Hget2.
  - exact Hst2.
  - rewrite Hsym2. exact Hprice.
  - rewrite Hsym2, Hpt2. exact Horder.
Qed.


End Watch.




(** X27.  An open position whose price has reached the stop or the
    target it carries is closed by [_check_position_stops], provided
    there is a price for its instrument and the exchange accepts the
    close.  It is closed at that price, and the reason recorded is
    STOP_LOSS in either case, also when it was the target that was
    reached. *)
Theorem reached_target_is_closed_as_stop_loss
    (s : TradingSystem.t) (w : TradingSystem.World) (pid : string)
    (position : TradingSystem.TradingPosition) (current_price : Q) :
  dict_get pid (TradingSystem.positions s) = Some position ->
  TradingSystem.status position = TradingSystem.OPEN ->
  TradingSystem.price w (TradingSystem.symbol position) = Some current_price ->
  TradingSystem.close_order w (TradingSystem.symbol position)
    (TradingSystem.position_type position) = Return true ->
  WatchSpec.reached position current_price ->
  exists position',
    dict_get pid (TradingSystem.positions (TradingSystem._check_position_stops s w))
    = Some position' /\
    TradingSystem.status position' = TradingSystem.CLOSED /\
    TradingSystem.close_reason position' = "STOP_LOSS"%string /\
    TradingSystem.exit_price position' = current_price.
Proof.
  intros Hget Hst Hprice Horder Hhit.
  exact (check_position_stops_closes s w pid position current_price
           Hget Hst Hprice Horder Hhit).
Qed.

Lemma reached_target_is_closed_as_stop_loss_witness :
  let s := Book.system TradingSystem.default_config
             [("LONG_BTC-USDT-SWAP_1"%string, Book.open_example)] 0 in
  exists position',
    dict_get "LONG_BTC-USDT-SWAP_1"
      (TradingSystem.positions (TradingSystem._check_position_stops s WatchSpec.rally))
    = Some position' /\
    TradingSystem.close_reason position' = "STOP_LOSS"%string /\
    TradingSystem.exit_price position' = 110.
Proof.
  intros s.
  destruct (reached_target_is_closed_as_stop_loss s WatchSpec.rally "LONG_BTC-USDT-SWAP_1"
              Book.open_example 110) as (p' & H1 & _ & H2 & H3).
  - reflexivity.
  - reflexivity.
  - reflexivity.
  - reflexivity.
  - right. exists 104. split; [reflexivity|]. split; [reflexivity | cbn; discriminate].
  - exists p'. repeat split; assumption.
Defined.

(** ** The daily reset *)

(** X28.  When the statistics of the day are due for a reset,
    [_check_daily_reset] clears the daily profit and the count of
    trades, takes the balance as the balance at the start of the day and
    leaves the book and the balances as they are; a further call on the
    same day, or with a clock that has gone back, changes nothing.  The
    reset rearms the daily loss limit: with a balance that is not zero
    and a positive [max_daily_loss], [_check_risk_limits] then depends
    on the number of positions only, whatever was lost the day before.
    With a zero balance the division by the start balance fails from
    then on, and [_check_risk_limits] is true. *)
Theorem new_day_rearms_the_daily_loss_limit
    (s : TradingSystem.t) (w : TradingSystem.World) :
  DaySpec.due s w ->
  let s' := TradingSystem._check_daily_reset s w in
  TradingSystem.daily_pnl s' = 0 /\
  TradingSystem.total_trades_today s' = 0%nat /\
  TradingSystem.today_start_balance s' = TradingSystem.balance s /\
  TradingSystem.positions s' = TradingSystem.positions s /\
  TradingSystem.balance s' = TradingSystem.balance s /\
  TradingSystem.available_balance s' = TradingSystem.available_balance s /\
  (forall w', (TradingSystem.today_start w' <= TradingSystem.today_start w)%Z ->
     TradingSystem._check_daily_reset s' w' = s') /\
  (~ TradingSystem.balance s == 0 ->
   0 < TradingSystem.max_daily_loss (TradingSystem.config s) ->
   TradingSystem._check_risk_limits s'
   = (TradingSystem.max_positions (TradingSystem.config s)
        <=? length (TradingSystem.positions s))%nat) /\
  (TradingSystem.balance s == 0 -> TradingSystem._check_risk_limits s' = true).
Proof.
  intros Hdue s'.
  assert (Hs' : s' = TradingSystem.reset_day s (TradingSystem.today_start w)).
  { subst s'. unfold TradingSystem._check_daily_reset. unfold DaySpec.due in Hdue.
    destruct (TradingSystem.last_reset_date s) as [d|]; [|reflexivity].
    destruct (Z.ltb_spec d (TradingSystem.today_start w)); [reflexivity|lia]. }
  rewrite Hs'. cbn [TradingSystem.reset_day TradingSystem.daily_pnl
    TradingSystem.total_trades_today TradingSystem.today_start_balance
    TradingSystem.positions TradingSystem.balance TradingSystem.available_balance].
  repeat (split; [reflexivity|]). split; [|split].
  - intros w' Hw'. unfold TradingSystem._check_daily_reset.
    cbn [TradingSystem.last_reset_date TradingSystem.reset_day].
    destruct (Z.ltb_spec (TradingSystem.today_start w) (TradingSystem.today_start w'));
      [lia|reflexivity].
  - intros Hb Hm. unfold TradingSystem._check_risk_limits.
    cbn [TradingSystem.reset_day TradingSystem.today_start_balance TradingSystem.daily_pnl
         TradingSystem.config TradingSystem.positions].
    destruct (Qeq_dec (TradingSystem.balance s) 0) as [E|_]; [contradiction|].
    destruct (Qlt_le_dec (Py.abs 0 / TradingSystem.balance s)
                (TradingSystem.max_daily_loss (TradingSystem.config s))) as [_|Hge];
      [reflexivity|].
    exfalso. assert (E : Py.abs 0 / TradingSystem.balance s == 0).
    { unfold Py.abs. destruct (Qlt_le_dec 0 0); field; exact Hb. }
    rewrite E in Hge. lra.
  - intros Hb. unfold TradingSystem._check_risk_limits.
    cbn [TradingSystem.reset_day TradingSystem.today_start_balance].
    destruct (Qeq_dec (TradingSystem.balance s) 0); [reflexivity|contradiction].
Qed.

Lemma new_day_rearms_the_daily_loss_limit_witness :
  let s := Book.system TradingSystem.default_config [] (-50) in
  let w := DaySpec.tomorrow in
  TradingSystem._check_risk_limits s = true /\
  TradingSystem._check_risk_limits (TradingSystem._check_daily_reset s w) = false.
Proof.
  intros s w. split; [vm_compute; reflexivity|].
  destruct (new_day_rearms_the_daily_loss_limit s w) as (_ & _ & _ & _ & _ & _ & _ & H & _).
  - reflexivity.
  - rewrite H; [reflexivity | vm_compute; discriminate | reflexivity].
Defined.

(** ** Signal strength and risk level *)

Section Strength.

Import SMCScanner Analysis Derive.

Lemma min2_le_both a b : Py.min2 a b <= a /\ Py.min2 a b <= b.
Proof. unfold Py.min2. destruct (Qlt_le_dec b a); split; lra. Qed.

Lemma min2_ge a b c : c <= a -> c <= b -> c <= Py.min2 a b.
Proof. intros. unfold Py.min2. destruct (Qlt_le_dec b a); lra. Qed.

Lemma third_of_le a b : a / 3 <= b <-> a <= 3 * b.
Proof.
  assert (E : a == a / 3 * 3) by (field; discriminate).
  split; intros H; [rewrite E; lra|].
  apply Qle_shift_div_r; [reflexivity|lra].
Qed.

End Strength.

(** X29.  With a confidence between 0 and 1 and a trend score between
    -3 and 3, [calculate_signal_strength] is the weighted sum of its
    five factors, its final [min] with 1 never takes effect, and it lies
    between 0.075 and 1; without the trend or the volume status it is
    0.5.  With the default thresholds 0.9 and 0.7 a low risk level
    therefore needs a confidence of at least 2/3, a trend score of at
    least 2 in absolute value and at least three levels, and analyses
    without trend or volume status are always of high risk. *)
Theorem low_risk_needs_strong_inputs (i : Derive.StrengthInput) :
  (forall c, Derive.in_confidence i = Some c -> 0 <= c <= 1) ->
  (forall t, Derive.in_trend_score i = Some t -> (Z.abs t <= 3)%Z) ->
  0.075 <= Derive.calculate_signal_strength i <= 1 /\
  (Derive.calculate_risk_level 0.9 0.7 i = SMCScanner.LowRisk ->
   2 / 3 <= default 0.5 (Derive.in_confidence i) /\
   (exists t, Derive.in_trend_score i = Some t /\ (2 <= Z.abs t)%Z) /\
   (3 <= Derive.in_support_levels i + Derive.in_resistance_levels i)%nat) /\
  (Derive.in_trend_score i = None \/ Derive.in_volume_status i = None ->
   Derive.calculate_signal_strength i = 0.5 /\
   Derive.calculate_risk_level 0.9 0.7 i = SMCScanner.HighRisk).
Proof.
  intros Hc Ht.
  assert (Hmissing : Derive.in_trend_score i = None \/ Derive.in_volume_status i = None ->
                     Derive.calculate_signal_strength i = 0.5).
  { unfold Derive.calculate_signal_strength. intros [-> | ->]; [reflexivity|].
    destruct (Derive.in_trend_score i); reflexivity. }
  assert (Hrisk_missing :
    Derive.calculate_signal_strength i = 0.5 ->
    Derive.calculate_risk_level 0.9 0.7 i = SMCScanner.HighRisk).
  { intros E. unfold Derive.calculate_risk_level. rewrite E. reflexivity. }
  destruct (Derive.in_trend_score i) as [t|] eqn:Et.
  2:{ rewrite (Hmissing (or_introl eq_refl)).
      split; [split; discriminate|]. split.
      - rewrite (Hrisk_missing (Hmissing (or_introl eq_refl))). discriminate.
      - intros _. split; [reflexivity|]. apply Hrisk_missing. apply Hmissing. left.
        reflexivity. }
  destruct (Derive.in_volume_status i) as [v|] eqn:Ev.
  2:{ rewrite (Hmissing (or_intror eq_refl)).
      split; [split; discriminate|]. split.
      - rewrite (Hrisk_missing (Hmissing (or_intror eq_refl))). discriminate.
      - intros _. split; [reflexivity|]. apply Hrisk_missing. apply Hmissing. right.
        reflexivity. }
  clear Hmissing Hrisk_missing.
  assert (Hstrength : Derive.calculate_signal_strength i
    = Py.min2
        (default 0.5 (Derive.in_confidence i) * 0.3
         + inject_Z (Z.abs t) / 3 * 0.25
         + Py.min2 (Analysis.of_nat (Derive.in_support_levels i
                                     + Derive.in_resistance_levels i) / 6) 1 * 0.2
         + match v with
           | Derive.HugeVolume | Derive.HighVolume => 1
           | _ => 0.5
           end * 0.15
         + Py.min2 (Analysis.of_nat (Derive.in_buy_signals i
                                     + Derive.in_sell_signals i) / 4) 1 * 0.1) 1).
  { unfold Derive.calculate_signal_strength. rewrite Et, Ev. reflexivity. }
  set (c := default 0.5 (Derive.in_confidence i)) in *.
  set (n := (Derive.in_support_levels i + Derive.in_resistance_levels i)%nat) in *.
  set (m := (Derive.in_buy_signals i + Derive.in_sell_signals i)%nat) in *.
  set (ts := inject_Z (Z.abs t) / 3) in *.
  set (lc := Py.min2 (Analysis.of_nat n / 6) 1) in *.
  set (sf := Py.min2 (Analysis.of_nat m / 4) 1) in *.
  set (vf := match v with Derive.HugeVolume | Derive.HighVolume => 1 | _ => 0.5 end) in *.
  assert (Hcr : 0 <= c <= 1).
  { subst c. destruct (Derive.in_confidence i) as [c0|]; [apply Hc; reflexivity|].
    cbn. split; discriminate. }
  assert (Htr : 0 <= ts <= 1).
  { subst ts. specialize (Ht t eq_refl). split.
    - apply Qle_shift_div_l; [reflexivity|].
      apply Qle_trans with (inject_Z 0); [discriminate|]. rewrite <- Zle_Qle. lia.
    - apply Qle_shift_div_r; [reflexivity|].
      apply Qle_trans with (inject_Z 3); [rewrite <- Zle_Qle; lia | discriminate]. }
  assert (Hlc : 0 <= lc <= 1 /\ lc <= Analysis.of_nat n / 6).
  { subst lc. pose proof (of_nat_nonneg n) as H0.
    destruct (min2_le_both (Analysis.of_nat n / 6) 1) as (H1 & H2).
    repeat split; try assumption. apply min2_ge; [|discriminate].
    apply Qle_shift_div_l; [reflexivity|lra]. }
  assert (Hsf : 0 <= sf <= 1).
  { subst sf. pose proof (of_nat_nonneg m) as H0.
    destruct (min2_le_both (Analysis.of_nat m / 4) 1) as (H1 & H2).
    split; [|assumption]. apply min2_ge; [|discriminate].
    apply Qle_shift_div_l; [reflexivity|lra]. }
  assert (Hvf : 0.5 <= vf <= 1).
  { subst vf. destruct v; split; discriminate. }
  set (ws := c * 0.3 + ts * 0.25 + lc * 0.2 + vf * 0.15 + sf * 0.1) in *.
  assert (Hws : 0.075 <= ws <= 1) by (subst ws; lra).
  assert (Hmin : Py.min2 ws 1 = ws).
  { unfold Py.min2. destruct (Qlt_le_dec 1 ws); [lra|reflexivity]. }
  rewrite Hmin in Hstrength. rewrite Hstrength.
  split; [exact Hws|]. split.
  - unfold Derive.calculate_risk_level. rewrite Hstrength.
    destruct (Qltb ws 0.9) eqn:Hlow; cbn [negb].
    { destruct (negb (Qltb ws 0.7)); discriminate. }
    intros _. apply Qltb_false in Hlow.
    split; [apply third_of_le; subst ws; lra|]. split.
    + exists t. split; [reflexivity|].
      assert (Hts : 0.6 <= ts) by (subst ws; lra).
      subst ts. destruct (Z_le_gt_dec 2 (Z.abs t)) as [H2|H2]; [exact H2|]. exfalso.
      assert (inject_Z (Z.abs t) <= 1)
        by (apply Qle_trans with (inject_Z 1); [rewrite <- Zle_Qle; lia | discriminate]).
      assert (inject_Z (Z.abs t) / 3 <= 0.4) by (apply third_of_le; lra).
      lra.
    + assert (Hl : 0.5 <= Analysis.of_nat n / 6) by (subst ws; lra).
      destruct (le_gt_dec 3 n) as [H3|H3]; [exact H3|]. exfalso.
      assert (Analysis.of_nat n <= 2).
      { apply Qle_trans with (inject_Z 2); [|discriminate].
        unfold Analysis.of_nat. rewrite <- Zle_Qle. lia. }
      assert (Analysis.of_nat n / 6 <= 0.4) by (apply Qle_shift_div_r; [reflexivity|lra]).
      lra.
  - intros [H|H]; discriminate H.
Qed.

Lemma low_risk_needs_strong_inputs_witness :
  let i := {| Derive.in_confidence := Some 0.9; Derive.in_trend_score := Some 3%Z;
              Derive.in_support_levels := 3; Derive.in_resistance_levels := 3;
              Derive.in_volume_status := Some Derive.HighVolume;
              Derive.in_buy_signals := 3; Derive.in_sell_signals := 1 |} in
  Derive.calculate_risk_level 0.9 0.7 i = SMCScanner.LowRisk /\
  0.075 <= Derive.calculate_signal_strength i <= 1.
Proof.
  intros i. split; [vm_compute; reflexivity|].
  apply (low_risk_needs_strong_inputs i).
  - intros c [= <-]. split; discriminate.
  - intros t [= <-]. discriminate.
Defined.

(** ** The sequence of stops of one position *)

Section StopSequence.

Import SmartStopLoss StopTrace.

(** A frame that is in order and not short is empty or has an ATR that
    is a number. *)
Lemma numeric_frame d :
  frame_ok d -> short_frame d = false ->
  d = None \/ exists m atr, d = Some m /\ md_atr m = Py.Num atr /\ 0 <= atr.
Proof.
  destruct d as [m|]; [|auto]. cbn. destruct (md_atr m) as [atr|] eqn:E; [|discriminate].
  intros H _. right. exists m, atr. auto.
Qed.

Lemma dynamic_numeric s pt entry d :
  settings_ok s -> 0 < entry -> frame_ok d -> short_frame d = false ->
  exists dyn,
    calculate_dynamic_stop_loss s pt entry d = Py.Num dyn /\
    match pt with
    | LONG => 0 <= dyn
    | SHORT => 0 < dyn
    end.
Proof.
  intros Hs He Hd Hn.
  pose proof (dynamic_stop_cases s pt entry d Hs (Qlt_le_weak _ _ He) Hd) as H.
  cbv zeta in H. rewrite Hn in H. destruct H as (v & -> & Hv).
  exists v. split; [reflexivity|].
  assert (Hcap : StopSpec.risk_cap s d <= 1).
  { unfold StopSpec.risk_cap. destruct Hs as (_ & _ & H1).
    destruct (StopSpec.usable d); [exact H1 | unfold fixed_risk; lra]. }
  destruct pt; [nra | lra].
Qed.

(** With a number in store the trailing stop is that number or a
    tighter one. *)
Lemma trailing_after s pt entry current prev d :
  0 <= atr_multiplier s -> frame_ok d -> short_frame d = false -> 0 < current ->
  exists t,
    calculate_trailing_stop_loss s pt entry current (Some (Py.Num prev)) d
    = Some (Py.Num t) /\
    match pt with
    | LONG => prev <= t
    | SHORT => t <= prev /\ (0 < prev -> 0 < t)
    end.
Proof.
  intros Hm Hd Hn Hc. unfold calculate_trailing_stop_loss.
  destruct (trailing_enabled s); cbn [negb].
  2:{ exists prev. split; [reflexivity|]. destruct pt; [lra | split; [lra | auto]]. }
  destruct (numeric_frame d Hd Hn) as [-> | (m & atr & -> & Eatr & Hatr)].
  { exists prev. split; [reflexivity|]. destruct pt; [lra | split; [lra | auto]]. }
  rewrite Eatr. cbn [Py.fmul Py.fsub Py.fadd Py.flift2].
  assert (Hdist : 0 <= atr * atr_multiplier s * 0.7) by (apply product_nonneg; lra).
  destruct pt.
  - destruct (Py.flt (Py.Num prev) _) eqn:E.
    + apply flt_num in E. eexists. split; [reflexivity|]. lra.
    + exists prev. split; [reflexivity|]. lra.
  - destruct (Py.flt _ (Py.Num prev)) eqn:E.
    + apply flt_num in E. eexists. split; [reflexivity|]. split; [lra|]. intros _. lra.
    + exists prev. split; [reflexivity|]. split; [lra | auto].
Qed.

(** With nothing in store the trailing stop is missing or a number,
    positive for a short position. *)
Lemma trailing_first s pt entry current d :
  0 <= atr_multiplier s -> 0 < entry -> frame_ok d -> short_frame d = false ->
  calculate_trailing_stop_loss s pt entry current None d = None \/
  exists t,
    calculate_trailing_stop_loss s pt entry current None d = Some (Py.Num t) /\
    match pt with
    | LONG => True
    | SHORT => 0 < t
    end.
Proof.
  intros Hm He Hd Hn. unfold calculate_trailing_stop_loss.
  destruct (trailing_enabled s); cbn [negb]; [|left; reflexivity].
  destruct (numeric_frame d Hd Hn) as [-> | (m & atr & -> & Eatr & Hatr)];
    [left; reflexivity|].
  rewrite Eatr. cbn [Py.fmul Py.fsub Py.fadd Py.flift2].
  assert (Hdist : 0 <= atr * atr_multiplier s * 0.7) by (apply product_nonneg; lra).
  right. destruct pt; eexists; (split; [reflexivity|]); [exact I | lra].
Qed.

Lemma or_else_numeric t d :
  Py.f_or_else (Some (Py.Num t)) (Py.Num d) = Py.Num (if Qeq_dec t 0 then d else t).
Proof. cbn. destruct (Qeq_dec t 0); reflexivity. Qed.

(** The break-even candidate of the final stop. *)
Lemma break_even_candidate s pt entry current dyn :
  0 < entry ->
  exists b,
    Py.f_or_else
      (Py.Num <$> calculate_break_even_stop s pt entry current default_profit_threshold)
      (Py.Num dyn) = Py.Num b /\
    (0 < dyn -> 0 < b).
Proof.
  intros He.
  destruct (break_even_cases s pt entry current default_profit_threshold) as [-> | ->].
  - exists dyn. split; [reflexivity | auto].
  - cbn [fmap option_fmap option_map]. rewrite or_else_numeric.
    eexists. split; [reflexivity|]. intros Hd.
    destruct (Qeq_dec _ 0); [exact Hd|]. destruct pt; lra.
Qed.

Lemma final_stop_numeric pt dyn x b :
  match pt with
  | LONG => Py.fmax_list (Py.Num dyn) [Py.Num x; Py.Num b]
  | SHORT => Py.fmin_list (Py.Num dyn) [Py.Num x; Py.Num b]
  end
  = Py.Num match pt with
           | LONG => Py.max2 (Py.max2 dyn x) b
           | SHORT => Py.min2 (Py.min2 dyn x) b
           end.
Proof.
  destruct pt; unfold Py.fmax_list, Py.fmin_list; cbn [fold_left].
  - rewrite !fmax2_num. reflexivity.
  - rewrite !fmin2_num. reflexivity.
Qed.

(** One call with numbers throughout returns a number, at least as
    tight as the one in store. *)
Lemma update_numeric self pid sym pt entry current d50 d20 now :
  settings_ok (settings self) -> 0 < entry -> 0 < current ->
  frame_ok d50 -> short_frame d50 = false ->
  frame_ok d20 -> short_frame d20 = false ->
  stored_ok pt self pid ->
  exists v,
    fst (update_position_stop_loss self pid sym pt entry current d50 d20 now) = Py.Num v /\
    match pt with
    | LONG => True
    | SHORT => 0 < v
    end /\
    forall info, position_stops self !! pid = Some info ->
                 tighter pt (current_stop info) (Py.Num v).
Proof.
  intros Hs He Hc H50 N50 H20 N20 Hst.
  pose proof Hs as (Hm & _).
  unfold update_position_stop_loss. cbn [fst].
  destruct (dynamic_numeric (settings self) pt entry d50 Hs He H50 N50)
    as (dyn & -> & Hdyn).
  destruct (break_even_candidate (settings self) pt entry current dyn He)
    as (b & -> & Hb).
  destruct (position_stops self !! pid) as [info|] eqn:Hprev; cbn [fmap option_fmap option_map].
  - destruct (Hst info Hprev) as (prev & Hcur & Hpos). rewrite Hcur.
    destruct (trailing_after (settings self) pt entry current prev d20 Hm H20 N20 Hc)
      as (t & -> & Ht).
    rewrite or_else_numeric, final_stop_numeric. eexists. split; [reflexivity|].
    destruct pt.
    + split; [exact I|]. intros info' [= <-]. unfold tighter. rewrite Hcur.
      apply fle_num.
      eapply Qle_trans; [|apply max2_ge_l]. eapply Qle_trans; [|apply max2_ge_r].
      destruct (Qeq_dec t 0); lra.
    + destruct Ht as (Hle & Htpos). specialize (Htpos Hpos).
      destruct (Qeq_dec t 0); [lra|]. split.
      * apply min2_pos; [apply min2_pos; assumption | apply Hb; exact Hdyn].
      * intros info' [= <-]. unfold tighter. rewrite Hcur. apply fle_num.
        eapply Qle_trans; [apply min2_le_l|]. eapply Qle_trans; [apply min2_le_r|].
        exact Hle.
  - destruct (trailing_first (settings self) pt entry current d20 Hm He H20 N20)
      as [-> | (t & -> & Ht)].
    + cbn [Py.f_or_else]. rewrite final_stop_numeric. eexists. split; [reflexivity|].
      split; [|intros info H; discriminate H].
      destruct pt; [exact I|].
      apply min2_pos; [apply min2_pos; assumption | apply Hb; exact Hdyn].
    + rewrite or_else_numeric, final_stop_numeric. eexists. split; [reflexivity|].
      split; [|intros info H; discriminate H].
      destruct pt; [exact I|].
      apply min2_pos; [apply min2_pos|]; [exact Hdyn | | apply Hb; exact Hdyn].
      destruct (Qeq_dec t 0); [exact Hdyn | exact Ht].
Qed.

Variables (pid : string) (pt : PositionType) (entry : Q).
Hypothesis entry_pos : 0 < entry.

(** A call made for the position returns a stop at least as tight as the
    one in store, and leaves a state that is again in order. *)
Lemma run_update_same self c :
  settings_ok (settings self) -> stored_ok pt self pid ->
  call_ok pid pt entry c -> uc_id c = pid ->
  stored_ok pt (snd (run_update self c)) pid /\
  (exists info, position_stops (snd (run_update self c)) !! pid = Some info /\
                current_stop info = fst (run_update self c)) /\
  (forall info, position_stops self !! pid = Some info ->
                tighter pt (current_stop info) (fst (run_update self c))).
Proof.
  intros Hs Hst Hc Hid.
  destruct (Hc Hid) as (Hty & Hen & Hpr & H50 & N50 & H20 & N20).
  unfold run_update. rewrite Hid, Hty, Hen.
  destruct (update_numeric self pid (uc_symbol c) pt entry (uc_price c)
              (uc_ohlcv50 c) (uc_ohlcv20 c) (uc_now c)
              Hs entry_pos Hpr H50 N50 H20 N20 Hst) as (v & Hv & Hpos & Hprev).
  pose proof (update_stores self pid (uc_symbol c) pt entry (uc_price c)
                (uc_ohlcv50 c) (uc_ohlcv20 c) (uc_now c)) as Hstored.
  split; [|split].
  - intros info Hinfo. rewrite Hstored in Hinfo. injection Hinfo as <-.
    cbn [current_stop]. exists v. split; [exact Hv | exact Hpos].
  - eexists. split; [exact Hstored | reflexivity].
  - intros info Hinfo. rewrite Hv. apply Hprev. exact Hinfo.
Qed.

(** A call made for another position leaves the stop in store alone. *)
Lemma run_update_other self c :
  uc_id c <> pid ->
  position_stops (snd (run_update self c)) !! pid = position_stops self !! pid.
Proof. intros Hne. unfold run_update. by apply update_other. Qed.

Lemma returned_stops_cons self c rest :
  returned_stops pid self (c :: rest) =
  if decide (uc_id c = pid)
  then fst (run_update self c) :: returned_stops pid (snd (run_update self c)) rest
  else returned_stops pid (snd (run_update self c)) rest.
Proof. cbn [returned_stops]. destruct (run_update self c). reflexivity. Qed.

Lemma returned_stops_sorted calls : forall self,
  settings_ok (settings self) -> stored_ok pt self pid ->
  Forall (call_ok pid pt entry) calls ->
  Sorted (tighter pt) (returned_stops pid self calls) /\
  (forall info, position_stops self !! pid = Some info ->
                HdRel (tighter pt) (current_stop info) (returned_stops pid self calls)).
Proof.
  induction calls as [|c rest IH]; intros self Hs Hst Hall.
  - split; [constructor | intros; constructor].
  - inversion Hall as [|? ? Hc Hrest]; subst.
    rewrite returned_stops_cons.
    assert (Hs' : settings_ok (settings (snd (run_update self c)))) by exact Hs.
    destruct (decide (uc_id c = pid)) as [Hid|Hne].
    + destruct (run_update_same self c Hs Hst Hc Hid)
        as (Hst' & (info' & Hl' & Hcur') & Hprev).
      destruct (IH _ Hs' Hst' Hrest) as (Hsorted & Hhd).
      split.
      * constructor; [exact Hsorted|]. rewrite <- Hcur'. apply Hhd. exact Hl'.
      * intros info Hinfo. constructor. apply Hprev. exact Hinfo.
    + pose proof (run_update_other self c Hne) as Hsame.
      assert (Hst' : stored_ok pt (snd (run_update self c)) pid).
      { intros info. rewrite Hsame. apply Hst. }
      destruct (IH _ Hs' Hst' Hrest) as (Hsorted & Hhd).
      split; [exact Hsorted|]. intros info Hinfo. apply Hhd. rewrite Hsame. exact Hinfo.
Qed.

End StopSequence.

(** X30.  Where no NaN comes in, the stops of a position never loosen.
    Take a position, long or short, entered at a positive price, with
    the settings in their range and the stop in store for it, if there
    is one, a number (positive for a short position).  Take any
    sequence of calls of [update_position_stop_loss], some for this
    position and some for others, in which every call for the position
    is made at a positive price and reads frames that are empty or
    unreadable, or have an ATR that is a number and not negative.  Then
    the stops returned for the position are numbers, each at least as
    tight as the one before it: at least as high for a long position,
    at most as high for a short one. *)
Theorem numeric_stops_never_loosen
    (pid : string) (pt : PositionType) (entry : Q)
    (self : SmartStopLoss.t) (calls : list StopTrace.update_call) :
  0 < entry ->
  StopTrace.settings_ok (SmartStopLoss.settings self) ->
  StopTrace.stored_ok pt self pid ->
  Forall (StopTrace.call_ok pid pt entry) calls ->
  StopTrace.non_loosening pt (StopTrace.returned_stops pid self calls).
Proof.
  intros He Hs Hst Hall.
  exact (proj1 (returned_stops_sorted pid pt entry He calls self Hs Hst Hall)).
Qed.

(** X30, at a long position entered at 100: the price rises to 110 with
    an ATR of 1, another position is updated, then the history of the
    instrument cannot be read while the price falls back to 100.5. *)
Lemma numeric_stops_never_loosen_witness :
  StopTrace.non_loosening LONG
    (StopTrace.returned_stops "P1" StopSpec.new_engine
       [ {| StopTrace.uc_id := "P1"; StopTrace.uc_symbol := "BTC-USDT-SWAP";
            StopTrace.uc_type := LONG; StopTrace.uc_entry := 100;
            StopTrace.uc_price := 110;
            StopTrace.uc_ohlcv50 :=
              Some {| SmartStopLoss.md_atr := Py.Num 1;
                      SmartStopLoss.md_volatility := Some 0.01 |};
            StopTrace.uc_ohlcv20 :=
              Some {| SmartStopLoss.md_atr := Py.Num 1;
                      SmartStopLoss.md_volatility := Some 0.01 |};
            StopTrace.uc_now := 1 |};
         {| StopTrace.uc_id := "P2"; StopTrace.uc_symbol := "ETH-USDT-SWAP";
            StopTrace.uc_type := SHORT; StopTrace.uc_entry := 50;
            StopTrace.uc_price := 49;
            StopTrace.uc_ohlcv50 := None; StopTrace.uc_ohlcv20 := None;
            StopTrace.uc_now := 2 |};
         {| StopTrace.uc_id := "P1"; StopTrace.uc_symbol := "BTC-USDT-SWAP";
            StopTrace.uc_type := LONG; StopTrace.uc_entry := 100;
            StopTrace.uc_price := 100.5;
            StopTrace.uc_ohlcv50 := None; StopTrace.uc_ohlcv20 := None;
            StopTrace.uc_now := 3 |} ]).
Proof.
  apply (numeric_stops_never_loosen "P1" LONG 100).
  - reflexivity.
  - unfold StopTrace.settings_ok. simpl. repeat split; discriminate.
  - intros info H. discriminate H.
  - constructor; [|constructor; [|constructor; [|constructor]]];
      intros H; try discriminate H; simpl;
      repeat split; try reflexivity; try discriminate.
Defined.
